(** * UFootball: tournament-management backend

    A shallow embedding of the Django models, signals and views that carry
    the standings engine, the stat propagation, the tournament/global match
    synchronizer, the visibility resolvers, the roster cap, the lineup
    manager and the match lifecycle, followed by the properties proved of
    them.

    Conventions of the embedding:
    - Python integers are [Z]; strings are [string]; [None] is [option].
    - A table keyed by its primary key is a [gmap Z row]; a queryset is the
      list of its rows ([objects_all]), filtered with stdpp's [filter].
      [order_by] and [distinct] only permute or deduplicate rows and are not
      modelled where a property is about membership, counts and sums. The
      order matters to the standings alone: there the input is the queryset
      [self.team_groups.all()] as a list, in the order the database gives
      it under the [Meta.ordering] of the model.
    - A foreign key is the primary key of the row it points to; following
      it is a lookup in the table it points into.
    - A view or a model method that can raise returns an [outcome]; a view
      that writes returns the database it leaves behind as well, since no
      view of the repository opens a transaction. *)

From Stdlib Require Import ZArith Lia.
From stdpp Require Import gmap strings list sorting.

Open Scope Z_scope.

(** ** Exceptions and outcomes *)

(** The exceptions the views and models raise, and the error responses the
    views return: [BadRequest] is a returned response with status 400,
    [NotAuthenticated] the rejection by the [IsAuthenticated] permission. *)
Inductive exn : Type :=
  | ValidationError (detail : string)
  | PermissionDenied (detail : string)
  | NotAuthenticated
  | BadRequest (detail : string)
  | NameError (name : string)
  | DoesNotExist (model : string)
  | MultipleObjectsReturned (model : string)
  | Http404.

Inductive outcome (A : Type) : Type :=
  | Ok (a : A)
  | Raise (e : exn).
Arguments Ok {A} a.
Arguments Raise {A} e.

Definition is_Ok {A} (o : outcome A) : bool :=
  match o with Ok _ => true | Raise _ => false end.

(** Python resolves a free name in the enclosing scopes and raises
    [NameError] when none binds it. [scope] lists the names bound there. *)
Definition resolve_name (scope : list string) (name : string) : outcome unit :=
  if bool_decide (name ∈ scope) then Ok tt else Raise (NameError name).

(** [x or d] on integers: [0] is falsy. *)
Definition py_or (x d : Z) : Z := if bool_decide (x = 0) then d else x.

(** [max(0, x)] *)
Definition py_max0 (x : Z) : Z := Z.max 0 x.

(** [Model.objects.all()]: the rows of a table, each with its primary key. *)
Definition objects_all {A} (table : gmap Z A) : list (Z * A) := map_to_list table.

(** The primary key an auto-increment column gives to the next row. *)
Definition next_pk {A} (table : gmap Z A) : Z :=
  foldr Z.max 0 (objects_all table).*1 + 1.

(** [qs.count()] *)
Definition count {A} (qs : list A) : Z := Z.of_nat (length qs).

(** [qs.exists()] *)
Definition exists_ {A} (qs : list A) : bool :=
  match qs with [] => false | _ :: _ => true end.

(** [qs.aggregate(total=Sum(field))['total']]: [None] on an empty queryset. *)
Definition aggregate_Sum {A} (field : A → Z) (qs : list A) : option Z :=
  match qs with
  | [] => None
  | _ :: _ => Some (foldr (λ r acc, field r + acc) 0 qs)
  end.

(** [value or 0] where [value] may be [None]. *)
Definition or_0 (value : option Z) : Z :=
  match value with None => 0 | Some v => py_or v 0 end.

(** ** Python built-ins used by the models *)

(** [list.sort(key=...)] is stable: elements with equal keys keep their
    input order. It is modelled by insertion from the right, which places
    an element before the first element whose key is not smaller. *)
Section ListSort.
Context {A K : Type} (key : A → K) (le : K → K → bool).

Fixpoint insert_sorted (x : A) (l : list A) : list A :=
  match l with
  | [] => [x]
  | y :: l' => if le (key x) (key y) then x :: l else y :: insert_sorted x l'
  end.

Definition list_sort (l : list A) : list A := foldr insert_sorted [] l.
End ListSort.

(** Comparison [a <= b] of two 3-tuples of integers, lexicographic as in
    Python. *)
Definition tuple3_le (a b : Z * Z * Z) : bool :=
  let '(a1, a2, a3) := a in
  let '(b1, b2, b3) := b in
  if bool_decide (a1 < b1) then true
  else if bool_decide (b1 < a1) then false
  else if bool_decide (a2 < b2) then true
  else if bool_decide (b2 < a2) then false
  else bool_decide (a3 ≤ b3).

(** [enumerate(l, start)] *)
Fixpoint enumerate {A} (start : Z) (l : list A) : list (Z * A) :=
  match l with
  | [] => []
  | x :: l' => (start, x) :: enumerate (start + 1) l'
  end.

(** ** users/models.py *)

Module Users.

Record User := {
  id : Z;
  email : string;
  user_type : string;
  is_authenticated : bool;
  is_active : bool;
  is_verified : bool;
  is_superuser : bool;
}.

Definition is_parent (self : User) : bool := bool_decide (user_type self = "parent").
Definition is_staff_member (self : User) : bool := bool_decide (user_type self = "staff").
Definition is_admin_user (self : User) : bool := bool_decide (user_type self = "admin").
Definition is_viewer (self : User) : bool := bool_decide (user_type self = "viewer").

End Users.

(** ** tournaments/models.py *)

Module Tournaments.

Record Tournament := {
  t_id : Z;
  t_status : string;
  organizer : Z;
  points_per_win : Z;
  points_per_draw : Z;
  points_per_loss : Z;
}.

Record TournamentGroup := {
  g_id : Z;
  g_tournament : Tournament;
  g_name : string;
}.

Record TournamentPhase := {
  ph_id : Z;
  ph_tournament : Z;
  phase_type : string;
}.

Record TeamGroup := {
  tg_id : Z;
  tg_team : Z;
  tg_group : Z;
  tg_position : option Z;
  is_qualified : bool;
}.

(** The tournament-scoped match. *)
Record Match := {
  id : Z;
  tournament : Tournament;
  group : option Z;
  phase : option TournamentPhase;
  home_team : Z;
  away_team : Z;
  match_date : Z;
  venue : string;
  home_score : Z;
  away_score : Z;
  status : string;
  match_number : option Z;
  round_number : Z;
}.

(** A row of the standings, the dictionary built by [get_standings];
    [position] is absent until the rows are ranked. *)
Record Standing := {
  team : Z;
  team_group : TeamGroup;
  played : Z;
  wins : Z;
  draws : Z;
  losses : Z;
  goals_scored : Z;
  goals_conceded : Z;
  goal_difference : Z;
  points : Z;
  position : option Z;
}.

(** [team.tournament_home_matches.filter(group=self, status='finished')] *)
Definition home_matches (self : TournamentGroup) (matches : list Match) (team : Z) : list Match :=
  filter (λ m, home_team m = team ∧ group m = Some (g_id self) ∧ status m = "finished") matches.

(** [team.tournament_away_matches.filter(group=self, status='finished')] *)
Definition away_matches (self : TournamentGroup) (matches : list Match) (team : Z) : list Match :=
  filter (λ m, away_team m = team ∧ group m = Some (g_id self) ∧ status m = "finished") matches.

(** The body of the loop of [get_standings] for one member of the group. *)
Definition standing_of (self : TournamentGroup) (matches : list Match)
    (team_group : TeamGroup) : Standing :=
  let team := tg_team team_group in
  let home_matches := home_matches self matches team in
  let away_matches := away_matches self matches team in
  let wins := count (filter (λ m, home_score m > away_score m) home_matches)
            + count (filter (λ m, away_score m > home_score m) away_matches) in
  let draws := count (filter (λ m, home_score m = away_score m) home_matches)
             + count (filter (λ m, home_score m = away_score m) away_matches) in
  let losses := count (filter (λ m, home_score m < away_score m) home_matches)
              + count (filter (λ m, away_score m < home_score m) away_matches) in
  let goals_scored := or_0 (aggregate_Sum home_score home_matches)
                    + or_0 (aggregate_Sum away_score away_matches) in
  let goals_conceded := or_0 (aggregate_Sum away_score home_matches)
                      + or_0 (aggregate_Sum home_score away_matches) in
  let points := wins * points_per_win (g_tournament self)
              + draws * points_per_draw (g_tournament self)
              + losses * points_per_loss (g_tournament self) in
  {| team := team;
     team_group := team_group;
     played := wins + draws + losses;
     wins := wins;
     draws := draws;
     losses := losses;
     goals_scored := goals_scored;
     goals_conceded := goals_conceded;
     goal_difference := goals_scored - goals_conceded;
     points := points;
     position := None |}.

(** [lambda x: (-x['points'], -x['goal_difference'], -x['goals_scored'])] *)
Definition sort_key (x : Standing) : Z * Z * Z :=
  (- points x, - goal_difference x, - goals_scored x).

(** [standing['position'] = idx] *)
Definition set_position (idx : Z) (standing : Standing) : Standing :=
  {| team := team standing;
     team_group := team_group standing;
     played := played standing;
     wins := wins standing;
     draws := draws standing;
     losses := losses standing;
     goals_scored := goals_scored standing;
     goals_conceded := goals_conceded standing;
     goal_difference := goal_difference standing;
     points := points standing;
     position := Some idx |}.

(** [self.team_groups.all()]. The argument [team_groups] is the queryset
    [TeamGroup.objects.all()] as the database delivers it, its rows in
    the order of [Meta.ordering = ['position', 'team__name']]; the
    relation keeps the rows of the group, in that order. *)
Definition members (self : TournamentGroup) (team_groups : list TeamGroup) : list TeamGroup :=
  filter (λ tg, tg_group tg = g_id self) team_groups.

(** [TournamentGroup.get_standings] *)
Definition get_standings (self : TournamentGroup) (team_groups : list TeamGroup)
    (matches : list Match) : list Standing :=
  let standings := standing_of self matches <$> members self team_groups in
  let standings := list_sort sort_key tuple3_le standings in
  (λ '(idx, standing), set_position idx standing) <$> enumerate 1 standings.

(** The ranking key of the specification. *)
Definition rank_key (x : Standing) : Z * Z * Z :=
  (points x, goal_difference x, goals_scored x).

(** [a] is ranked no lower than [b]: descending lexicographic order on
    (points, goal_difference, goals_scored). *)
Definition ranks_above (a b : Standing) : Prop :=
  points a > points b ∨
  (points a = points b ∧
   (goal_difference a > goal_difference b ∨
    (goal_difference a = goal_difference b ∧ goals_scored b ≤ goals_scored a))).

End Tournaments.

(** ** teams/models.py *)

Module Teams.

Record Club := {
  owner : option Z;
}.

Record Team := {
  club : Z;
  coach : option Z;
  assistant_coaches : list Z;
  followers : list Z;
}.

Record Player := {
  team : Z;
  jersey_number : Z;
  position : string;
  is_captain : bool;
  is_main_player : bool;
  goals_scored : Z;
  assists : Z;
  yellow_cards : Z;
  red_cards : Z;
  minutes_played : Z;
  parent_email : string;
  parent2_email : string;
  is_active : bool;
}.

Record TeamStaff := {
  ts_team : Z;
  ts_user : Z;
  ts_is_active : bool;
}.

(** The names bound at module level in teams/models.py: its imports
    (lines 1-6) and the classes it defines. *)
Definition module_globals : list string :=
  ["models"; "get_user_model"; "MinValueValidator"; "MaxValueValidator";
   "RegexValidator"; "Tournament"; "TournamentGroup"; "User"; "Club"; "Team";
   "Player"; "TeamTournamentRegistration"; "TeamStaff"].

(** [Player.objects.filter(team=self.team, is_main_player=True,
    is_active=True).exclude(pk=self.pk)] *)
Definition other_main_players (pk : option Z) (self : Player)
    (players : gmap Z Player) : list (Z * Player) :=
  filter (λ kv, Some kv.1 ≠ pk)
    (filter (λ kv, team kv.2 = team self ∧ is_main_player kv.2 = true ∧ is_active kv.2 = true)
       (objects_all players)).

(** [Player.clean]. The [raise] statement first evaluates the name
    [ValidationError] in the scope of the module. *)
Definition clean (pk : option Z) (self : Player) (players : gmap Z Player) : outcome unit :=
  if is_main_player self then
    let main_players_count := count (other_main_players pk self players) in
    if bool_decide (main_players_count >= 11) then
      match resolve_name module_globals "ValidationError" with
      | Ok _ => Raise (ValidationError "is_main_player")
      | Raise e => Raise e
      end
    else Ok tt
  else Ok tt.

(** The validators declared on the fields of [Player]: those of
    [jersey_number]. The validators Django derives from the field types
    of the other columns are not modelled. *)
Definition clean_fields (self : Player) : bool :=
  bool_decide (1 ≤ jersey_number self ≤ 99).

(** [unique_together = ['team', 'jersey_number']] *)
Definition validate_unique (pk : option Z) (self : Player) (players : gmap Z Player) : bool :=
  negb (exists_
    (filter (λ kv, Some kv.1 ≠ pk ∧ team kv.2 = team self ∧ jersey_number kv.2 = jersey_number self)
       (objects_all players))).

(** [Model.full_clean]: field validation, then [clean], then uniqueness;
    it collects the [ValidationError]s and lets any other exception
    through. *)
Definition full_clean (pk : option Z) (self : Player) (players : gmap Z Player) : outcome unit :=
  let fields_ok := clean_fields self in
  match clean pk self players with
  | Raise e => Raise e
  | Ok _ =>
      if fields_ok && validate_unique pk self players then Ok tt
      else Raise (ValidationError "full_clean")
  end.

(** [Player.save]: [full_clean] and then the write; a new row takes the
    next primary key. Returns the primary key and the table. *)
Definition save (pk : option Z) (self : Player) (players : gmap Z Player)
    : outcome (Z * gmap Z Player) :=
  match full_clean pk self players with
  | Raise e => Raise e
  | Ok _ =>
      let k := match pk with Some k => k | None => next_pk players end in
      Ok (k, <[k := self]> players)
  end.

(** The number of active main players of a team. *)
Definition active_main_players (t : Z) (players : gmap Z Player) : Z :=
  count (filter (λ kv, team kv.2 = t ∧ is_main_player kv.2 = true ∧ is_active kv.2 = true)
           (objects_all players)).

End Teams.

(** ** matches/models.py: Match (the global match) *)

Module Matches.

(** A row of the [matches] table; its primary key is the key under which
    the table holds it. *)
Record Match := {
  tournament : option Z;
  phase : option Z;
  group : option Z;
  home_team : Z;
  away_team : Z;
  scheduled_date : Z;
  actual_start_time : option Z;
  actual_end_time : option Z;
  venue_name : string;
  venue_address : string;
  field_number : string;
  status : string;
  match_type : string;
  home_score : Z;
  away_score : Z;
  home_score_half_time : Z;
  away_score_half_time : Z;
  home_score_extra_time : option Z;
  away_score_extra_time : option Z;
  home_score_penalties : option Z;
  away_score_penalties : option Z;
  referee : option Z;
  assistant_referee_1 : option Z;
  assistant_referee_2 : option Z;
  weather_conditions : string;
  attendance : option Z;
  notes : string;
  round_number : Z;
  created_by : option Z;
  last_updated_by : option Z;
}.

Record MatchEvent := {
  ev_match : Z;
  ev_team : Z;
  ev_player : Z;
  event_type : string;
  minute : Z;
  additional_time : Z;
  substituted_player : option Z;
  assist_player : option Z;
  ev_created_by : option Z;
}.

Record MatchLineup := {
  lu_match : Z;
  lu_team : Z;
  lu_player : Z;
  position : string;
  is_starter : bool;
  is_captain : bool;
  minutes_played : Z;
  goals_scored : Z;
  assists : Z;
  yellow_cards : Z;
  red_cards : Z;
}.

(** [Match.winner]: the winning team, [None] for a draw or a match that
    is not finished. *)
Definition winner (self : Match) : option Z :=
  if bool_decide (status self ≠ "finished") then None
  else
    let after_penalties :=
      match home_score_penalties self, away_score_penalties self with
      | Some hp, Some ap =>
          if bool_decide (hp > ap) then Some (home_team self)
          else if bool_decide (ap > hp) then Some (away_team self)
          else None
      | _, _ => None
      end in
    match after_penalties with
    | Some team => Some team
    | None =>
        let after_extra_time :=
          match home_score_extra_time self, away_score_extra_time self with
          | Some he, Some ae =>
              if bool_decide (he > ae) then Some (home_team self)
              else if bool_decide (ae > he) then Some (away_team self)
              else None
          | _, _ => None
          end in
        match after_extra_time with
        | Some team => Some team
        | None =>
            if bool_decide (home_score self > away_score self) then Some (home_team self)
            else if bool_decide (away_score self > home_score self) then Some (away_team self)
            else None
        end
    end.

(** The pair of scores that decides a finished match, in the words of the
    specification: penalties when both are set and unequal, else extra
    time when both are set and unequal, else the normal score. *)
Definition deciding_scores (self : Match) : Z * Z :=
  match home_score_penalties self, away_score_penalties self with
  | Some hp, Some ap =>
      if bool_decide (hp ≠ ap) then (hp, ap)
      else match home_score_extra_time self, away_score_extra_time self with
           | Some he, Some ae =>
               if bool_decide (he ≠ ae) then (he, ae)
               else (home_score self, away_score self)
           | _, _ => (home_score self, away_score self)
           end
  | _, _ =>
      match home_score_extra_time self, away_score_extra_time self with
      | Some he, Some ae =>
          if bool_decide (he ≠ ae) then (he, ae)
          else (home_score self, away_score self)
      | _, _ => (home_score self, away_score self)
      end
  end.

(** The winner as the specification words it. *)
Definition winner_spec (self : Match) : option Z :=
  if bool_decide (status self = "finished") then
    let '(h, a) := deciding_scores self in
    if bool_decide (h > a) then Some (home_team self)
    else if bool_decide (a > h) then Some (away_team self)
    else None
  else None.

End Matches.

(** ** The database *)

Record DB := {
  clubs : gmap Z Teams.Club;
  teams : gmap Z Teams.Team;
  players : gmap Z Teams.Player;
  team_staff : list Teams.TeamStaff;
  groups : gmap Z Tournaments.TournamentGroup;
  phases : gmap Z Tournaments.TournamentPhase;
  team_groups : list Tournaments.TeamGroup;
  tournament_matches : gmap Z Tournaments.Match;
  matches : gmap Z Matches.Match;
  lineups : gmap Z Matches.MatchLineup;
  events : gmap Z Matches.MatchEvent;
}.

Definition set_players (db : DB) (v : gmap Z Teams.Player) : DB :=
  {| clubs := clubs db; teams := teams db; players := v; team_staff := team_staff db;
     groups := groups db; phases := phases db; team_groups := team_groups db;
     tournament_matches := tournament_matches db; matches := matches db;
     lineups := lineups db; events := events db |}.

Definition set_tournament_matches (db : DB) (v : gmap Z Tournaments.Match) : DB :=
  {| clubs := clubs db; teams := teams db; players := players db; team_staff := team_staff db;
     groups := groups db; phases := phases db; team_groups := team_groups db;
     tournament_matches := v; matches := matches db;
     lineups := lineups db; events := events db |}.

Definition set_matches (db : DB) (v : gmap Z Matches.Match) : DB :=
  {| clubs := clubs db; teams := teams db; players := players db; team_staff := team_staff db;
     groups := groups db; phases := phases db; team_groups := team_groups db;
     tournament_matches := tournament_matches db; matches := v;
     lineups := lineups db; events := events db |}.

Definition set_lineups (db : DB) (v : gmap Z Matches.MatchLineup) : DB :=
  {| clubs := clubs db; teams := teams db; players := players db; team_staff := team_staff db;
     groups := groups db; phases := phases db; team_groups := team_groups db;
     tournament_matches := tournament_matches db; matches := matches db;
     lineups := v; events := events db |}.

Definition set_events (db : DB) (v : gmap Z Matches.MatchEvent) : DB :=
  {| clubs := clubs db; teams := teams db; players := players db; team_staff := team_staff db;
     groups := groups db; phases := phases db; team_groups := team_groups db;
     tournament_matches := tournament_matches db; matches := matches db;
     lineups := lineups db; events := v |}.

(** ** matches/signals.py *)

Module MatchSignals.
Import Matches.

(** [update_player_stats_on_lineup_change], the [pre_save] receiver of
    [MatchLineup]. [pk] is [instance.pk]; the receiver reads the stored
    row, adds the differences to the player's career totals, floors them
    at zero and saves the player. *)
Definition update_player_stats_on_lineup_change (pk : option Z) (instance : MatchLineup)
    (db : DB) : outcome DB :=
  match pk with
  | None => Ok db
  | Some k =>
      if bool_decide (k = 0) then Ok db
      else
        match lineups db !! k with
        | None => Ok db
        | Some old_lineup =>
            let goals_diff := goals_scored instance - goals_scored old_lineup in
            let assists_diff := assists instance - assists old_lineup in
            let yellow_cards_diff := yellow_cards instance - yellow_cards old_lineup in
            let red_cards_diff := red_cards instance - red_cards old_lineup in
            let minutes_diff := minutes_played instance - minutes_played old_lineup in
            match players db !! lu_player instance with
            | None => Raise (DoesNotExist "Player")
            | Some player =>
                let player :=
                  {| Teams.team := Teams.team player;
                     Teams.jersey_number := Teams.jersey_number player;
                     Teams.position := Teams.position player;
                     Teams.is_captain := Teams.is_captain player;
                     Teams.is_main_player := Teams.is_main_player player;
                     Teams.goals_scored :=
                       py_max0 (py_or (Teams.goals_scored player) 0 + goals_diff);
                     Teams.assists :=
                       py_max0 (py_or (Teams.assists player) 0 + assists_diff);
                     Teams.yellow_cards :=
                       py_max0 (py_or (Teams.yellow_cards player) 0 + yellow_cards_diff);
                     Teams.red_cards :=
                       py_max0 (py_or (Teams.red_cards player) 0 + red_cards_diff);
                     Teams.minutes_played :=
                       py_max0 (py_or (Teams.minutes_played player) 0 + minutes_diff);
                     Teams.parent_email := Teams.parent_email player;
                     Teams.parent2_email := Teams.parent2_email player;
                     Teams.is_active := Teams.is_active player |} in
                match Teams.save (Some (lu_player instance)) player (players db) with
                | Raise e => Raise e
                | Ok (_, players') => Ok (set_players db players')
                end
            end
        end
  end.

(** [MatchLineup.save]: the [pre_save] receiver runs, then the row is
    written; a new row takes the next primary key. *)
Definition save (pk : option Z) (instance : MatchLineup) (db : DB) : outcome (Z * DB) :=
  match update_player_stats_on_lineup_change pk instance db with
  | Raise e => Raise e
  | Ok db' =>
      let k := match pk with Some k => k | None => next_pk (lineups db') end in
      Ok (k, set_lineups db' (<[k := instance]> (lineups db')))
  end.

End MatchSignals.

(** ** users/permissions.py *)

Module Permissions.
Import Users.

(** [user.coached_teams.all()] *)
Definition coached_teams (user : User) (db : DB) : list (Z * Teams.Team) :=
  filter (λ kv, Teams.coach kv.2 = Some (id user)) (objects_all (teams db)).

(** [team.club.owner == user] *)
Definition club_owner_is (user : User) (team : Teams.Team) (db : DB) : bool :=
  match clubs db !! Teams.club team with
  | Some club => bool_decide (Teams.owner club = Some (id user))
  | None => false
  end.

Definition IsAdminUserType_passes (user : User) : bool :=
  is_admin_user user && is_active user && is_verified user.

Definition IsAdminActiveUserType_passes (user : User) : bool :=
  is_admin_user user && is_active user.

Definition IsAdminOrStaffUserType_passes (user : User) : bool :=
  is_admin_user user || is_staff_member user.

(** [User] defines no [is_coach], so [getattr(user, 'is_coach', lambda:
    False)()] is [False]. *)
Definition IsStaffOrCoachUserType_passes (user : User) : bool :=
  is_staff_member user || false.

(** [IsAuthenticatedAnd.has_permission] *)
Definition has_permission (passes : User → bool) (user : User) : bool :=
  is_authenticated user && passes user.

(** [is_authorized_for_team] of [IsMatchCoachOrAdmin] *)
Definition is_authorized_for_team (user : User) (team_id : Z) (db : DB) : bool :=
  match teams db !! team_id with
  | None => false
  | Some team =>
      bool_decide (Teams.coach team = Some (id user))
      || club_owner_is user team db
      || bool_decide (id user ∈ Teams.assistant_coaches team)
      || exists_ (filter (λ st, Teams.ts_team st = team_id ∧ Teams.ts_user st = id user
                                 ∧ Teams.ts_is_active st = true) (team_staff db))
  end.

(** [IsMatchCoachOrAdmin.has_object_permission] for an object with a
    [home_team] and an [away_team]. *)
Definition IsMatchCoachOrAdmin_has_object_permission (user : User)
    (home away : Z) (db : DB) : bool :=
  if negb (is_authenticated user) then false
  else if is_admin_user user then true
  else is_authorized_for_team user home db || is_authorized_for_team user away db.

End Permissions.

(** ** matches/views.py *)

Module MatchViews.
Import Users Matches Permissions.

(** [team_id in qs.values_list('club')]-style membership of the club of
    a team in a queryset of clubs: [home_team__club__in=user_clubs]. *)
Definition team_club_in (team_id : Z) (user_clubs : list (Z * Teams.Club)) (db : DB) : bool :=
  match teams db !! team_id with
  | Some team => bool_decide (Teams.club team ∈ user_clubs.*1)
  | None => false
  end.

(** [Club.objects.filter(owner=user)] *)
Definition clubs_owned_by (user : User) (db : DB) : list (Z * Teams.Club) :=
  filter (λ kv, Teams.owner kv.2 = Some (id user)) (objects_all (clubs db)).

(** [list(Team.objects.filter(followers=user).values_list('id', flat=True))] *)
Definition followed_teams_ids (user : User) (db : DB) : list Z :=
  (filter (λ kv, id user ∈ Teams.followers kv.2) (objects_all (teams db))).*1.

(** [get_user_allowed_matches]: the matches a user may see. *)
Definition get_user_allowed_matches (user : option User) (db : DB) : list (Z * Match) :=
  match user with
  | None => []
  | Some user =>
      if negb (is_authenticated user) then []
      else if bool_decide (user_type user = "admin") then
        filter (λ kv, created_by kv.2 = Some (id user)) (objects_all (matches db))
      else if bool_decide (user_type user = "staff") then
        let user_clubs := clubs_owned_by user db in
        filter (λ kv, team_club_in (home_team kv.2) user_clubs db = true
                      ∨ team_club_in (away_team kv.2) user_clubs db = true)
          (objects_all (matches db))
      else
        let coach_branch :=
          if bool_decide (user_type user = "coach") || exists_ (coached_teams user db) then
            let coached_teams := coached_teams user db in
            if exists_ coached_teams then
              Some (filter (λ kv, home_team kv.2 ∈ coached_teams.*1
                                  ∨ away_team kv.2 ∈ coached_teams.*1)
                      (objects_all (matches db)))
            else None
          else None in
        match coach_branch with
        | Some qs => qs
        | None =>
            if bool_decide (user_type user = "parent") then
              let followed_teams_ids := followed_teams_ids user db in
              let followed_teams_ids :=
                if bool_decide (email user ≠ "") then
                  let player_teams_ids :=
                    (λ kv, Teams.team kv.2) <$>
                      filter (λ kv, Teams.parent_email kv.2 = email user)
                        (objects_all (players db)) in
                  followed_teams_ids ++ player_teams_ids
                else followed_teams_ids in
              let team_ids := remove_dups followed_teams_ids in
              filter (λ kv, home_team kv.2 ∈ team_ids ∨ away_team kv.2 ∈ team_ids)
                (objects_all (matches db))
            else []
        end
  end.

(** The permission block repeated in the event, lineup and statistics
    views, for the team [team_id] resolved to [team]. *)
Definition check_team_permission (user : User) (team_id : Z) (team : Teams.Team)
    (db : DB) : outcome unit :=
  if bool_decide (user_type user ≠ "admin") then
    if bool_decide (user_type user = "staff") then
      if negb (club_owner_is user team db)
      then Raise (PermissionDenied "your club's team") else Ok tt
    else
      if bool_decide (Teams.coach team ≠ Some (id user))
         && negb (bool_decide (team_id ∈ (coached_teams user db).*1))
      then Raise (PermissionDenied "your coached team") else Ok tt
  else Ok tt.

(** The permission block repeated in the five lifecycle views. *)
Definition check_manage_permission (user : User) (match_ : Match) (db : DB) : outcome unit :=
  if bool_decide (user_type user ≠ "admin") then
    match created_by match_ with
    | Some creator =>
        if bool_decide (creator ≠ id user)
        then Raise (PermissionDenied "You can only manage matches you created")
        else Ok tt
    | None =>
        match teams db !! home_team match_ with
        | None => Raise (DoesNotExist "Team")
        | Some team =>
            if bool_decide (user_type user = "staff") then
              if negb (club_owner_is user team db)
              then Raise (PermissionDenied "your club is the home team") else Ok tt
            else
              if bool_decide (Teams.coach team ≠ Some (id user))
                 && negb (bool_decide (home_team match_ ∈ (coached_teams user db).*1))
              then Raise (PermissionDenied "you are the home team coach") else Ok tt
        end
    end
  else Ok tt.

(** The assignments the lifecycle views make to a match before saving
    it. *)
Definition with_lifecycle (m : Match) (status' : string) (start' end' : option Z)
    (date' : Z) (by' : option Z) : Match :=
  {| tournament := tournament m; phase := phase m; group := group m;
     home_team := home_team m; away_team := away_team m;
     scheduled_date := date';
     actual_start_time := start'; actual_end_time := end';
     venue_name := venue_name m; venue_address := venue_address m;
     field_number := field_number m;
     status := status'; match_type := match_type m;
     home_score := home_score m; away_score := away_score m;
     home_score_half_time := home_score_half_time m;
     away_score_half_time := away_score_half_time m;
     home_score_extra_time := home_score_extra_time m;
     away_score_extra_time := away_score_extra_time m;
     home_score_penalties := home_score_penalties m;
     away_score_penalties := away_score_penalties m;
     referee := referee m; assistant_referee_1 := assistant_referee_1 m;
     assistant_referee_2 := assistant_referee_2 m;
     weather_conditions := weather_conditions m; attendance := attendance m;
     notes := notes m; round_number := round_number m;
     created_by := created_by m; last_updated_by := by' |}.

(** The frame shared by the five lifecycle views: authentication, the
    lookup of the match, the permission block, then [change] and the
    save. None of them reads the current status. *)
Definition lifecycle_view (change : Match → outcome Match) (user : User) (match_id : Z)
    (db : DB) : outcome Match * DB :=
  if negb (is_authenticated user) then (Raise NotAuthenticated, db)
  else
    match matches db !! match_id with
    | None => (Raise Http404, db)
    | Some match_ =>
        match check_manage_permission user match_ db with
        | Raise e => (Raise e, db)
        | Ok _ =>
            match change match_ with
            | Raise e => (Raise e, db)
            | Ok match_ => (Ok match_, set_matches db (<[match_id := match_]> (matches db)))
            end
        end
    end.

(** [StartMatchView.post] *)
Definition StartMatchView_post (user : User) (match_id : Z) (now : Z) (db : DB)
    : outcome Match * DB :=
  lifecycle_view (λ m, Ok (with_lifecycle m "live" (Some now) (actual_end_time m)
                             (scheduled_date m) (Some (id user))))
    user match_id db.







(** *** Events *)

Definition EVENT_TYPE_CHOICES : list string :=
  ["goal"; "own_goal"; "penalty_goal"; "yellow_card"; "red_card";
   "substitution"; "injury"; "timeout"].

(** The body of a request that creates an event. *)
Record EventData := {
  d_match : Z;
  d_team : option Z;
  d_player : Z;
  d_event_type : string;
  d_minute : Z;
  d_additional_time : Z;
  d_substituted_player : option Z;
  d_assist_player : option Z;
}.

(** [MatchEventSerializer(data=data).is_valid(raise_exception=True)]: the
    related rows exist, the event type is a choice, the minute is within
    its validators. Returns the validated event. *)
Definition validate_event (data : EventData) (db : DB) : outcome MatchEvent :=
  match d_team data with
  | None => Raise (ValidationError "team")
  | Some team_id =>
      if bool_decide (is_Some (matches db !! d_match data))
         && bool_decide (is_Some (teams db !! team_id))
         && bool_decide (is_Some (players db !! d_player data))
         && bool_decide (d_event_type data ∈ EVENT_TYPE_CHOICES)
         && bool_decide (1 ≤ d_minute data ≤ 120)
         && bool_decide (0 ≤ d_additional_time data)
      then Ok {| ev_match := d_match data; ev_team := team_id; ev_player := d_player data;
                 event_type := d_event_type data; minute := d_minute data;
                 additional_time := d_additional_time data;
                 substituted_player := d_substituted_player data;
                 assist_player := d_assist_player data;
                 ev_created_by := None |}
      else Raise (ValidationError "event")
  end.

(** [serializer.save(created_by=user)] *)
Definition save_event (user : User) (event : MatchEvent) (db : DB) : Z * MatchEvent * DB :=
  let event :=
    {| ev_match := ev_match event; ev_team := ev_team event; ev_player := ev_player event;
       event_type := event_type event; minute := minute event;
       additional_time := additional_time event;
       substituted_player := substituted_player event;
       assist_player := assist_player event;
       ev_created_by := Some (id user) |} in
  let k := next_pk (events db) in
  (k, event, set_events db (<[k := event]> (events db))).

(** A lineup row with its five statistics replaced. *)
Definition set_stats (lineup : MatchLineup)
    (minutes goals assists' yellow red : Z) : MatchLineup :=
  {| lu_match := lu_match lineup; lu_team := lu_team lineup; lu_player := lu_player lineup;
     position := position lineup; is_starter := is_starter lineup;
     is_captain := is_captain lineup;
     minutes_played := minutes; goals_scored := goals; assists := assists';
     yellow_cards := yellow; red_cards := red |}.

(** The update of the lineup row by the type of the event. *)
Definition count_event (event : MatchEvent) (lineup : MatchLineup) : MatchLineup :=
  if bool_decide (event_type event ∈ ["goal"; "penalty_goal"]) then
    set_stats lineup (minutes_played lineup) (goals_scored lineup + 1) (assists lineup)
      (yellow_cards lineup) (red_cards lineup)
  else if bool_decide (event_type event = "yellow_card") then
    set_stats lineup (minutes_played lineup) (goals_scored lineup) (assists lineup)
      (yellow_cards lineup + 1) (red_cards lineup)
  else if bool_decide (event_type event = "red_card") then
    set_stats lineup (minutes_played lineup) (goals_scored lineup) (assists lineup)
      (yellow_cards lineup) (red_cards lineup + 1)
  else lineup.

(** [MatchLineup.objects.filter(match=m, player=p, team=t)] *)
Definition lineups_of (m p t : Z) (db : DB) : list (Z * MatchLineup) :=
  filter (λ kv, lu_match kv.2 = m ∧ lu_player kv.2 = p ∧ lu_team kv.2 = t)
    (objects_all (lineups db)).

(** [MatchEventViewSet.perform_create] for validated data. The event is
    saved first; whatever happens afterwards, it stays. *)
Definition perform_create (user : User) (event : MatchEvent) (db : DB) : outcome Z * DB :=
  match teams db !! ev_team event with
  | None => (Raise (DoesNotExist "Team"), db)
  | Some team =>
      match check_team_permission user (ev_team event) team db with
      | Raise e => (Raise e, db)
      | Ok _ =>
          let '(k, event, db) := save_event user event db in
          match lineups_of (ev_match event) (ev_player event) (ev_team event) db with
          | [] => (Ok k, db)
          | [(lk, lineup)] =>
              match MatchSignals.save (Some lk) (count_event event lineup) db with
              | Raise e => (Raise e, db)
              | Ok (_, db') => (Ok k, db')
              end
          | _ :: _ :: _ => (Raise (MultipleObjectsReturned "MatchLineup"), db)
          end
      end
  end.

(** [MatchEventViewSet.create]: the permission classes, the serializer,
    then [perform_create]. *)
Definition MatchEventViewSet_create (user : User) (data : EventData) (db : DB)
    : outcome Z * DB :=
  if negb (is_authenticated user) then (Raise NotAuthenticated, db)
  else if negb (IsStaffOrCoachUserType_passes user)
  then (Raise (PermissionDenied "permission classes"), db)
  else
    match validate_event data db with
    | Raise e => (Raise e, db)
    | Ok event => perform_create user event db
    end.

(** [data] with [data['match'] = str(match.id)] *)
Definition with_match (data : EventData) (match_id : Z) : EventData :=
  {| d_match := match_id; d_team := d_team data; d_player := d_player data;
     d_event_type := d_event_type data; d_minute := d_minute data;
     d_additional_time := d_additional_time data;
     d_substituted_player := d_substituted_player data;
     d_assist_player := d_assist_player data |}.

(** [MatchEventsView.post], the creation of an event nested under a
    match. *)
Definition MatchEventsView_post (user : User) (match_id : Z) (data : EventData) (db : DB)
    : outcome Z * DB :=
  if negb (is_authenticated user) then (Raise NotAuthenticated, db)
  else if negb (IsAdminOrStaffUserType_passes user)
  then (Raise (PermissionDenied "permission classes"), db)
  else
    match matches db !! match_id with
    | None => (Raise Http404, db)
    | Some match_ =>
        let data := with_match data match_id in
        match d_team data with
        | None => (Raise (BadRequest "team is required"), db)
        | Some team_id =>
            if bool_decide (team_id = 0) then (Raise (BadRequest "team is required"), db)
            else
              let permission :=
                if bool_decide (user_type user ≠ "admin") then
                  match teams db !! team_id with
                  | None => Raise Http404
                  | Some team => check_team_permission user team_id team db
                  end
                else Ok tt in
              match permission with
              | Raise e => (Raise e, db)
              | Ok _ =>
                  if negb (bool_decide (team_id ∈ [home_team match_; away_team match_]))
                  then (Raise (BadRequest "team must be home_team or away_team of this match"), db)
                  else
                    match validate_event data db with
                    | Raise e => (Raise e, db)
                    | Ok event =>
                        let '(k, _, db) := save_event user event db in (Ok k, db)
                    end
              end
        end
    end.

(** *** Lineups *)

Definition POSITION_CHOICES : list string :=
  ["GK"; "RB"; "CB"; "LB"; "CDM"; "CM"; "CAM"; "RW"; "LW"; "ST"; "SUB"].

(** The body of a partial update that carries statistics only; an absent
    key leaves the stored value. [MatchLineupSerializer] has
    [fields = '__all__'], so a PATCH may also carry [match], [team],
    [player], [position], [is_starter], [is_captain] and [rating]: such
    bodies are outside this type, and what is proved over it holds for
    the requests that change statistics and nothing else. *)
Record LineupPatch := {
  p_minutes_played : option Z;
  p_goals_scored : option Z;
  p_assists : option Z;
  p_yellow_cards : option Z;
  p_red_cards : option Z;
}.

(** The instance after [MatchLineupSerializer(lineup, data, partial=True)]
    has set the fields of [data]. *)
Definition patched (lineup : MatchLineup) (data : LineupPatch) : MatchLineup :=
  set_stats lineup
    (default (minutes_played lineup) (p_minutes_played data))
    (default (goals_scored lineup) (p_goals_scored data))
    (default (assists lineup) (p_assists data))
    (default (yellow_cards lineup) (p_yellow_cards data))
    (default (red_cards lineup) (p_red_cards data)).

(** The serializer accepts the statistics of a row when none is
    negative: the five columns are [PositiveIntegerField]s. The upper
    bound of the column type is left out. *)
Definition stats_valid (lineup : MatchLineup) : bool :=
  bool_decide (0 ≤ minutes_played lineup) && bool_decide (0 ≤ goals_scored lineup)
  && bool_decide (0 ≤ assists lineup) && bool_decide (0 ≤ yellow_cards lineup)
  && bool_decide (0 ≤ red_cards lineup).

(** [MatchLineupDetailView.patch] *)
Definition MatchLineupDetailView_patch (user : User) (match_id lineup_id : Z)
    (data : LineupPatch) (db : DB) : outcome unit * DB :=
  if negb (is_authenticated user) then (Raise NotAuthenticated, db)
  else
    match lineups db !! lineup_id with
    | None => (Raise Http404, db)
    | Some lineup =>
        if bool_decide (lu_match lineup ≠ match_id) then (Raise Http404, db)
        else
          let permission :=
            if bool_decide (user_type user ≠ "admin") then
              match teams db !! lu_team lineup with
              | None => Raise (DoesNotExist "Team")
              | Some team => check_team_permission user (lu_team lineup) team db
              end
            else Ok tt in
          match permission with
          | Raise e => (Raise e, db)
          | Ok _ =>
              let instance := patched lineup data in
              if negb (stats_valid instance) then (Raise (ValidationError "lineup"), db)
              else
                match MatchSignals.save (Some lineup_id) instance db with
                | Raise e => (Raise e, db)
                | Ok (_, db') => (Ok tt, db')
                end
          end
    end.

(** An entry of the lists [starters] and [substitutes]. *)
Record LineupEntry := {
  en_player : option Z;
  en_position : option string;
  en_minutes_played : option Z;
}.

Global Instance LineupEntry_eq_dec : EqDecision LineupEntry.
Proof. solve_decision. Defined.

(** [MatchLineupSerializer(data=entry_data).is_valid(raise_exception=True)]:
    the fields are present, the related rows exist, the position is a
    choice, the minutes are not negative and the triple (match, team,
    player) is new. *)
Definition validate_entry (match_id team_id : Z) (entry : LineupEntry) (is_starter' : bool)
    (db : DB) : outcome MatchLineup :=
  match en_player entry, en_position entry with
  | Some player, Some position' =>
      let minutes := default 0 (en_minutes_played entry) in
      if bool_decide (is_Some (matches db !! match_id))
         && bool_decide (is_Some (teams db !! team_id))
         && bool_decide (is_Some (players db !! player))
         && bool_decide (position' ∈ POSITION_CHOICES)
         && bool_decide (0 ≤ minutes)
         && negb (exists_ (lineups_of match_id player team_id db))
      then Ok {| lu_match := match_id; lu_team := team_id; lu_player := player;
                 position := position'; is_starter := is_starter'; is_captain := false;
                 minutes_played := minutes; goals_scored := 0; assists := 0;
                 yellow_cards := 0; red_cards := 0 |}
      else Raise (ValidationError "lineup")
  | _, _ => Raise (ValidationError "lineup")
  end.

(** The loop of [SetMatchLineupView.post] over [starters + substitutes]
    (lines 846-859), with the two lists its header reads as parameters. Each
    entry is validated and saved in turn; an entry that fails ends the
    loop and keeps what was written before it. *)
Fixpoint create_entries (match_id team_id : Z) (starters entries : list LineupEntry)
    (created : list Z) (db : DB) : outcome (list Z) * DB :=
  match entries with
  | [] => (Ok created, db)
  | entry :: entries =>
      match validate_entry match_id team_id entry (bool_decide (entry ∈ starters)) db with
      | Raise e => (Raise e, db)
      | Ok row =>
          match MatchSignals.save None row db with
          | Raise e => (Raise e, db)
          | Ok (k, db') => create_entries match_id team_id starters entries (created ++ [k]) db'
          end
      end
  end.

(** [MatchLineup.objects.filter(match_id=m, team_id=t).delete()] *)
Definition delete_lineups (m t : Z) (db : DB) : DB :=
  set_lineups db (filter (λ kv, ¬ (lu_match kv.2 = m ∧ lu_team kv.2 = t)) (lineups db)).

(** The permission block at the head of [SetMatchLineupView.post]: for a
    user who is not an admin the team is looked up (404 when it does not
    exist) and checked. *)
Definition set_lineup_permission (user : User) (team_id : Z) (db : DB) : outcome unit :=
  if bool_decide (user_type user ≠ "admin") then
    match teams db !! team_id with
    | None => Raise Http404
    | Some team => check_team_permission user team_id team db
    end
  else Ok tt.

(** The lists of entries bound to a name where the loop header of
    [SetMatchLineupView.post] is evaluated. The parameters of the method
    are [self], [request] and [match_id]; it assigns [match], [team_id],
    [user], [team], [created], [entry], [entry_data] and [serializer];
    the module binds its imports, [get_user_allowed_matches] and its
    view classes. No name of the scope is bound to a list of entries:
    the body of the request is read for ['team'] only. *)
Definition post_scope : gmap string (list LineupEntry) := ∅.

(** [SetMatchLineupView.post]; [team] is [request.data.get('team')]. The
    rows of the pair are deleted, and then the loop header evaluates
    [starters + substitutes], each name looked up in the scope of the
    method. *)
Definition SetMatchLineupView_post (user : User) (match_id : Z) (team : option Z)
    (db : DB) : outcome (list Z) * DB :=
  if negb (is_authenticated user) then (Raise NotAuthenticated, db)
  else
    match matches db !! match_id with
    | None => (Raise Http404, db)
    | Some match_ =>
        match team with
        | None => (Raise (BadRequest "team is required"), db)
        | Some team_id =>
            match set_lineup_permission user team_id db with
            | Raise e => (Raise e, db)
            | Ok _ =>
                let db := delete_lineups match_id team_id db in
                match post_scope !! "starters" with
                | None => (Raise (NameError "starters"), db)
                | Some starters =>
                    match post_scope !! "substitutes" with
                    | None => (Raise (NameError "substitutes"), db)
                    | Some substitutes =>
                        create_entries match_id team_id starters
                          (starters ++ substitutes) [] db
                    end
                end
            end
        end
    end.

(** The lineup rows of a (match, team) pair. *)
Definition pair_rows (match_id team_id : Z) (db : DB) : list MatchLineup :=
  filter (λ row, lu_match row = match_id ∧ lu_team row = team_id)
    (objects_all (lineups db)).*2.

(** A table after rows were inserted one by one, each under the next
    primary key. *)
Definition append_rows (table : gmap Z MatchLineup) (rows : list MatchLineup)
    : gmap Z MatchLineup :=
  foldl (λ table row, <[next_pk table := row]> table) table rows.

End MatchViews.

(** ** tournaments/signals.py *)

Module TournamentSignals.

(** [dict.get(key, default)] on a dictionary of strings. *)
Definition dict_get (d : gmap string string) (key default : string) : string :=
  match d !! key with Some v => v | None => default end.

Definition status_mapping : gmap string string :=
  list_to_map [("scheduled", "scheduled"); ("live", "live"); ("finished", "finished");
               ("postponed", "postponed"); ("cancelled", "cancelled")].

Definition phase_type_mapping : gmap string string :=
  list_to_map [("group_stage", "group_stage"); ("round_16", "knockout");
               ("quarter_final", "quarter_final"); ("semi_final", "semi_final");
               ("final", "final"); ("third_place", "third_place")].

(** The dictionary [match_data] of mirrored fields. *)
Record MatchData := {
  md_tournament : option Z;
  md_phase : option Z;
  md_group : option Z;
  md_home_team : Z;
  md_away_team : Z;
  md_scheduled_date : Z;
  md_venue_name : string;
  md_home_score : Z;
  md_away_score : Z;
  md_status : string;
  md_match_type : string;
}.

Definition match_data (instance : Tournaments.Match) : MatchData :=
  let match_type :=
    match Tournaments.phase instance with
    | Some phase => dict_get phase_type_mapping (Tournaments.phase_type phase) "group_stage"
    | None => "group_stage"
    end in
  {| md_tournament := Some (Tournaments.t_id (Tournaments.tournament instance));
     md_phase := Tournaments.ph_id <$> Tournaments.phase instance;
     md_group := Tournaments.group instance;
     md_home_team := Tournaments.home_team instance;
     md_away_team := Tournaments.away_team instance;
     md_scheduled_date := Tournaments.match_date instance;
     md_venue_name := Tournaments.venue instance;
     md_home_score := Tournaments.home_score instance;
     md_away_score := Tournaments.away_score instance;
     md_status := dict_get status_mapping (Tournaments.status instance) "scheduled";
     md_match_type := match_type |}.

(** [setattr(obj, k, v)] for every entry of [defaults]: the update branch
    of [update_or_create]. *)
Definition set_defaults (defaults : MatchData) (obj : Matches.Match) : Matches.Match :=
  {| Matches.tournament := md_tournament defaults;
     Matches.phase := md_phase defaults;
     Matches.group := md_group defaults;
     Matches.home_team := md_home_team defaults;
     Matches.away_team := md_away_team defaults;
     Matches.scheduled_date := md_scheduled_date defaults;
     Matches.actual_start_time := Matches.actual_start_time obj;
     Matches.actual_end_time := Matches.actual_end_time obj;
     Matches.venue_name := md_venue_name defaults;
     Matches.venue_address := Matches.venue_address obj;
     Matches.field_number := Matches.field_number obj;
     Matches.status := md_status defaults;
     Matches.match_type := md_match_type defaults;
     Matches.home_score := md_home_score defaults;
     Matches.away_score := md_away_score defaults;
     Matches.home_score_half_time := Matches.home_score_half_time obj;
     Matches.away_score_half_time := Matches.away_score_half_time obj;
     Matches.home_score_extra_time := Matches.home_score_extra_time obj;
     Matches.away_score_extra_time := Matches.away_score_extra_time obj;
     Matches.home_score_penalties := Matches.home_score_penalties obj;
     Matches.away_score_penalties := Matches.away_score_penalties obj;
     Matches.referee := Matches.referee obj;
     Matches.assistant_referee_1 := Matches.assistant_referee_1 obj;
     Matches.assistant_referee_2 := Matches.assistant_referee_2 obj;
     Matches.weather_conditions := Matches.weather_conditions obj;
     Matches.attendance := Matches.attendance obj;
     Matches.notes := Matches.notes obj;
     Matches.round_number := Matches.round_number obj;
     Matches.created_by := Matches.created_by obj;
     Matches.last_updated_by := Matches.last_updated_by obj |}.

(** [GlobalMatch()] with the field defaults of matches/models.py: the
    object the create branch of [update_or_create] starts from. *)
Definition blank : Matches.Match :=
  {| Matches.tournament := None;
     Matches.phase := None;
     Matches.group := None;
     Matches.home_team := 0;
     Matches.away_team := 0;
     Matches.scheduled_date := 0;
     Matches.actual_start_time := None;
     Matches.actual_end_time := None;
     Matches.venue_name := "";
     Matches.venue_address := "";
     Matches.field_number := "";
     Matches.status := "scheduled";
     Matches.match_type := "group_stage";
     Matches.home_score := 0;
     Matches.away_score := 0;
     Matches.home_score_half_time := 0;
     Matches.away_score_half_time := 0;
     Matches.home_score_extra_time := None;
     Matches.away_score_extra_time := None;
     Matches.home_score_penalties := None;
     Matches.away_score_penalties := None;
     Matches.referee := None;
     Matches.assistant_referee_1 := None;
     Matches.assistant_referee_2 := None;
     Matches.weather_conditions := "";
     Matches.attendance := None;
     Matches.notes := "";
     Matches.round_number := 1;
     Matches.created_by := None;
     Matches.last_updated_by := None |}.

(** [GlobalMatch.objects.update_or_create(id=pk, defaults=defaults)] *)
Definition update_or_create (pk : Z) (defaults : MatchData)
    (table : gmap Z Matches.Match) : gmap Z Matches.Match :=
  match table !! pk with
  | Some obj => <[pk := set_defaults defaults obj]> table
  | None => <[pk := set_defaults defaults blank]> table
  end.

(** [sync_match_to_global], the [post_save] receiver of the tournament
    match. *)
Definition sync_match_to_global (instance : Tournaments.Match) (created : bool)
    (table : gmap Z Matches.Match) : gmap Z Matches.Match :=
  update_or_create (Tournaments.id instance) (match_data instance) table.

(** [Match.save] of the tournament match: the row is written and the
    [post_save] receiver runs. *)
Definition save (instance : Tournaments.Match) (created : bool) (db : DB) : DB :=
  let db := set_tournament_matches db
              (<[Tournaments.id instance := instance]> (tournament_matches db)) in
  set_matches db (sync_match_to_global instance created (matches db)).

(** [delete_global_match], the [post_delete] receiver. *)
Definition delete_global_match (instance : Tournaments.Match)
    (table : gmap Z Matches.Match) : gmap Z Matches.Match :=
  match table !! Tournaments.id instance with
  | Some _ => delete (Tournaments.id instance) table
  | None => table
  end.

(** The status choices of the tournament match. *)
Definition STATUS_CHOICES : list string :=
  ["scheduled"; "live"; "finished"; "postponed"; "cancelled"].

(** The mirrored fields of [g] carry the values of [instance]. *)
Definition mirrors (g : Matches.Match) (instance : Tournaments.Match) : Prop :=
  Matches.tournament g = Some (Tournaments.t_id (Tournaments.tournament instance)) ∧
  Matches.phase g = Tournaments.ph_id <$> Tournaments.phase instance ∧
  Matches.group g = Tournaments.group instance ∧
  Matches.home_team g = Tournaments.home_team instance ∧
  Matches.away_team g = Tournaments.away_team instance ∧
  Matches.scheduled_date g = Tournaments.match_date instance ∧
  Matches.venue_name g = Tournaments.venue instance ∧
  Matches.home_score g = Tournaments.home_score instance ∧
  Matches.away_score g = Tournaments.away_score instance ∧
  Matches.status g = Tournaments.status instance ∧
  (Tournaments.phase instance = None → Matches.match_type g = "group_stage") ∧
  (∀ phase, Tournaments.phase instance = Some phase →
     (Tournaments.phase_type phase = "round_16" → Matches.match_type g = "knockout") ∧
     (Tournaments.phase_type phase ∈
        ["quarter_final"; "semi_final"; "final"; "third_place"] →
      Matches.match_type g = Tournaments.phase_type phase) ∧
     (Tournaments.phase_type phase = "group_stage" → Matches.match_type g = "group_stage")).

(** The fields of the global match that the synchronizer does not own. *)
Definition same_unmirrored (g g0 : Matches.Match) : Prop :=
  Matches.referee g = Matches.referee g0 ∧
  Matches.assistant_referee_1 g = Matches.assistant_referee_1 g0 ∧
  Matches.assistant_referee_2 g = Matches.assistant_referee_2 g0 ∧
  Matches.home_score_extra_time g = Matches.home_score_extra_time g0 ∧
  Matches.away_score_extra_time g = Matches.away_score_extra_time g0 ∧
  Matches.home_score_penalties g = Matches.home_score_penalties g0 ∧
  Matches.away_score_penalties g = Matches.away_score_penalties g0 ∧
  Matches.home_score_half_time g = Matches.home_score_half_time g0 ∧
  Matches.away_score_half_time g = Matches.away_score_half_time g0 ∧
  Matches.attendance g = Matches.attendance g0 ∧
  Matches.notes g = Matches.notes g0 ∧
  Matches.weather_conditions g = Matches.weather_conditions g0 ∧
  Matches.venue_address g = Matches.venue_address g0 ∧
  Matches.field_number g = Matches.field_number g0 ∧
  Matches.actual_start_time g = Matches.actual_start_time g0 ∧
  Matches.actual_end_time g = Matches.actual_end_time g0 ∧
  Matches.round_number g = Matches.round_number g0 ∧
  Matches.created_by g = Matches.created_by g0 ∧
  Matches.last_updated_by g = Matches.last_updated_by g0.

End TournamentSignals.

(** ** tournaments/serializers.py and tournaments/views.py *)

Module TournamentViews.
Import Users Tournaments Permissions.

(** The query parameters [MatchViewSet.get_queryset] reads; an absent or
    empty parameter is [None]. *)
Record QueryParams := {
  q_tournament : option Z;
  q_group : option Z;
  q_phase : option Z;
  q_status : option string;
  q_team : option Z;
}.

Definition no_params : QueryParams :=
  {| q_tournament := None; q_group := None; q_phase := None;
     q_status := None; q_team := None |}.

(** The role-based filtering of [MatchViewSet.get_queryset]. *)
Definition role_filter (user : User) (db : DB) (queryset : list Match) : list Match :=
  if bool_decide (user_type user = "viewer") then queryset
  else if bool_decide (user_type user = "admin") then
    filter (λ m, organizer (tournament m) = Users.id user) queryset
  else if bool_decide (user_type user = "staff") then
    let user_clubs := MatchViews.clubs_owned_by user db in
    filter (λ m, MatchViews.team_club_in (home_team m) user_clubs db = true
                 ∨ MatchViews.team_club_in (away_team m) user_clubs db = true) queryset
  else if bool_decide (user_type user = "parent") then
    let followed_teams_ids := MatchViews.followed_teams_ids user db in
    let followed_teams_ids :=
      if bool_decide (email user ≠ "") then
        let player_teams_ids :=
          (λ kv, Teams.team kv.2) <$>
            filter (λ kv, Teams.parent_email kv.2 = email user
                          ∨ Teams.parent2_email kv.2 = email user)
              (objects_all (players db)) in
        followed_teams_ids ++ player_teams_ids
      else followed_teams_ids in
    let team_ids := remove_dups followed_teams_ids in
    filter (λ m, home_team m ∈ team_ids ∨ away_team m ∈ team_ids) queryset
  else queryset.

(** [MatchViewSet.get_queryset] of tournaments/views.py *)
Definition get_queryset (user : User) (params : QueryParams) (db : DB) : list Match :=
  let queryset := (objects_all (tournament_matches db)).*2 in
  if negb (is_authenticated user) then []
  else
    let queryset := role_filter user db queryset in
    let queryset :=
      match q_tournament params with
      | Some a => filter (λ m, t_id (tournament m) = a) queryset
      | None => queryset
      end in
    let queryset :=
      match q_group params with
      | Some a => filter (λ m, group m = Some a) queryset
      | None => queryset
      end in
    let queryset :=
      match q_phase params with
      | Some a => filter (λ m, ph_id <$> phase m = Some a) queryset
      | None => queryset
      end in
    let queryset :=
      match q_status params with
      | Some a => filter (λ m, status m = a) queryset
      | None => queryset
      end in
    match q_team params with
    | Some a => filter (λ m, home_team m = a ∨ away_team m = a) queryset
    | None => queryset
    end.

(** [match.status = status'] *)
Definition with_status (m : Match) (status' : string) : Match :=
  {| id := id m; tournament := tournament m; group := group m; phase := phase m;
     home_team := home_team m; away_team := away_team m; match_date := match_date m;
     venue := venue m; home_score := home_score m; away_score := away_score m;
     status := status'; match_number := match_number m;
     round_number := round_number m |}.

(** The permission classes of the actions of [MatchViewSet] other than
    list and retrieve. *)
Definition action_permissions (user : User) : outcome unit :=
  if negb (is_authenticated user) then Raise NotAuthenticated
  else if negb (IsAdminActiveUserType_passes user)
  then Raise (PermissionDenied "permission classes")
  else Ok tt.

(** The organizer-or-coach check at the head of the actions of
    [MatchViewSet]. *)
Definition may_manage (user : User) (match_ : Match) (db : DB) : bool :=
  let is_organizer :=
    bool_decide (organizer (tournament match_) = Users.id user) || is_superuser user in
  is_organizer
  || IsMatchCoachOrAdmin_has_object_permission user (home_team match_) (away_team match_) db.

(** The part of [MatchViewSet.start_match] that follows
    [match = self.get_object()] (lines 610-624), on the match found; the
    lookup is [TournamentMatchViewSet.get_object], and the method as a
    request runs it is [TournamentMatchViewSet.start_match]. *)
Definition start_match (user : User) (match_ : Match) (db : DB) : outcome Match * DB :=
  match action_permissions user with
  | Raise e => (Raise e, db)
  | Ok _ =>
      if negb (may_manage user match_ db)
      then (Raise (PermissionDenied "Seul l'organisateur ou les coachs"), db)
      else if bool_decide (status match_ ≠ "scheduled")
      then (Raise (ValidationError "Seuls les matchs programmés peuvent être démarrés"), db)
      else
        let match_ := with_status match_ "live" in
        (Ok match_, TournamentSignals.save match_ false db)
  end.

(** The part of [MatchViewSet.finish_match] that follows
    [match = self.get_object()] (lines 630-644), on the match found; the
    method as a request runs it is [TournamentMatchViewSet.finish_match]. *)
Definition finish_match (user : User) (match_ : Match) (db : DB) : outcome Match * DB :=
  match action_permissions user with
  | Raise e => (Raise e, db)
  | Ok _ =>
      if negb (may_manage user match_ db)
      then (Raise (PermissionDenied "Seul l'organisateur ou les coachs"), db)
      else if negb (bool_decide (status match_ ∈ ["live"; "scheduled"]))
      then (Raise (ValidationError "Le match doit être en cours ou programmé"), db)
      else
        let match_ := with_status match_ "finished" in
        (Ok match_, TournamentSignals.save match_ false db)
  end.

(** The body of a request that creates a tournament match. *)
Record CreateMatchData := {
  c_home_team_id : Z;
  c_away_team_id : Z;
  c_match_date : Z;
  c_venue : option string;
  c_round_number : option Z;
  c_match_number : option Z;
  c_group_id : option Z;
  c_phase_id : option Z;
}.

(** [TeamGroup.objects.filter(team_id=team_id, group=group).exists()] *)
Definition in_group (team_id group_id : Z) (db : DB) : bool :=
  exists_ (filter (λ tg, tg_team tg = team_id ∧ tg_group tg = group_id) (team_groups db)).

(** [CreateMatchSerializer.validate]; [context_group] is
    [self.context.get('group')]. *)
Definition validate (data : CreateMatchData) (context_group : option Z) (db : DB)
    : outcome unit :=
  if negb (bool_decide (is_Some (teams db !! c_home_team_id data)))
  then Raise (ValidationError "L'équipe domicile n'existe pas")
  else if negb (bool_decide (is_Some (teams db !! c_away_team_id data)))
  then Raise (ValidationError "L'équipe extérieure n'existe pas")
  else if bool_decide (c_home_team_id data = c_away_team_id data)
  then Raise (ValidationError "Une équipe ne peut pas jouer contre elle-même")
  else
    match context_group with
    | Some group =>
        let home_in_group := in_group (c_home_team_id data) group db in
        let away_in_group := in_group (c_away_team_id data) group db in
        if negb home_in_group
        then Raise (ValidationError "L'équipe domicile n'est pas dans ce groupe")
        else if negb away_in_group
        then Raise (ValidationError "L'équipe extérieure n'est pas dans ce groupe")
        else Ok tt
    | None => Ok tt
    end.

(** [serializer.is_valid(raise_exception=True)]: the field validators
    ([round_number >= 1]) and then [validate]. *)
Definition is_valid (data : CreateMatchData) (context_group : option Z) (db : DB)
    : outcome unit :=
  if negb (bool_decide (1 ≤ default 1 (c_round_number data)))
  then Raise (ValidationError "round_number")
  else validate data context_group db.

(** [Match.objects.create(...)] with the arguments both creation views
    pass; [new_id] is the fresh identifier. *)
Definition new_match (new_id : Z) (tournament : Tournament) (group : option Z)
    (phase : option TournamentPhase) (data : CreateMatchData) : Match :=
  {| id := new_id; tournament := tournament; group := group; phase := phase;
     home_team := c_home_team_id data; away_team := c_away_team_id data;
     match_date := c_match_date data; venue := default "" (c_venue data);
     home_score := 0; away_score := 0; status := "scheduled";
     match_number := c_match_number data;
     round_number := default 1 (c_round_number data) |}.

(** [Player.objects.filter(team=team, is_main_player=True, is_active=True)] *)
Definition main_players (team_id : Z) (db : DB) : list (Z * Teams.Player) :=
  filter (λ kv, Teams.team kv.2 = team_id ∧ Teams.is_main_player kv.2 = true
                ∧ Teams.is_active kv.2 = true) (objects_all (players db)).

(** The loop that creates a starter row for every main player. The
    constraint [unique_together = ['match', 'team', 'player']] of the
    table is left out: a row for a triple already stored would be written
    under a new key, where the database raises [IntegrityError]. The
    loop runs on a match created just before, once for each side. *)
Fixpoint populate (match_id team_id : Z) (main_players : list (Z * Teams.Player)) (db : DB)
    : outcome unit * DB :=
  match main_players with
  | [] => (Ok tt, db)
  | (pk, player) :: rest =>
      let row :=
        {| Matches.lu_match := match_id; Matches.lu_team := team_id;
           Matches.lu_player := pk; Matches.position := Teams.position player;
           Matches.is_starter := true; Matches.is_captain := false;
           Matches.minutes_played := 0; Matches.goals_scored := 0; Matches.assists := 0;
           Matches.yellow_cards := 0; Matches.red_cards := 0 |} in
      match MatchSignals.save None row db with
      | Raise e => (Raise e, db)
      | Ok (_, db') => populate match_id team_id rest db'
      end
  end.

(** The part both creation views share from [Match.objects.create] on. *)
Definition create_and_populate (match_ : Match) (db : DB) : outcome Match * DB :=
  let db := TournamentSignals.save match_ true db in
  match populate (id match_) (home_team match_) (main_players (home_team match_) db) db with
  | (Raise e, db) => (Raise e, db)
  | (Ok _, db) =>
      match populate (id match_) (away_team match_) (main_players (away_team match_) db) db with
      | (Raise e, db) => (Raise e, db)
      | (Ok _, db) => (Ok match_, db)
      end
  end.

(** [get_object_or_404(TournamentPhase, id=phase_id, tournament=tournament)] *)
Definition get_phase (phase_id : option Z) (tournament : Tournament) (db : DB)
    : outcome (option TournamentPhase) :=
  match phase_id with
  | None => Ok None
  | Some k =>
      match phases db !! k with
      | Some phase =>
          if bool_decide (ph_tournament phase = t_id tournament) then Ok (Some phase)
          else Raise Http404
      | None => Raise Http404
      end
  end.

(** [TournamentViewSet.create_match] on the tournament
    [self.get_object()] returned. The serializer gets no context. *)
Definition TournamentViewSet_create_match (user : User) (tournament : Tournament)
    (data : CreateMatchData) (new_id : Z) (db : DB) : outcome Match * DB :=
  if is_authenticated user
     && bool_decide (organizer tournament ≠ Users.id user) && negb (is_superuser user)
  then (Raise (PermissionDenied "Seul l'organisateur peut créer des matchs"), db)
  else
    match is_valid data None db with
    | Raise e => (Raise e, db)
    | Ok _ =>
        let group :=
          match c_group_id data with
          | None => Ok None
          | Some k =>
              match groups db !! k with
              | Some g =>
                  if bool_decide (t_id (g_tournament g) = t_id tournament)
                  then Ok (Some k) else Raise Http404
              | None => Raise Http404
              end
          end in
        match group with
        | Raise e => (Raise e, db)
        | Ok group =>
            match get_phase (c_phase_id data) tournament db with
            | Raise e => (Raise e, db)
            | Ok phase =>
                create_and_populate (new_match new_id tournament group phase data) db
            end
        end
    end.

(** [TournamentGroupViewSet.create_match] on the group
    [self.get_object()] returned. The serializer gets the group as
    context. *)
Definition TournamentGroupViewSet_create_match (user : User) (group : TournamentGroup)
    (data : CreateMatchData) (new_id : Z) (db : DB) : outcome Match * DB :=
  if negb (has_permission IsAdminActiveUserType_passes user)
  then (Raise (PermissionDenied "permission classes"), db)
  else
    let tournament := g_tournament group in
    if bool_decide (organizer tournament ≠ Users.id user) && negb (is_superuser user)
    then (Raise (PermissionDenied "Seul l'organisateur peut créer des matchs"), db)
    else
      match is_valid data (Some (g_id group)) db with
      | Raise e => (Raise e, db)
      | Ok _ =>
          match get_phase (c_phase_id data) tournament db with
          | Raise e => (Raise e, db)
          | Ok phase =>
              create_and_populate
                (new_match new_id tournament (Some (g_id group)) phase data) db
          end
      end.

(** [Match.clean] of tournaments/models.py; no view and no [save] calls
    it. *)
Definition clean (self : Match) (db : DB) : outcome unit :=
  if bool_decide (home_team self = away_team self)
  then Raise (ValidationError "Une équipe ne peut pas jouer contre elle-même")
  else
    match group self with
    | Some g =>
        if negb (in_group (home_team self) g db && in_group (away_team self) g db)
        then Raise (ValidationError "Les deux équipes doivent être dans le même groupe")
        else Ok tt
    | None => Ok tt
    end.

End TournamentViews.

(** ** The teams of a parent *)

Module VisibilitySpec.
Import Users.

(** The teams of a parent in the words of the specification: the teams
    the user follows and the teams of the players one of whose parent
    e-mails is the user's. *)
Definition parent_team (user : User) (db : DB) (t : Z) : Prop :=
  (∃ team, teams db !! t = Some team ∧ id user ∈ Teams.followers team) ∨
  (∃ k player, players db !! k = Some player ∧ Teams.team player = t ∧
     (Teams.parent_email player = email user ∨ Teams.parent2_email player = email user)).

(** The teams [get_user_allowed_matches] collects for a parent: the
    teams the user follows and the teams of the players whose first
    parent e-mail is the user's. *)
Definition first_parent_team (user : User) (db : DB) (t : Z) : Prop :=
  (∃ team, teams db !! t = Some team ∧ id user ∈ Teams.followers team) ∨
  (∃ k player, players db !! k = Some player ∧ Teams.team player = t ∧
     Teams.parent_email player = email user).

End VisibilitySpec.

(** ** Sequences of lineup edits *)

Module StatPropagation.
Import Matches.

(** The five statistics a lineup row shares with the career totals of
    the player. *)
Inductive Stat := Goals | Assists | YellowCards | RedCards | Minutes.

Definition lineup_stat (f : Stat) (lineup : MatchLineup) : Z :=
  match f with
  | Goals => goals_scored lineup
  | Assists => assists lineup
  | YellowCards => yellow_cards lineup
  | RedCards => red_cards lineup
  | Minutes => minutes_played lineup
  end.

Definition player_stat (f : Stat) (player : Teams.Player) : Z :=
  match f with
  | Goals => Teams.goals_scored player
  | Assists => Teams.assists player
  | YellowCards => Teams.yellow_cards player
  | RedCards => Teams.red_cards player
  | Minutes => Teams.minutes_played player
  end.

(** The career total of a player as the database holds it. *)
Definition career (f : Stat) (player : Z) (db : DB) : Z :=
  default 0 (player_stat f <$> players db !! player).

(** One edit: a PATCH of the statistics of a lineup row. *)
Record Edit := {
  e_user : Users.User;
  e_match : Z;
  e_lineup : Z;
  e_data : MatchViews.LineupPatch;
}.

Definition apply_edit (e : Edit) (db : DB) : outcome unit * DB :=
  MatchViews.MatchLineupDetailView_patch (e_user e) (e_match e) (e_lineup e) (e_data e) db.

(** The edits are separate requests: each runs on the database the
    previous one left. *)
Definition run (edits : list Edit) (db : DB) : DB :=
  foldl (λ db e, (apply_edit e db).2) db edits.

(** The delta (new minus old) an edit applies to a statistic of
    [player]: the edit succeeds, on a row of that player whose primary
    key the receiver takes for a saved row. *)
Definition delta_of (f : Stat) (player : Z) (e : Edit) (db : DB) : option Z :=
  match (apply_edit e db).1, lineups db !! e_lineup e with
  | Ok _, Some old =>
      if bool_decide (lu_player old = player ∧ e_lineup e ≠ 0)
      then Some (lineup_stat f (MatchViews.patched old (e_data e)) - lineup_stat f old)
      else None
  | _, _ => None
  end.

(** The deltas a sequence of edits applies, in order. *)
Fixpoint applied_deltas (f : Stat) (player : Z) (edits : list Edit) (db : DB) : list Z :=
  match edits with
  | [] => []
  | e :: edits =>
      match delta_of f player e db with
      | Some d => d :: applied_deltas f player edits (apply_edit e db).2
      | None => applied_deltas f player edits (apply_edit e db).2
      end
  end.

Definition sumZ (ds : list Z) : Z := foldr Z.add 0 ds.

(** A total to which the deltas are added one by one, floored at zero
    after each. *)
Definition apply_deltas (init : Z) (ds : list Z) : Z :=
  foldl (λ total d, py_max0 (total + d)) init ds.

(** The running total never drops below zero. *)
Fixpoint no_underflow (init : Z) (ds : list Z) : Prop :=
  match ds with
  | [] => True
  | d :: ds => 0 ≤ init + d ∧ no_underflow (init + d) ds
  end.

End StatPropagation.

(** ** A small database *)

(** One club owned by a staff user, with two teams: team 1 with eleven
    active main players, team 2 with one player whose second parent is a
    registered parent user. Two global matches between the teams, the
    first one finished, with a lineup row of that player in each. One
    tournament with a group that has no member, and one tournament match. *)
Module Examples.

Definition admin : Users.User :=
  {| Users.id := 1; Users.email := "admin@example.com"; Users.user_type := "admin";
     Users.is_authenticated := true; Users.is_active := true; Users.is_verified := true;
     Users.is_superuser := false |}.

Definition staff : Users.User :=
  {| Users.id := 2; Users.email := "staff@example.com"; Users.user_type := "staff";
     Users.is_authenticated := true; Users.is_active := true; Users.is_verified := true;
     Users.is_superuser := false |}.

Definition parent : Users.User :=
  {| Users.id := 3; Users.email := "dad@example.com"; Users.user_type := "parent";
     Users.is_authenticated := true; Users.is_active := true; Users.is_verified := true;
     Users.is_superuser := false |}.

Definition player (team jersey : Z) (main : bool) (goals : Z) (email1 email2 : string)
    : Teams.Player :=
  {| Teams.team := team; Teams.jersey_number := jersey; Teams.position := "MC";
     Teams.is_captain := false; Teams.is_main_player := main;
     Teams.goals_scored := goals; Teams.assists := 0; Teams.yellow_cards := 0;
     Teams.red_cards := 0; Teams.minutes_played := 0;
     Teams.parent_email := email1; Teams.parent2_email := email2;
     Teams.is_active := true |}.

Definition eleven : list (Z * Teams.Player) :=
  (λ k, (k, player 1 k true 0 "" "")) <$> [1; 2; 3; 4; 5; 6; 7; 8; 9; 10; 11].

Definition roster : gmap Z Teams.Player :=
  <[20 := player 2 9 false 0 "mum@example.com" "dad@example.com"]> (list_to_map eleven).

Definition twelfth : Teams.Player := player 1 12 true 0 "" "".

Definition global_match (home away : Z) (status : string) : Matches.Match :=
  {| Matches.tournament := None; Matches.phase := None; Matches.group := None;
     Matches.home_team := home; Matches.away_team := away;
     Matches.scheduled_date := 0; Matches.actual_start_time := None;
     Matches.actual_end_time := None; Matches.venue_name := "Stade";
     Matches.venue_address := ""; Matches.field_number := "";
     Matches.status := status; Matches.match_type := "friendly";
     Matches.home_score := 0; Matches.away_score := 0;
     Matches.home_score_half_time := 0; Matches.away_score_half_time := 0;
     Matches.home_score_extra_time := None; Matches.away_score_extra_time := None;
     Matches.home_score_penalties := None; Matches.away_score_penalties := None;
     Matches.referee := None; Matches.assistant_referee_1 := None;
     Matches.assistant_referee_2 := None; Matches.weather_conditions := "";
     Matches.attendance := None; Matches.notes := ""; Matches.round_number := 1;
     Matches.created_by := None; Matches.last_updated_by := None |}.

Definition lineup (match_ : Z) (goals : Z) : Matches.MatchLineup :=
  {| Matches.lu_match := match_; Matches.lu_team := 2; Matches.lu_player := 20;
     Matches.position := "CM"; Matches.is_starter := true; Matches.is_captain := false;
     Matches.minutes_played := 0; Matches.goals_scored := goals; Matches.assists := 0;
     Matches.yellow_cards := 0; Matches.red_cards := 0 |}.

Definition tournament : Tournaments.Tournament :=
  {| Tournaments.t_id := 7; Tournaments.t_status := "active"; Tournaments.organizer := 1;
     Tournaments.points_per_win := 3; Tournaments.points_per_draw := 1;
     Tournaments.points_per_loss := 0 |}.

Definition group_A : Tournaments.TournamentGroup :=
  {| Tournaments.g_id := 5; Tournaments.g_tournament := tournament;
     Tournaments.g_name := "Groupe A" |}.

Definition tournament_match (status : string) : Tournaments.Match :=
  {| Tournaments.id := 100; Tournaments.tournament := tournament;
     Tournaments.group := None; Tournaments.phase := None;
     Tournaments.home_team := 1; Tournaments.away_team := 2;
     Tournaments.match_date := 0; Tournaments.venue := "Stade";
     Tournaments.home_score := 2; Tournaments.away_score := 1;
     Tournaments.status := status; Tournaments.match_number := None;
     Tournaments.round_number := 1 |}.

Definition team (club : Z) : Teams.Team :=
  {| Teams.club := club; Teams.coach := None; Teams.assistant_coaches := [];
     Teams.followers := [] |}.

Definition db : DB :=
  {| clubs := {[1 := {| Teams.owner := Some 2 |}]};
     teams := <[1 := team 1]> {[2 := team 1]};
     players := roster;
     team_staff := [];
     groups := {[5 := group_A]};
     phases := ∅;
     team_groups := [];
     tournament_matches := {[100 := tournament_match "finished"]};
     matches := <[1 := global_match 1 2 "finished"]> {[2 := global_match 2 1 "scheduled"]};
     lineups := <[10 := lineup 1 2]> {[11 := lineup 2 0]};
     events := ∅ |}.

Definition goals_patch (n : Z) : MatchViews.LineupPatch :=
  {| MatchViews.p_minutes_played := None; MatchViews.p_goals_scored := Some n;
     MatchViews.p_assists := None; MatchViews.p_yellow_cards := None;
     MatchViews.p_red_cards := None |}.

(** Two edits by the admin: the goals of lineup row 10 from 2 to 0, the
    goals of lineup row 11 from 0 to 2. *)
Definition edit_a : StatPropagation.Edit :=
  {| StatPropagation.e_user := admin; StatPropagation.e_match := 1;
     StatPropagation.e_lineup := 10; StatPropagation.e_data := goals_patch 0 |}.

Definition edit_b : StatPropagation.Edit :=
  {| StatPropagation.e_user := admin; StatPropagation.e_match := 2;
     StatPropagation.e_lineup := 11; StatPropagation.e_data := goals_patch 2 |}.

(** Scenario 2 of the specification: group G with teams X = 1, Y = 2 and
    Z = 3, X-Y 2-1 and Y-Z 1-1, both finished. *)
Definition member (k t : Z) : Tournaments.TeamGroup :=
  {| Tournaments.tg_id := k; Tournaments.tg_team := t; Tournaments.tg_group := 5;
     Tournaments.tg_position := None; Tournaments.is_qualified := false |}.

Definition group_match (k home away hs as_ : Z) : Tournaments.Match :=
  {| Tournaments.id := k; Tournaments.tournament := tournament;
     Tournaments.group := Some 5; Tournaments.phase := None;
     Tournaments.home_team := home; Tournaments.away_team := away;
     Tournaments.match_date := 0; Tournaments.venue := "";
     Tournaments.home_score := hs; Tournaments.away_score := as_;
     Tournaments.status := "finished"; Tournaments.match_number := None;
     Tournaments.round_number := 1 |}.

Definition scenario_members : list Tournaments.TeamGroup :=
  [member 1 1; member 2 2; member 3 3].

Definition scenario_matches : list Tournaments.Match :=
  [group_match 101 1 2 2 1; group_match 102 2 3 1 1].

End Examples.

(** ** Further models *)

(** [sum(f(x) for x in l)] *)
Definition total {A} (f : A → Z) (l : list A) : Z := foldr (λ x acc, f x + acc) 0 l.

Definition set_team_groups (db : DB) (v : list Tournaments.TeamGroup) : DB :=
  {| clubs := clubs db; teams := teams db; players := players db; team_staff := team_staff db;
     groups := groups db; phases := phases db; team_groups := v;
     tournament_matches := tournament_matches db; matches := matches db;
     lineups := lineups db; events := events db |}.

(** *** tournaments/models.py: the winner of the tournament-scoped match *)

Module TournamentModels.
Import Tournaments.

(** [Match.winner] of tournaments/models.py *)
Definition winner (self : Match) : option Z :=
  if bool_decide (status self ≠ "finished") then None
  else if bool_decide (home_score self > away_score self) then Some (home_team self)
  else if bool_decide (away_score self > home_score self) then Some (away_team self)
  else None.

(** A finished match of the group, the matches [get_standings] reads. *)
Definition counts_for (self : TournamentGroup) (m : Match) : Prop :=
  group m = Some (g_id self) ∧ status m = "finished".

(** The number of rows of a team among the members of a group. *)
Definition memberships (self : TournamentGroup) (team_groups : list TeamGroup) (t : Z) : Z :=
  count (filter (λ tg, tg_team tg = t) (members self team_groups)).

End TournamentModels.

(** *** tournaments/serializers.py: the standings of the comprehensive
    serializer *)

Module TournamentSerializers.
Import Tournaments.

(** A row of [_get_group_standings]; the name and the logo of the team are
    left out. *)
Record StandingRow := {
  r_team_id : Z;
  r_played : Z;
  r_wins : Z;
  r_draws : Z;
  r_losses : Z;
  r_goals_scored : Z;
  r_goals_conceded : Z;
  r_goal_difference : Z;
  r_points : Z;
  r_is_qualified : bool;
  r_position : Z;
}.

(** The five counters the two loops over the matches update. *)
Record Tally := {
  t_wins : Z;
  t_draws : Z;
  t_losses : Z;
  t_goals_scored : Z;
  t_goals_conceded : Z;
}.

(** The body of [for match in home_matches] *)
Definition tally_home (acc : Tally) (m : Match) : Tally :=
  let goals_scored := t_goals_scored acc + py_or (home_score m) 0 in
  let goals_conceded := t_goals_conceded acc + py_or (away_score m) 0 in
  if bool_decide (home_score m > away_score m) then
    {| t_wins := t_wins acc + 1; t_draws := t_draws acc; t_losses := t_losses acc;
       t_goals_scored := goals_scored; t_goals_conceded := goals_conceded |}
  else if bool_decide (home_score m = away_score m) then
    {| t_wins := t_wins acc; t_draws := t_draws acc + 1; t_losses := t_losses acc;
       t_goals_scored := goals_scored; t_goals_conceded := goals_conceded |}
  else
    {| t_wins := t_wins acc; t_draws := t_draws acc; t_losses := t_losses acc + 1;
       t_goals_scored := goals_scored; t_goals_conceded := goals_conceded |}.

(** The body of [for match in away_matches] *)
Definition tally_away (acc : Tally) (m : Match) : Tally :=
  let goals_scored := t_goals_scored acc + py_or (away_score m) 0 in
  let goals_conceded := t_goals_conceded acc + py_or (home_score m) 0 in
  if bool_decide (away_score m > home_score m) then
    {| t_wins := t_wins acc + 1; t_draws := t_draws acc; t_losses := t_losses acc;
       t_goals_scored := goals_scored; t_goals_conceded := goals_conceded |}
  else if bool_decide (away_score m = home_score m) then
    {| t_wins := t_wins acc; t_draws := t_draws acc + 1; t_losses := t_losses acc;
       t_goals_scored := goals_scored; t_goals_conceded := goals_conceded |}
  else
    {| t_wins := t_wins acc; t_draws := t_draws acc; t_losses := t_losses acc + 1;
       t_goals_scored := goals_scored; t_goals_conceded := goals_conceded |}.

(** The body of [for tg in team_groups]; [matches] is the table of the
    tournament matches. *)
Definition row_of (group : TournamentGroup) (matches : list Match) (tg : TeamGroup)
    : StandingRow :=
  let team := tg_team tg in
  let group_matches := filter (λ m, Tournaments.group m = Some (g_id group)) matches in
  let home_matches := filter (λ m, home_team m = team ∧ status m = "finished") group_matches in
  let away_matches := filter (λ m, away_team m = team ∧ status m = "finished") group_matches in
  let played := count home_matches + count away_matches in
  let acc := {| t_wins := 0; t_draws := 0; t_losses := 0;
                t_goals_scored := 0; t_goals_conceded := 0 |} in
  let acc := foldl tally_home acc home_matches in
  let acc := foldl tally_away acc away_matches in
  let goal_difference := t_goals_scored acc - t_goals_conceded acc in
  let points := t_wins acc * points_per_win (g_tournament group)
              + t_draws acc * points_per_draw (g_tournament group)
              + t_losses acc * points_per_loss (g_tournament group) in
  {| r_team_id := team; r_played := played; r_wins := t_wins acc; r_draws := t_draws acc;
     r_losses := t_losses acc; r_goals_scored := t_goals_scored acc;
     r_goals_conceded := t_goals_conceded acc; r_goal_difference := goal_difference;
     r_points := points; r_is_qualified := is_qualified tg;
     r_position := or_0 (tg_position tg) |}.

(** [lambda x: (-x['points'], -x['goal_difference'], -x['goals_scored'])] *)
Definition row_key (x : StandingRow) : Z * Z * Z :=
  (- r_points x, - r_goal_difference x, - r_goals_scored x).

(** [standing['position'] = idx] *)
Definition set_row_position (idx : Z) (x : StandingRow) : StandingRow :=
  {| r_team_id := r_team_id x; r_played := r_played x; r_wins := r_wins x;
     r_draws := r_draws x; r_losses := r_losses x; r_goals_scored := r_goals_scored x;
     r_goals_conceded := r_goals_conceded x; r_goal_difference := r_goal_difference x;
     r_points := r_points x; r_is_qualified := r_is_qualified x; r_position := idx |}.

(** [ComprehensiveTournamentSerializer._get_group_standings] *)
Definition _get_group_standings (group : TournamentGroup) (team_groups : list TeamGroup)
    (matches : list Match) : list StandingRow :=
  let standings := row_of group matches <$> members group team_groups in
  let standings := list_sort row_key tuple3_le standings in
  (λ '(idx, standing), set_row_position idx standing) <$> enumerate 1 standings.

(** The row of the serializer that carries the figures of a row of
    [get_standings]. *)
Definition as_row (x : Standing) : StandingRow :=
  {| r_team_id := team x; r_played := played x; r_wins := wins x; r_draws := draws x;
     r_losses := losses x; r_goals_scored := goals_scored x;
     r_goals_conceded := goals_conceded x; r_goal_difference := goal_difference x;
     r_points := points x; r_is_qualified := is_qualified (team_group x);
     r_position := match position x with
                   | Some idx => idx
                   | None => or_0 (tg_position (team_group x))
                   end |}.

End TournamentSerializers.

(** *** teams/views.py: the main-player actions of [PlayerViewSet] *)

Module TeamViews.
Import Users Teams.

(** [PlayerViewSet.get_permissions] for the actions other than [list]
    and [retrieve]: [IsAuthenticated, IsStaffUserType]. *)
Definition write_permissions (user : User) : outcome unit :=
  if negb (is_authenticated user) then Raise NotAuthenticated
  else if negb (Permissions.has_permission is_staff_member user)
  then Raise (PermissionDenied "permission classes")
  else Ok tt.

(** [PlayerViewSet.get_queryset]: [team_id] is the [team_pk] of the
    route or the [team_id] parameter, absent when both are missing or
    empty; [is_main] the [is_main_player] parameter compared with
    ['true'] and ['1']. *)
Definition get_queryset (team_id : option Z) (is_main : option bool) (db : DB)
    : list (Z * Player) :=
  let queryset := objects_all (players db) in
  let queryset :=
    match team_id with
    | Some t => filter (λ kv, team kv.2 = t) queryset
    | None => queryset
    end in
  match is_main with
  | Some b => filter (λ kv, is_main_player kv.2 = b) queryset
  | None => queryset
  end.

(** [self.get_object()]: the row of the queryset with the primary key of
    the route. *)
Definition get_object (team_id : option Z) (is_main : option bool) (pk : Z) (db : DB)
    : outcome Player :=
  match list_find (λ kv, kv.1 = pk) (get_queryset team_id is_main db) with
  | Some (_, kv) => Ok kv.2
  | None => Raise Http404
  end.

(** [player.team.club.owner != request.user and player.team.coach !=
    request.user] raises [PermissionDenied]. *)
Definition check_owner_or_coach (user : User) (player : Player) (db : DB) : outcome unit :=
  match teams db !! team player with
  | None => Raise (DoesNotExist "Team")
  | Some t =>
      if negb (Permissions.club_owner_is user t db)
         && bool_decide (coach t ≠ Some (id user))
      then Raise (PermissionDenied "Only the owner or the coach can modify main players")
      else Ok tt
  end.

(** [player.is_main_player = value] *)
Definition with_main (player : Player) (value : bool) : Player :=
  {| team := team player; jersey_number := jersey_number player;
     position := position player; is_captain := is_captain player;
     is_main_player := value;
     goals_scored := goals_scored player; assists := assists player;
     yellow_cards := yellow_cards player; red_cards := red_cards player;
     minutes_played := minutes_played player;
     parent_email := parent_email player; parent2_email := parent2_email player;
     is_active := is_active player |}.

(** [PlayerViewSet.set_as_main] *)
Definition set_as_main (user : User) (team_id : option Z) (is_main : option bool) (pk : Z)
    (db : DB) : outcome Player * DB :=
  match write_permissions user with
  | Raise e => (Raise e, db)
  | Ok _ =>
      match get_object team_id is_main pk db with
      | Raise e => (Raise e, db)
      | Ok player =>
          match check_owner_or_coach user player db with
          | Raise e => (Raise e, db)
          | Ok _ =>
              let main_players_count :=
                count (other_main_players (Some pk) player (players db)) in
              if bool_decide (main_players_count >= 11)
              then (Raise (BadRequest "Cette équipe a déjà 11 joueurs titulaires"), db)
              else
                let player := with_main player true in
                match save (Some pk) player (players db) with
                | Raise e => (Raise e, db)
                | Ok (_, table) => (Ok player, set_players db table)
                end
          end
      end
  end.

(** [PlayerViewSet.remove_as_main] *)
Definition remove_as_main (user : User) (team_id : option Z) (is_main : option bool) (pk : Z)
    (db : DB) : outcome Player * DB :=
  match write_permissions user with
  | Raise e => (Raise e, db)
  | Ok _ =>
      match get_object team_id is_main pk db with
      | Raise e => (Raise e, db)
      | Ok player =>
          match check_owner_or_coach user player db with
          | Raise e => (Raise e, db)
          | Ok _ =>
              let player := with_main player false in
              match save (Some pk) player (players db) with
              | Raise e => (Raise e, db)
              | Ok (_, table) => (Ok player, set_players db table)
              end
          end
      end
  end.

(** [Player.objects.filter(Q(team__followers=user) | Q(parent_email=
    user.email) | Q(parent2_email=user.email)).distinct()] of
    [MyPlayersView.get_queryset] *)
Definition MyPlayersView_get_queryset (user : User) (db : DB) : list (Z * Player) :=
  filter (λ kv, team kv.2 ∈ MatchViews.followed_teams_ids user db
                ∨ parent_email kv.2 = email user
                ∨ parent2_email kv.2 = email user)
    (objects_all (players db)).

End TeamViews.

(** *** matches/models.py: the choices of the global match *)

Module MatchModels.

Definition STATUS_CHOICES : list string :=
  ["scheduled"; "live"; "half_time"; "finished"; "postponed"; "cancelled"].

Definition MATCH_TYPE_CHOICES : list string :=
  ["group_stage"; "knockout"; "friendly"; "final"; "semi_final"; "quarter_final";
   "third_place"].

End MatchModels.

(** *** matches/views.py: the global [MatchViewSet] *)

Module GlobalMatchViewSet.
Import Users Matches Permissions.

(** [MatchViewSet.get_permissions] for the actions other than [list]
    and [retrieve]: [IsAdminOrStaffUserType]. *)
Definition write_permissions (user : User) : outcome unit :=
  if negb (has_permission IsAdminOrStaffUserType_passes user)
  then Raise (PermissionDenied "permission classes")
  else Ok tt.

(** The match with the two read-only author fields set by
    [serializer.save(...)]. *)
Definition with_authors (m : Match) (created_by' last_updated_by' : option Z) : Match :=
  {| tournament := tournament m; phase := phase m; group := group m;
     home_team := home_team m; away_team := away_team m;
     scheduled_date := scheduled_date m;
     actual_start_time := actual_start_time m; actual_end_time := actual_end_time m;
     venue_name := venue_name m; venue_address := venue_address m;
     field_number := field_number m;
     status := status m; match_type := match_type m;
     home_score := home_score m; away_score := away_score m;
     home_score_half_time := home_score_half_time m;
     away_score_half_time := away_score_half_time m;
     home_score_extra_time := home_score_extra_time m;
     away_score_extra_time := away_score_extra_time m;
     home_score_penalties := home_score_penalties m;
     away_score_penalties := away_score_penalties m;
     referee := referee m; assistant_referee_1 := assistant_referee_1 m;
     assistant_referee_2 := assistant_referee_2 m;
     weather_conditions := weather_conditions m; attendance := attendance m;
     notes := notes m; round_number := round_number m;
     created_by := created_by'; last_updated_by := last_updated_by' |}.

(** [MatchViewSet.perform_create] for the match [m] of the validated
    data; a team of the data that is no row of the team table stands for
    an absent team. *)
Definition perform_create (user : User) (m : Match) (db : DB) : outcome Z * DB :=
  match teams db !! home_team m, teams db !! away_team m with
  | Some home, Some _ =>
      let permission :=
        if bool_decide (user_type user = "admin")
        then Raise (PermissionDenied "You can only create matches in your tournaments")
        else if bool_decide (user_type user = "staff") then
          if negb (club_owner_is user home db)
          then Raise (PermissionDenied
                        "You can only create matches where home_team is from your club")
          else Ok tt
        else
          if negb (bool_decide (home_team m ∈ (coached_teams user db).*1))
          then Raise (PermissionDenied
                        "You can only create matches where home_team is your coached team")
          else Ok tt in
      match permission with
      | Raise e => (Raise e, db)
      | Ok _ =>
          let k := next_pk (matches db) in
          let match_ := with_authors m (Some (id user)) (Some (id user)) in
          let db := set_matches db (<[k := match_]> (matches db)) in
          match TournamentViews.populate k (home_team m)
                  (TournamentViews.main_players (home_team m) db) db with
          | (Raise e, db) => (Raise e, db)
          | (Ok _, db) =>
              match TournamentViews.populate k (away_team m)
                      (TournamentViews.main_players (away_team m) db) db with
              | (Raise e, db) => (Raise e, db)
              | (Ok _, db) => (Ok k, db)
              end
          end
      end
  | _, _ => (Raise (PermissionDenied "home_team and away_team are required"), db)
  end.

(** [MatchViewSet.create] for validated data: the permission classes,
    then [perform_create]. *)
Definition create (user : User) (m : Match) (db : DB) : outcome Z * DB :=
  match write_permissions user with
  | Raise e => (Raise e, db)
  | Ok _ => perform_create user m db
  end.

(** [self.get_object()]: the row of [get_queryset], which is
    [get_user_allowed_matches(user)], with the primary key of the route. *)
Definition get_object (user : User) (pk : Z) (db : DB) : outcome Match :=
  match list_find (λ kv, kv.1 = pk) (MatchViews.get_user_allowed_matches (Some user) db) with
  | Some (_, kv) => Ok kv.2
  | None => Raise Http404
  end.

(** [match.created_by and match.created_by != user and user.user_type !=
    'admin'] *)
Definition not_the_creator (user : User) (match_ : Match) : bool :=
  bool_decide (is_Some (created_by match_))
  && bool_decide (created_by match_ ≠ Some (id user))
  && bool_decide (user_type user ≠ "admin").

(** [MatchViewSet.update] for the match [validated] of the validated
    data: the permission classes, the lookup, [perform_update]. *)
Definition update (user : User) (pk : Z) (validated : Match) (db : DB) : outcome Match * DB :=
  match write_permissions user with
  | Raise e => (Raise e, db)
  | Ok _ =>
      match get_object user pk db with
      | Raise e => (Raise e, db)
      | Ok match_ =>
          if not_the_creator user match_
          then (Raise (PermissionDenied "You can only update matches you created"), db)
          else
            let match_ := with_authors validated (created_by match_) (Some (id user)) in
            (Ok match_, set_matches db (<[pk := match_]> (matches db)))
      end
  end.

(** [instance.delete()]: the row goes, and with it the events and the
    lineup rows of the match ([on_delete=CASCADE]); no [pre_save]
    receiver runs. *)
Definition delete_match (pk : Z) (db : DB) : DB :=
  let db := set_events db (filter (λ kv, ev_match kv.2 ≠ pk) (events db)) in
  let db := set_lineups db (filter (λ kv, lu_match kv.2 ≠ pk) (lineups db)) in
  set_matches db (delete pk (matches db)).

(** [MatchViewSet.destroy]: the permission classes, the lookup,
    [perform_destroy]. *)
Definition destroy (user : User) (pk : Z) (db : DB) : outcome unit * DB :=
  match write_permissions user with
  | Raise e => (Raise e, db)
  | Ok _ =>
      match get_object user pk db with
      | Raise e => (Raise e, db)
      | Ok instance =>
          if not_the_creator user instance
          then (Raise (PermissionDenied "You can only delete matches you created"), db)
          else (Ok tt, delete_match pk db)
      end
  end.

End GlobalMatchViewSet.

(** *** matches/views.py: the deletion of an event *)

Module MatchEventViewSet.
Import Users Matches Permissions.

(** [MatchEventViewSet.perform_destroy] on the event [instance] stored
    under [pk]. *)
Definition perform_destroy (user : User) (pk : Z) (instance : MatchEvent) (db : DB)
    : outcome unit * DB :=
  match teams db !! ev_team instance with
  | None => (Raise (DoesNotExist "Team"), db)
  | Some team =>
      match MatchViews.check_team_permission user (ev_team instance) team db with
      | Raise e => (Raise e, db)
      | Ok _ => (Ok tt, set_events db (delete pk (events db)))
      end
  end.

End MatchEventViewSet.

(** *** tournaments/views.py: scores and group members *)

Module TournamentActions.
Import Users Tournaments Permissions TournamentViews.

(** The body of an [update_score] request. *)
Record ScoreData := {
  s_home_score : option Z;
  s_away_score : option Z;
  s_status : option string;
}.

(** [UpdateMatchScoreSerializer(data=...).is_valid(raise_exception=True)] *)
Definition validate_score (data : ScoreData) : outcome (Z * Z * option string) :=
  match s_home_score data, s_away_score data with
  | Some h, Some a =>
      if negb (bool_decide (0 ≤ h)) || negb (bool_decide (0 ≤ a))
      then Raise (ValidationError "min_value")
      else
        match s_status data with
        | Some s =>
            if bool_decide (s ∈ ["scheduled"; "live"; "finished"; "postponed"; "cancelled"])
            then Ok (h, a, Some s)
            else Raise (ValidationError "status")
        | None => Ok (h, a, None)
        end
  | _, _ => Raise (ValidationError "required")
  end.

(** The assignments of [update_score] to the match. *)
Definition with_score (m : Match) (h a : Z) (s : option string) : Match :=
  {| id := id m; tournament := tournament m; group := group m; phase := phase m;
     home_team := home_team m; away_team := away_team m; match_date := match_date m;
     venue := venue m; home_score := h; away_score := a;
     status := default (status m) s; match_number := match_number m;
     round_number := round_number m |}.

(** The part of [MatchViewSet.update_score] that follows
    [match = self.get_object()] (lines 583-604), on the match found; the
    method as a request runs it is [TournamentMatchViewSet.update_score]. *)
Definition update_score (user : User) (match_ : Match) (data : ScoreData) (db : DB)
    : outcome Match * DB :=
  match action_permissions user with
  | Raise e => (Raise e, db)
  | Ok _ =>
      if negb (may_manage user match_ db)
      then (Raise (PermissionDenied "Seul l'organisateur ou les coachs"), db)
      else
        match validate_score data with
        | Raise e => (Raise e, db)
        | Ok (h, a, s) =>
            let match_ := with_score match_ h a s in
            (Ok match_, TournamentSignals.save match_ false db)
        end
  end.

(** The body of an [add_team] request. *)
Record AddTeamData := {
  a_team_id : option Z;
  a_position : option Z;
}.

(** The identifier of the next row of the [team_groups] table. *)
Definition next_team_group_id (table : list TeamGroup) : Z :=
  foldr Z.max 0 (tg_id <$> table) + 1.

(** [TournamentGroupViewSet.add_team] on the group [self.get_object()]
    returned. The new row is put at the end of the table; the order of
    the table is not read by what follows. *)
Definition add_team (user : User) (group : TournamentGroup) (data : AddTeamData) (db : DB)
    : outcome TeamGroup * DB :=
  if negb (has_permission IsAdminActiveUserType_passes user)
  then (Raise (PermissionDenied "permission classes"), db)
  else if bool_decide (organizer (g_tournament group) ≠ Users.id user)
          && negb (is_superuser user)
  then (Raise (PermissionDenied "Seul l'organisateur peut ajouter des équipes"), db)
  else
    match a_team_id data with
    | None => (Raise (ValidationError "team_id"), db)
    | Some team_id =>
        if negb (bool_decide (is_Some (teams db !! team_id)))
        then (Raise (ValidationError "L'équipe n'existe pas"), db)
        else if in_group team_id (g_id group) db
        then (Raise (ValidationError "Cette équipe est déjà dans ce groupe"), db)
        else
          let team_group :=
            {| tg_id := next_team_group_id (team_groups db); tg_team := team_id;
               tg_group := g_id group; tg_position := a_position data;
               is_qualified := false |} in
          (Ok team_group, set_team_groups db (team_groups db ++ [team_group]))
    end.

(** [TournamentGroupViewSet.remove_team] on the group
    [self.get_object()] returned. *)
Definition remove_team (user : User) (group : TournamentGroup) (team_id : Z) (db : DB)
    : outcome unit * DB :=
  if negb (has_permission IsAdminActiveUserType_passes user)
  then (Raise (PermissionDenied "permission classes"), db)
  else if bool_decide (organizer (g_tournament group) ≠ Users.id user)
          && negb (is_superuser user)
  then (Raise (PermissionDenied "Seul l'organisateur peut retirer des équipes"), db)
  else
    match filter (λ tg, tg_group tg = g_id group ∧ tg_team tg = team_id) (team_groups db) with
    | [] => (Raise Http404, db)
    | [team_group] =>
        (Ok tt, set_team_groups db
                  (filter (λ tg, tg_id tg ≠ tg_id team_group) (team_groups db)))
    | _ :: _ :: _ => (Raise (MultipleObjectsReturned "TeamGroup"), db)
    end.

End TournamentActions.

(** *** Further example data *)

Module Examples2.

(** An active admin who organizes no tournament. *)
Definition other_admin : Users.User :=
  {| Users.id := 9; Users.email := "other@example.com"; Users.user_type := "admin";
     Users.is_authenticated := true; Users.is_active := true; Users.is_verified := false;
     Users.is_superuser := false |}.

(** The example database with teams 1 and 2 in group 5. *)
Definition db_group : DB :=
  set_team_groups Examples.db [Examples.member 1 1; Examples.member 2 2].

Definition goal_event : Matches.MatchEvent :=
  {| Matches.ev_match := 1; Matches.ev_team := 2; Matches.ev_player := 20;
     Matches.event_type := "goal"; Matches.minute := 10; Matches.additional_time := 0;
     Matches.substituted_player := None; Matches.assist_player := None;
     Matches.ev_created_by := None |}.

End Examples2.

(** *** The starter row of a main player *)

Module LineupRows.

(** The row [MatchLineup.objects.create(match=..., team=..., player=...,
    position=player.position, is_starter=True, minutes_played=0)] makes
    for the player stored under [kv.1]. *)
Definition starter_row (match_id team_id : Z) (kv : Z * Teams.Player) : Matches.MatchLineup :=
  {| Matches.lu_match := match_id; Matches.lu_team := team_id;
     Matches.lu_player := kv.1; Matches.position := Teams.position kv.2;
     Matches.is_starter := true; Matches.is_captain := false;
     Matches.minutes_played := 0; Matches.goals_scored := 0; Matches.assists := 0;
     Matches.yellow_cards := 0; Matches.red_cards := 0 |}.

End LineupRows.

(** *** matches/views.py: the statistics of a player *)

Module PlayerStatsView.
Import Users Matches Permissions.

(** The dictionary [PlayerStatsView.get] returns, without the player. *)
Record Totals := {
  tot_minutes_played : Z;
  tot_goals_scored : Z;
  tot_assists : Z;
  tot_yellow_cards : Z;
  tot_red_cards : Z;
}.

(** The value of [has_access] after the permission block of
    [PlayerStatsView.get]. *)
Definition has_access (user : User) (player_id : Z) (db : DB) : outcome bool :=
  if bool_decide (user_type user = "admin") then Ok true
  else if bool_decide (user_type user = "staff") then
    match players db !! player_id with
    | None => Raise Http404
    | Some player =>
        Ok (MatchViews.team_club_in (Teams.team player) (MatchViews.clubs_owned_by user db) db)
    end
  else if bool_decide (user_type user = "coach") || exists_ (coached_teams user db) then
    match players db !! player_id with
    | None => Raise Http404
    | Some player =>
        match teams db !! Teams.team player with
        | None => Raise (DoesNotExist "Team")
        | Some team =>
            Ok (bool_decide (Teams.coach team = Some (id user))
                || bool_decide (Teams.team player ∈ (coached_teams user db).*1))
        end
    end
  else if bool_decide (user_type user = "parent") then
    match players db !! player_id with
    | None => Raise Http404
    | Some player => Ok (bool_decide (Teams.parent_email player = email user))
    end
  else Ok false.

(** [MatchLineup.objects.filter(player_id=player_id)] *)
Definition lineups_of_player (player_id : Z) (db : DB) : list (Z * MatchLineup) :=
  filter (λ kv, lu_player kv.2 = player_id) (objects_all (lineups db)).

(** [PlayerStatsView.get] *)
Definition get (user : User) (player_id : Z) (db : DB) : outcome Totals :=
  if negb (is_authenticated user) then Raise NotAuthenticated
  else
    match has_access user player_id db with
    | Raise e => Raise e
    | Ok false =>
        Raise (PermissionDenied "You do not have permission to view this player's stats")
    | Ok true =>
        let qs := lineups_of_player player_id db in
        Ok {| tot_minutes_played := total (λ kv, minutes_played kv.2) qs;
              tot_goals_scored := total (λ kv, goals_scored kv.2) qs;
              tot_assists := total (λ kv, assists kv.2) qs;
              tot_yellow_cards := total (λ kv, yellow_cards kv.2) qs;
              tot_red_cards := total (λ kv, red_cards kv.2) qs |}
    end.

End PlayerStatsView.

(** *** tournaments/views.py: the lifecycle of a tournament *)

Module TournamentLifecycle.
Import Users Tournaments Permissions.

(** [tournament.status = status'] *)
Definition with_t_status (t : Tournament) (status' : string) : Tournament :=
  {| t_id := t_id t; t_status := status'; organizer := organizer t;
     points_per_win := points_per_win t; points_per_draw := points_per_draw t;
     points_per_loss := points_per_loss t |}.

(** The head the three views share: the permission class
    [IsAdminUserType], the lookup and the organizer check. *)
Definition organizer_only (user : User) (tournament_id : Z) (table : gmap Z Tournament)
    (detail : string) : outcome Tournament :=
  if negb (has_permission IsAdminUserType_passes user)
  then Raise (PermissionDenied "permission classes")
  else
    match table !! tournament_id with
    | None => Raise Http404
    | Some tournament =>
        if bool_decide (organizer tournament ≠ Users.id user) && negb (is_superuser user)
        then Raise (PermissionDenied detail)
        else Ok tournament
    end.

(** [StartTournamentView.post] *)
Definition StartTournamentView_post (user : User) (tournament_id : Z)
    (table : gmap Z Tournament) : outcome Tournament * gmap Z Tournament :=
  match organizer_only user tournament_id table
          "Seul l'organisateur peut démarrer le tournoi" with
  | Raise e => (Raise e, table)
  | Ok tournament =>
      if bool_decide (t_status tournament ≠ "upcoming")
      then (Raise (ValidationError "Seuls les tournois à venir peuvent être démarrés"), table)
      else
        let tournament := with_t_status tournament "active" in
        (Ok tournament, <[tournament_id := tournament]> table)
  end.

(** [FinishTournamentView.post] *)
Definition FinishTournamentView_post (user : User) (tournament_id : Z)
    (table : gmap Z Tournament) : outcome Tournament * gmap Z Tournament :=
  match organizer_only user tournament_id table
          "Seul l'organisateur peut terminer le tournoi" with
  | Raise e => (Raise e, table)
  | Ok tournament =>
      let tournament := with_t_status tournament "finished" in
      (Ok tournament, <[tournament_id := tournament]> table)
  end.

(** [CancelTournamentView.post] *)
Definition CancelTournamentView_post (user : User) (tournament_id : Z)
    (table : gmap Z Tournament) : outcome Tournament * gmap Z Tournament :=
  match organizer_only user tournament_id table
          "Seul l'organisateur peut annuler le tournoi" with
  | Raise e => (Raise e, table)
  | Ok tournament =>
      let tournament := with_t_status tournament "cancelled" in
      (Ok tournament, <[tournament_id := tournament]> table)
  end.

(** A request to one of the three views. *)
Inductive View := Start | Finish | Cancel.

Record Request := {
  r_view : View;
  r_user : User;
  r_tournament : Z;
}.

Definition post (r : Request) (table : gmap Z Tournament)
    : outcome Tournament * gmap Z Tournament :=
  match r_view r with
  | Start => StartTournamentView_post (r_user r) (r_tournament r) table
  | Finish => FinishTournamentView_post (r_user r) (r_tournament r) table
  | Cancel => CancelTournamentView_post (r_user r) (r_tournament r) table
  end.

(** The requests are served one after the other. *)
Definition run (requests : list Request) (table : gmap Z Tournament) : gmap Z Tournament :=
  foldl (λ table r, (post r table).2) table requests.

End TournamentLifecycle.

(** *** The standings of a group, in the words of the specification *)

Module StandingsSpec.
Import Tournaments.

(** The matches the specification scans: the finished matches of the
    group. *)
Definition finished_matches (g : TournamentGroup) (matches : list Match) : list Match :=
  filter (λ m, group m = Some (g_id g) ∧ status m = "finished") matches.

(** What one scanned match adds to each figure of team [t]: its home
    side counts where the team played at home, its away side where the
    team played away. *)
Definition appearances (t : Z) (m : Match) : Z :=
  (if decide (home_team m = t) then 1 else 0)
  + (if decide (away_team m = t) then 1 else 0).

Definition won (t : Z) (m : Match) : Z :=
  (if decide (home_team m = t ∧ home_score m > away_score m) then 1 else 0)
  + (if decide (away_team m = t ∧ away_score m > home_score m) then 1 else 0).

Definition drawn (t : Z) (m : Match) : Z :=
  (if decide (home_team m = t ∧ home_score m = away_score m) then 1 else 0)
  + (if decide (away_team m = t ∧ home_score m = away_score m) then 1 else 0).

Definition lost (t : Z) (m : Match) : Z :=
  (if decide (home_team m = t ∧ home_score m < away_score m) then 1 else 0)
  + (if decide (away_team m = t ∧ away_score m < home_score m) then 1 else 0).

Definition scored (t : Z) (m : Match) : Z :=
  (if decide (home_team m = t) then home_score m else 0)
  + (if decide (away_team m = t) then away_score m else 0).

Definition conceded (t : Z) (m : Match) : Z :=
  (if decide (home_team m = t) then away_score m else 0)
  + (if decide (away_team m = t) then home_score m else 0).

End StandingsSpec.

(** *** tournaments/views.py: the detail actions of MatchViewSet, as a request runs them *)

Module TournamentMatchViewSet.
Import Users Tournaments Permissions TournamentViews TournamentActions.

(** [self.get_object()] of [MatchViewSet]: the row of
    [self.get_queryset()] whose primary key, its [id], is [pk], [Http404]
    when the queryset holds none. The view sets no filter backend, and the object
    permissions checked on the row are those of the permission classes of
    the action, whose [has_object_permission] repeats [has_permission]. *)
Definition get_object (user : User) (params : QueryParams) (pk : Z) (db : DB)
    : outcome Match :=
  match list_find (λ m, id m = pk) (get_queryset user params db) with
  | Some (_, match_) => Ok match_
  | None => Raise Http404
  end.

(** A detail action of [MatchViewSet]: the permission classes of the
    action, then [match = self.get_object()], then the rest of the
    method on the match found. *)
Definition detail_action (rest : User → Match → DB → outcome Match * DB)
    (user : User) (params : QueryParams) (pk : Z) (db : DB) : outcome Match * DB :=
  match action_permissions user with
  | Raise e => (Raise e, db)
  | Ok _ =>
      match get_object user params pk db with
      | Raise e => (Raise e, db)
      | Ok match_ => rest user match_ db
      end
  end.

(** [MatchViewSet.start_match] *)
Definition start_match : User → QueryParams → Z → DB → outcome Match * DB :=
  detail_action TournamentViews.start_match.

(** [MatchViewSet.finish_match] *)
Definition finish_match : User → QueryParams → Z → DB → outcome Match * DB :=
  detail_action TournamentViews.finish_match.

(** [MatchViewSet.update_score] *)
Definition update_score (user : User) (params : QueryParams) (pk : Z) (data : ScoreData)
    (db : DB) : outcome Match * DB :=
  detail_action (λ user match_, TournamentActions.update_score user match_ data)
    user params pk db.

End TournamentMatchViewSet.

(* ===================================================================== *)
(** * Properties *)
(* ===================================================================== *)

(** ** Facts about the built-ins *)

Lemma py_or_0 (x : Z) : py_or x 0 = x.
Proof. unfold py_or. case_bool_decide; lia. Qed.

Lemma or_0_aggregate_Sum {A} (field : A → Z) (qs : list A) :
  or_0 (aggregate_Sum field qs) = foldr (λ r acc, field r + acc) 0 qs.
Proof. destruct qs as [|r qs]; [done|]. simpl. apply py_or_0. Qed.

Lemma count_nonneg {A} (qs : list A) : 0 ≤ count qs.
Proof. unfold count. lia. Qed.

Lemma count_filter_split {A} (P : A → Prop) `{!∀ x, Decision (P x)} (qs : list A) :
  count qs = count (filter P qs) + count (filter (λ x, ¬ P x) qs).
Proof.
  unfold count. induction qs as [|x qs IH]; [done|].
  rewrite !filter_cons. destruct (decide (P x)), (decide (¬ P x)); simpl in *; try tauto; lia.
Qed.

Lemma enumerate_lookup {A} (l : list A) (start : Z) (i : nat) :
  enumerate start l !! i = (λ x, (start + Z.of_nat i, x)) <$> l !! i.
Proof.
  revert start i. induction l as [|x l IH]; intros start [|i]; simpl; try done.
  - do 2 f_equal. lia.
  - rewrite IH. destruct (l !! i); simpl; [|done]. do 2 f_equal. lia.
Qed.

Lemma enumerate_snd {A} (l : list A) (start : Z) : (enumerate start l).*2 = l.
Proof. revert start. induction l as [|x l IH]; intros start; simpl; [done|]. by rewrite IH. Qed.

(** A stable sort: sorted, a permutation, and order-preserving on every
    class of equal keys. *)
Section ListSortFacts.
Context {A K : Type} `{!EqDecision K} (key : A → K) (le : K → K → bool).
Hypothesis le_total : ∀ a b, le a b = true ∨ le b a = true.
Hypothesis le_trans : ∀ a b c, le a b = true → le b c = true → le a c = true.

Definition key_le (x y : A) : Prop := le (key x) (key y) = true.

Lemma insert_sorted_perm (x : A) (l : list A) : insert_sorted key le x l ≡ₚ x :: l.
Proof.
  induction l as [|y l IH]; simpl; [done|].
  destruct (le (key x) (key y)); [done|].
  rewrite IH. apply Permutation_swap.
Qed.

Lemma list_sort_perm (l : list A) : list_sort key le l ≡ₚ l.
Proof.
  induction l as [|x l IH]; simpl; [done|].
  fold (list_sort key le l). by rewrite insert_sorted_perm, IH.
Qed.

Lemma insert_sorted_sorted (x : A) (l : list A) :
  StronglySorted key_le l → StronglySorted key_le (insert_sorted key le x l).
Proof.
  induction 1 as [|y l Hl IH Hy]; simpl.
  - repeat constructor.
  - destruct (le (key x) (key y)) eqn:Hxy.
    + constructor; [by constructor|].
      constructor; [exact Hxy|].
      eapply Forall_impl; [exact Hy|]. intros z Hz. by eapply le_trans.
    + constructor; [exact IH|].
      rewrite insert_sorted_perm. constructor; [|exact Hy].
      destruct (le_total (key x) (key y)) as [Hc|Hc]; [congruence|exact Hc].
Qed.

Lemma list_sort_sorted (l : list A) : StronglySorted key_le (list_sort key le l).
Proof.
  induction l as [|x l IH]; simpl; [constructor|].
  by apply insert_sorted_sorted.
Qed.

Lemma insert_sorted_filter (k : K) (x : A) (l : list A) :
  filter (λ y, key y = k) (insert_sorted key le x l) = filter (λ y, key y = k) (x :: l).
Proof.
  induction l as [|y l IH]; simpl; [done|].
  destruct (le (key x) (key y)) eqn:Hxy; [done|].
  assert (key x ≠ key y) as Hne.
  { intros Heq. rewrite Heq in Hxy. destruct (le_total (key y) (key y)); congruence. }
  rewrite (filter_cons _ y), IH, !filter_cons.
  destruct (decide (key y = k)), (decide (key x = k)); congruence.
Qed.

Lemma list_sort_stable (k : K) (l : list A) :
  filter (λ y, key y = k) (list_sort key le l) = filter (λ y, key y = k) l.
Proof.
  induction l as [|x l IH]; simpl; [done|].
  fold (list_sort key le l). rewrite insert_sorted_filter, !filter_cons, IH. done.
Qed.
End ListSortFacts.

Lemma tuple3_le_total (a b : Z * Z * Z) : tuple3_le a b = true ∨ tuple3_le b a = true.
Proof.
  destruct a as [[a1 a2] a3], b as [[b1 b2] b3]. unfold tuple3_le.
  repeat case_bool_decide; auto; lia.
Qed.

Lemma tuple3_le_trans (a b c : Z * Z * Z) :
  tuple3_le a b = true → tuple3_le b c = true → tuple3_le a c = true.
Proof.
  destruct a as [[a1 a2] a3], b as [[b1 b2] b3], c as [[c1 c2] c3]. unfold tuple3_le.
  repeat case_bool_decide; auto; try lia; try discriminate.
Qed.

Lemma filter_fmap {A B} (f : A → B) (P : B → Prop) `{!∀ y, Decision (P y)} (l : list A) :
  filter P (f <$> l) = f <$> filter (λ x, P (f x)) l.
Proof.
  induction l as [|x l IH]; [done|].
  rewrite fmap_cons, !filter_cons, IH. by destruct (decide (P (f x))).
Qed.

Lemma count_partition3 {A} (P Q R : A → Prop)
    `{!∀ x, Decision (P x)} `{!∀ x, Decision (Q x)} `{!∀ x, Decision (R x)} (qs : list A) :
  (∀ x, (P x ∧ ¬ Q x ∧ ¬ R x) ∨ (¬ P x ∧ Q x ∧ ¬ R x) ∨ (¬ P x ∧ ¬ Q x ∧ R x)) →
  count (filter P qs) + count (filter Q qs) + count (filter R qs) = count qs.
Proof.
  intros Hx. unfold count. induction qs as [|x qs IH]; [done|].
  rewrite !filter_cons.
  destruct (Hx x) as [(?&?&?)|[(?&?&?)|(?&?&?)]];
    destruct (decide (P x)), (decide (Q x)), (decide (R x)); simpl; try tauto; lia.
Qed.

Lemma StronglySorted_lookup {A} (R : A → A → Prop) (l : list A) (i j : nat) (x y : A) :
  StronglySorted R l → l !! i = Some x → l !! j = Some y → (i < j)%nat → R x y.
Proof.
  intros Hl. revert i j. induction Hl as [|z l Hl IH Hz]; intros i j Hi Hj Hij; [done|].
  destruct j as [|j]; [lia|]. destruct i as [|i]; simpl in *.
  - simplify_eq. rewrite Forall_forall in Hz. apply Hz. by eapply list_elem_of_lookup_2.
  - eapply IH; eauto. lia.
Qed.

(** ** The standings engine *)

Section Standings.
Import Tournaments.
Context (self : TournamentGroup) (team_groups : list TeamGroup) (matches : list Match).

Local Abbreviation ranked l :=
  ((λ '(idx, standing), set_position idx standing) <$> enumerate 1 l).

Lemma ranked_lookup (l : list Standing) (i : nat) (r : Standing) :
  ranked l !! i = Some r ↔ ∃ s, l !! i = Some s ∧ r = set_position (1 + Z.of_nat i) s.
Proof.
  rewrite list_lookup_fmap, enumerate_lookup.
  destruct (l !! i) as [s|]; simpl; split.
  - intros [= <-]. eauto.
  - intros (s' & [= <-] & ->). done.
  - done.
  - by intros (s' & ? & _).
Qed.

Lemma ranked_fmap {B} (g : Standing → B) (l : list Standing) :
  (∀ idx s, g (set_position idx s) = g s) → g <$> ranked l = g <$> l.
Proof.
  intros Hg. rewrite <- list_fmap_compose.
  rewrite <- (enumerate_snd l 1) at 2. rewrite <- list_fmap_compose.
  apply list_fmap_ext. intros _ [idx s] _. simpl. apply Hg.
Qed.

Lemma ranked_filter {B} (g : Standing → B) (P : Standing → Prop)
    `{!∀ x, Decision (P x)} (l : list Standing) :
  (∀ idx s, g (set_position idx s) = g s) →
  (∀ idx s, P (set_position idx s) ↔ P s) →
  g <$> filter P (ranked l) = g <$> filter P l.
Proof.
  intros Hg HP.
  generalize 1. induction l as [|s l IH]; intros start; [done|].
  cbn [enumerate]. rewrite fmap_cons. cbn beta iota. rewrite !filter_cons.
  pose proof (HP start s) as Hiff.
  destruct (decide (P (set_position start s))), (decide (P s)); try tauto;
    rewrite ?fmap_cons, ?Hg, IH; done.
Qed.

Lemma sorted_elem (s : Standing) :
  s ∈ list_sort sort_key tuple3_le (standing_of self matches <$> members self team_groups) →
  ∃ tg, tg ∈ members self team_groups ∧ s = standing_of self matches tg.
Proof.
  rewrite (list_sort_perm sort_key tuple3_le).
  rewrite list_elem_of_fmap. intros (tg & -> & Htg). eauto.
Qed.

Lemma sort_key_ranks_above (a b : Standing) :
  tuple3_le (sort_key a) (sort_key b) = true → ranks_above a b.
Proof.
  unfold tuple3_le, sort_key, ranks_above.
  repeat case_bool_decide; intros; try discriminate; lia.
Qed.

Lemma rank_key_sort_key (r : Standing) (p gd gs : Z) :
  rank_key r = (p, gd, gs) ↔ sort_key r = (- p, - gd, - gs).
Proof.
  unfold rank_key, sort_key. split; intros [=].
  - by subst.
  - assert (points r = p ∧ goal_difference r = gd ∧ goals_scored r = gs)
      as (-> & -> & ->) by lia. done.
Qed.

(** Scenario 2 of the specification: X ranks first with 3 points, then Z
    with 1 point and goal difference 0, then Y with 1 point and goal
    difference -1. *)
Example standings_scenario :
  (λ r, (team r, points r, goal_difference r, position r)) <$>
    get_standings Examples.group_A Examples.scenario_members Examples.scenario_matches
  = [(1, 3, 1, Some 1); (3, 1, 0, Some 2); (2, 1, -1, Some 3)].
Proof. vm_compute. reflexivity. Qed.

End Standings.

(** ** The derived winner of a global match *)

Section Winner.
Import Matches.

Lemma winner_not_finished (m : Match) :
  status m ≠ "finished" → winner m = None.
Proof. intros H. unfold winner. by rewrite bool_decide_eq_true_2. Qed.

(** C10: the winner of a global match is read off the deciding score
    pair (penalties if both set and unequal, else extra time if both set
    and unequal, else the normal score) as the side with the higher
    score, and it is null exactly when the match is not finished or the
    deciding scores are equal. *)
Theorem winner_precedence (m : Match) :
  winner m = winner_spec m ∧
  (winner m = None ↔
     status m ≠ "finished" ∨ (deciding_scores m).1 = (deciding_scores m).2).
Proof.
  assert (Hw : winner m = winner_spec m).
  { unfold winner, winner_spec, deciding_scores.
    destruct (decide (status m = "finished")) as [Hs|Hs].
    - rewrite (bool_decide_eq_false_2 (status m ≠ "finished")) by tauto.
      rewrite (bool_decide_eq_true_2 _ Hs).
      destruct (home_score_penalties m) as [hp|], (away_score_penalties m) as [ap|],
               (home_score_extra_time m) as [he|], (away_score_extra_time m) as [ae|];
        repeat case_bool_decide; try reflexivity; try lia.
    - rewrite (bool_decide_eq_true_2 _ Hs).
      by rewrite (bool_decide_eq_false_2 _ Hs). }
  split; [exact Hw|].
  rewrite Hw. unfold winner_spec.
  destruct (deciding_scores m) as [h a]; simpl.
  repeat case_bool_decide; split; intros Hyp; try done; try tauto; try lia.
  all: destruct Hyp as [Hyp|Hyp]; [done | lia].
Qed.

End Winner.

(** ** The tournament/global match synchronizer *)

Section Synchronizer.
Import TournamentSignals.

Lemma set_defaults_idemp (d : MatchData) (obj : Matches.Match) :
  set_defaults d (set_defaults d obj) = set_defaults d obj.
Proof. reflexivity. Qed.

Lemma status_mapping_choice (s : string) :
  s ∈ STATUS_CHOICES → dict_get status_mapping s "scheduled" = s.
Proof.
  unfold STATUS_CHOICES. rewrite !elem_of_cons, elem_of_nil.
  intros [->|[->|[->|[->|[->|[]]]]]]; reflexivity.
Qed.

Lemma set_defaults_mirrors (instance : Tournaments.Match) (obj : Matches.Match) :
  Tournaments.status instance ∈ STATUS_CHOICES →
  mirrors (set_defaults (match_data instance) obj) instance.
Proof.
  intros Hs. unfold mirrors, match_data; simpl.
  rewrite (status_mapping_choice _ Hs).
  destruct (Tournaments.phase instance) as [ph|]; repeat split; try done.
  - intros Ht. simplify_eq. by rewrite Ht.
  - simplify_eq. rewrite !elem_of_cons, elem_of_nil.
    intros [Ht|[Ht|[Ht|[Ht|[]]]]]; rewrite Ht; reflexivity.
  - intros Ht. simplify_eq. by rewrite Ht.
Qed.

(** C3: saving a tournament match upserts the global match with the same
    identifier: afterwards there is a global match under that identifier
    whose mirrored fields equal the tournament match's, no other global
    match is added, removed or changed, a second application of the same
    save changes nothing, and the fields the synchronizer does not own
    keep the values they had before an update. *)
Theorem sync_match_to_global_upsert (instance : Tournaments.Match) (created created' : bool)
    (table : gmap Z Matches.Match) :
  Tournaments.status instance ∈ STATUS_CHOICES →
  let table' := sync_match_to_global instance created table in
  (∃ g, table' !! Tournaments.id instance = Some g ∧ mirrors g instance ∧
        (∀ g0, table !! Tournaments.id instance = Some g0 → same_unmirrored g g0)) ∧
  (∀ pk, pk ≠ Tournaments.id instance → table' !! pk = table !! pk) ∧
  dom table' = {[Tournaments.id instance]} ∪ dom table ∧
  sync_match_to_global instance created' table' = table'.
Proof.
  intros Hs table'. subst table'. unfold sync_match_to_global, update_or_create.
  set (pk := Tournaments.id instance).
  destruct (table !! pk) as [obj|] eqn:Hobj; rewrite lookup_insert_eq.
  - repeat split.
    + eexists. split; [done|]. split.
      * by apply set_defaults_mirrors.
      * intros g0 [= <-]. by repeat split.
    + intros k Hk. by rewrite lookup_insert_ne.
    + by rewrite dom_insert_L.
    + by rewrite insert_insert_eq.
  - repeat split.
    + eexists. split; [done|]. split.
      * by apply set_defaults_mirrors.
      * by intros g0 [=].
    + intros k Hk. by rewrite lookup_insert_ne.
    + by rewrite dom_insert_L.
    + by rewrite insert_insert_eq.
Qed.

Lemma sync_match_to_global_upsert_witness :
  Tournaments.status (Examples.tournament_match "live") ∈ STATUS_CHOICES ∧
  sync_match_to_global (Examples.tournament_match "live") false
    (sync_match_to_global (Examples.tournament_match "live") true (matches Examples.db))
  = sync_match_to_global (Examples.tournament_match "live") true (matches Examples.db).
Proof.
  assert (Tournaments.status (Examples.tournament_match "live") ∈ STATUS_CHOICES) as Hs.
  { apply list_elem_of_further, list_elem_of_here. }
  split; [exact Hs|].
  exact (proj2 (proj2 (proj2 (sync_match_to_global_upsert
           (Examples.tournament_match "live") true false (matches Examples.db) Hs)))).
Defined.

Lemma delete_global_match_absent (instance : Tournaments.Match)
    (table : gmap Z Matches.Match) :
  delete_global_match instance table !! Tournaments.id instance = None ∧
  delete_global_match instance (delete_global_match instance table)
  = delete_global_match instance table.
Proof.
  unfold delete_global_match.
  destruct (table !! Tournaments.id instance) eqn:Hg.
  - rewrite !lookup_delete_eq. done.
  - rewrite Hg. done.
Qed.

End Synchronizer.

(** ** The roster cap *)

Section RosterCap.
Import Teams.

Lemma resolve_ValidationError :
  resolve_name module_globals "ValidationError" = Raise (NameError "ValidationError").
Proof. reflexivity. Qed.

Lemma clean_never_ValidationError (pk : option Z) (self : Player) (players : gmap Z Player)
    (detail : string) :
  clean pk self players ≠ Raise (ValidationError detail).
Proof.
  unfold clean. rewrite resolve_ValidationError.
  destruct (is_main_player self); [|done]. by case_bool_decide.
Qed.

(** C5: when the team already holds 11 or more other active main
    players, saving a player flagged as main player is rejected and
    nothing is written, but the exception that comes out of [Player.save]
    is the [NameError] for the unbound name [ValidationError], not a
    [ValidationError]. *)
Theorem save_main_player_over_cap (pk : option Z) (self : Player) (players : gmap Z Player) :
  is_main_player self = true →
  11 ≤ count (other_main_players pk self players) →
  save pk self players = Raise (NameError "ValidationError").
Proof.
  intros Hmain Hcount. unfold save, full_clean, clean.
  rewrite Hmain, bool_decide_eq_true_2 by lia.
  by rewrite resolve_ValidationError.
Qed.

Lemma save_main_player_over_cap_witness :
  active_main_players 1 Examples.roster = 11 ∧
  is_main_player Examples.twelfth = true ∧
  11 ≤ count (other_main_players None Examples.twelfth Examples.roster) ∧
  save None Examples.twelfth Examples.roster = Raise (NameError "ValidationError").
Proof.
  assert (is_main_player Examples.twelfth = true) as Hmain by reflexivity.
  assert (11 ≤ count (other_main_players None Examples.twelfth Examples.roster)) as Hcap.
  { vm_compute. discriminate. }
  split; [vm_compute; reflexivity|]. split; [exact Hmain|]. split; [exact Hcap|].
  exact (save_main_player_over_cap None Examples.twelfth Examples.roster Hmain Hcap).
Defined.

End RosterCap.

(** ** The match lifecycle *)

Section Lifecycle.
Import Users.



End Lifecycle.

(** ** The stat propagation from lineups to players *)

Section StatPropagationFacts.
Import StatPropagation.

Lemma apply_edit_Raise (e : Edit) (db : DB) (err : exn) :
  (apply_edit e db).1 = Raise err → (apply_edit e db).2 = db.
Proof.
  unfold apply_edit, MatchViews.MatchLineupDetailView_patch.
  repeat (case_match; simpl; try done).
Qed.

(** What a successful edit writes. *)
Lemma apply_edit_Ok (e : Edit) (db : DB) :
  (apply_edit e db).1 = Ok tt →
  ∃ old, lineups db !! e_lineup e = Some old ∧
    lineups (apply_edit e db).2
    = <[e_lineup e := MatchViews.patched old (e_data e)]> (lineups db) ∧
    ((e_lineup e = 0 ∧ players (apply_edit e db).2 = players db) ∨
     (e_lineup e ≠ 0 ∧ ∃ pr pr', players db !! Matches.lu_player old = Some pr ∧
        players (apply_edit e db).2 = <[Matches.lu_player old := pr']> (players db) ∧
        ∀ f, player_stat f pr'
             = py_max0 (player_stat f pr
                        + (lineup_stat f (MatchViews.patched old (e_data e))
                           - lineup_stat f old)))).
Proof.
  unfold apply_edit, MatchViews.MatchLineupDetailView_patch.
  destruct (negb (Users.is_authenticated (e_user e))); [done|].
  destruct (lineups db !! e_lineup e) as [old|] eqn:Hold; [|done].
  case_bool_decide; [done|].
  match goal with |- context [match ?p with Ok _ => _ | Raise _ => _ end] =>
    destruct p as [[]|]; [|done] end.
  destruct (negb (MatchViews.stats_valid _)); [done|].
  unfold MatchSignals.save, MatchSignals.update_player_stats_on_lineup_change.
  case_bool_decide as Hk.
  - simpl. intros _. exists old. split; [done|]. split; [done|]. left. done.
  - rewrite Hold. simpl.
    destruct (players db !! Matches.lu_player old) as [pr|] eqn:Hpr; [|done].
    unfold Teams.save.
    destruct (Teams.full_clean _ _ _) as [[]|]; [|done]. simpl. intros _.
    exists old. split; [done|]. split; [done|]. right. split; [done|].
    eexists pr, _. split; [done|]. split; [done|].
    intros []; simpl; by rewrite py_or_0.
Qed.

Lemma career_step (f : Stat) (player : Z) (e : Edit) (db : DB) :
  career f player (apply_edit e db).2
  = match delta_of f player e db with
    | Some d => py_max0 (career f player db + d)
    | None => career f player db
    end.
Proof.
  unfold delta_of.
  destruct (apply_edit e db).1 as [[]|err] eqn:Hres.
  - destruct (apply_edit_Ok e db Hres) as (old & Hold & _ & [[Hk Hp]|(Hk & pr & pr' & Hpr & Hp & Hst)]).
    + rewrite Hold. rewrite bool_decide_eq_false_2 by tauto.
      unfold career. by rewrite Hp.
    + rewrite Hold. unfold career. rewrite Hp.
      case_bool_decide as Hpl.
      * destruct Hpl as [<- _]. rewrite lookup_insert_eq, Hpr. simpl. apply Hst.
      * rewrite lookup_insert_ne by tauto. done.
  - rewrite (apply_edit_Raise e db err Hres). done.
Qed.

Lemma run_career (f : Stat) (player : Z) (edits : list Edit) (db : DB) :
  career f player (run edits db)
  = apply_deltas (career f player db) (applied_deltas f player edits db).
Proof.
  revert db. induction edits as [|e edits IH]; intros db; [done|].
  unfold run in *. simpl. rewrite IH, career_step.
  destruct (delta_of f player e db); done.
Qed.

Lemma apply_deltas_lower (init : Z) (ds : list Z) :
  0 ≤ init → py_max0 (init + sumZ ds) ≤ apply_deltas init ds.
Proof.
  revert init. induction ds as [|d ds IH]; intros init Hinit; simpl.
  - unfold py_max0. lia.
  - etransitivity; [|apply IH; unfold py_max0; lia].
    unfold py_max0. lia.
Qed.

Lemma apply_deltas_no_underflow (init : Z) (ds : list Z) :
  no_underflow init ds → apply_deltas init ds = init + sumZ ds.
Proof.
  revert init. induction ds as [|d ds IH]; intros init; simpl.
  - intros _. lia.
  - intros [Hd Hds].
    replace (py_max0 (init + d)) with (init + d) by (unfold py_max0; lia).
    rewrite (IH _ Hds). lia.
Qed.

Lemma sumZ_Permutation (ds ds' : list Z) : ds ≡ₚ ds' → sumZ ds = sumZ ds'.
Proof. induction 1; simpl in *; lia. Qed.

(** C2, as the specification states it, fails: player 20 starts with 0
    career goals; setting the goals of one of his lineup rows from 2 to 0
    and then those of another from 0 to 2 leaves him with 2 goals, not
    with max(0, 0 + (-2) + 2) = 0, and the two edits in the other order
    leave him with 0. *)
Lemma stat_propagation_counterexample :
  let a := Examples.edit_a in
  let b := Examples.edit_b in
  applied_deltas Goals 20 [a; b] Examples.db = [-2; 2] ∧
  applied_deltas Goals 20 [b; a] Examples.db = [2; -2] ∧
  career Goals 20 Examples.db = 0 ∧
  career Goals 20 (run [a; b] Examples.db) = 2 ∧
  career Goals 20 (run [b; a] Examples.db) = 0 ∧
  career Goals 20 (run [a; b] Examples.db)
  ≠ py_max0 (career Goals 20 Examples.db
             + sumZ (applied_deltas Goals 20 [a; b] Examples.db)).
Proof. repeat split; vm_compute; congruence. Qed.

(** C2, amended: the career total of a player after a sequence of edits
    is the initial total to which the applied deltas (new minus old) were
    added one by one with a floor at zero after each; it is never below
    max(0, initial + sum of the deltas); when the running total never
    drops below zero it equals initial + sum of the deltas, and then it
    is the same for every order of the deltas that does not drop below
    zero either. *)
Theorem stat_propagation (f : Stat) (player : Z) (edits : list Edit) (db : DB) :
  let init := career f player db in
  let ds := applied_deltas f player edits db in
  let final := career f player (run edits db) in
  final = apply_deltas init ds ∧
  (0 ≤ init → py_max0 (init + sumZ ds) ≤ final) ∧
  (no_underflow init ds →
     final = init + sumZ ds ∧
     ∀ ds', ds' ≡ₚ ds → no_underflow init ds' → apply_deltas init ds' = final).
Proof.
  intros init ds final. subst init ds final. rewrite run_career.
  split; [done|]. split; [apply apply_deltas_lower|].
  intros Hds. split; [by apply apply_deltas_no_underflow|].
  intros ds' Hperm Hds'.
  rewrite !apply_deltas_no_underflow by done.
  by rewrite (sumZ_Permutation _ _ Hperm).
Qed.

Lemma stat_propagation_witness :
  let edits := [Examples.edit_b; Examples.edit_a] in
  0 ≤ career Goals 20 Examples.db ∧
  no_underflow (career Goals 20 Examples.db) (applied_deltas Goals 20 edits Examples.db) ∧
  career Goals 20 (run edits Examples.db)
  = career Goals 20 Examples.db + sumZ (applied_deltas Goals 20 edits Examples.db) ∧
  py_max0 (career Goals 20 Examples.db + sumZ (applied_deltas Goals 20 edits Examples.db))
  ≤ career Goals 20 (run edits Examples.db).
Proof.
  intros edits.
  assert (0 ≤ career Goals 20 Examples.db) as Hinit by (vm_compute; discriminate).
  assert (no_underflow (career Goals 20 Examples.db)
            (applied_deltas Goals 20 edits Examples.db)) as Hds.
  { vm_compute. repeat split; discriminate. }
  destruct (stat_propagation Goals 20 edits Examples.db) as (_ & Hlow & Hsum).
  split; [exact Hinit|]. split; [exact Hds|].
  split; [exact (proj1 (Hsum Hds)) | exact (Hlow Hinit)].
Defined.

End StatPropagationFacts.

(** ** The propagation from events to lineups *)

Section EventPropagation.
Import Matches MatchViews.

Lemma count_event_increment (event : MatchEvent) (lineup : MatchLineup) :
  let lineup' := count_event event lineup in
  (event_type event ∈ ["goal"; "penalty_goal"] →
     goals_scored lineup' = goals_scored lineup + 1 ∧
     yellow_cards lineup' = yellow_cards lineup ∧ red_cards lineup' = red_cards lineup) ∧
  (event_type event = "yellow_card" →
     yellow_cards lineup' = yellow_cards lineup + 1 ∧
     goals_scored lineup' = goals_scored lineup ∧ red_cards lineup' = red_cards lineup) ∧
  (event_type event = "red_card" →
     red_cards lineup' = red_cards lineup + 1 ∧
     goals_scored lineup' = goals_scored lineup ∧ yellow_cards lineup' = yellow_cards lineup).
Proof.
  cbv zeta. unfold count_event. split; [|split]; intros Ht.
  - by rewrite (bool_decide_eq_true_2 _ Ht).
  - rewrite Ht. repeat split; reflexivity.
  - rewrite Ht. repeat split; reflexivity.
Qed.

(** What [MatchEventViewSet.perform_create] does when it returns: the
    event is recorded; with no lineup row for (match, player, team) the
    lineups are as before; with one row, that row is the stored one with
    the counter of the event type incremented. *)
Lemma perform_create_counts (user : Users.User) (event : MatchEvent) (db db' : DB) (k : Z) :
  perform_create user event db = (Ok k, db') →
  (∃ event', events db' !! k = Some event' ∧ ev_match event' = ev_match event ∧
     ev_team event' = ev_team event ∧ ev_player event' = ev_player event ∧
     event_type event' = event_type event) ∧
  (lineups_of (ev_match event) (ev_player event) (ev_team event) db = [] →
     lineups db' = lineups db) ∧
  (∀ lk lineup,
     lineups_of (ev_match event) (ev_player event) (ev_team event) db = [(lk, lineup)] →
     lineups db' = <[lk := count_event event lineup]> (lineups db)).
Proof.
  unfold perform_create.
  destruct (teams db !! ev_team event) as [team|]; [|done].
  destruct (check_team_permission _ _ _ _) as [[]|]; [|done].
  unfold save_event. cbn beta iota zeta. cbn [ev_match ev_player ev_team event_type].
  set (k0 := next_pk (events db)).
  set (ev := {| ev_match := ev_match event; ev_team := _ |}).
  set (db1 := set_events db _).
  change (lineups_of (ev_match event) (ev_player event) (ev_team event) db1)
    with (lineups_of (ev_match event) (ev_player event) (ev_team event) db).
  destruct (lineups_of _ _ _ db) as [|[lk lineup] [|? ?]] eqn:Hl.
  - intros [= <- <-]. split; [|split]; [| done | done].
    exists ev. subst db1. simpl. by rewrite lookup_insert_eq.
  - unfold MatchSignals.save.
    destruct (MatchSignals.update_player_stats_on_lineup_change _ _ _) as [db2|] eqn:Hsig;
      [|done].
    intros [= <- <-]. 
    assert (events db2 = events db1 ∧ lineups db2 = lineups db1) as [He Hlu].
    { revert Hsig. unfold MatchSignals.update_player_stats_on_lineup_change.
      repeat (case_match; try done); intros [= <-]; done. }
    split; [|split]; [| done |].
    + exists ev. simpl. rewrite He. subst db1. simpl. by rewrite lookup_insert_eq.
    + intros lk' lineup' [= <- <-]. simpl. by rewrite Hlu.
  - done.
Qed.

(** C8: the event created through the nested view of a match leaves the
    lineup row of its (match, player, team) as it was, where the viewset
    increments it: a goal for player 20 of team 2 in match 1, whose
    lineup row 10 holds 2 goals, is recorded by both; the row still holds
    2 goals after the nested view and 3 after the viewset. *)
Theorem nested_event_skips_lineup :
  let data := {| d_match := 1; d_team := Some 2; d_player := 20; d_event_type := "goal";
                 d_minute := 10; d_additional_time := 0;
                 d_substituted_player := None; d_assist_player := None |} in
  let nested := MatchEventsView_post Examples.staff 1 data Examples.db in
  let viewset := MatchEventViewSet_create Examples.staff data Examples.db in
  goals_scored <$> lineups Examples.db !! 10 = Some 2 ∧
  nested.1 = Ok 1 ∧ event_type <$> events nested.2 !! 1 = Some "goal" ∧
  goals_scored <$> lineups nested.2 !! 10 = Some 2 ∧
  viewset.1 = Ok 1 ∧ event_type <$> events viewset.2 !! 1 = Some "goal" ∧
  goals_scored <$> lineups viewset.2 !! 10 = Some 3.
Proof. repeat split; vm_compute; reflexivity. Qed.

End EventPropagation.

(** ** The visibility of matches for a parent *)

Section Visibility.
Import Users VisibilitySpec.

Lemma followed_teams_ids_spec (user : User) (db : DB) (t : Z) :
  t ∈ MatchViews.followed_teams_ids user db ↔
  ∃ team, teams db !! t = Some team ∧ id user ∈ Teams.followers team.
Proof.
  unfold MatchViews.followed_teams_ids, objects_all. rewrite list_elem_of_fmap. split.
  - intros ([k team] & -> & Hin). apply list_elem_of_filter in Hin as [Hf Hin].
    apply elem_of_map_to_list in Hin. eauto.
  - intros (team & Ht & Hf). exists (t, team). split; [done|].
    apply list_elem_of_filter. split; [done|]. by apply elem_of_map_to_list.
Qed.

(** The role filter of the tournament-scoped resolver returns to a
    parent with an e-mail address exactly the matches in which a side is
    one of the parent's teams. *)
Lemma role_filter_parent (user : User) (db : DB) (queryset : list Tournaments.Match)
    (m : Tournaments.Match) :
  user_type user = "parent" → email user ≠ "" →
  m ∈ TournamentViews.role_filter user db queryset ↔
  m ∈ queryset ∧ (parent_team user db (Tournaments.home_team m)
                  ∨ parent_team user db (Tournaments.away_team m)).
Proof.
  intros Hty Hemail. unfold TournamentViews.role_filter. rewrite Hty. simpl.
  rewrite bool_decide_eq_true_2 by done.
  rewrite list_elem_of_filter.
  assert (∀ t, t ∈ remove_dups (MatchViews.followed_teams_ids user db ++
              ((λ kv : Z * Teams.Player, Teams.team kv.2) <$>
                filter (λ kv : Z * Teams.Player, Teams.parent_email kv.2 = email user
                              ∨ Teams.parent2_email kv.2 = email user)
                  (objects_all (players db))))
            ↔ parent_team user db t) as Hteam.
  { intros t. rewrite elem_of_remove_dups, elem_of_app, followed_teams_ids_spec.
    unfold parent_team. apply or_iff_compat_l.
    rewrite list_elem_of_fmap. unfold objects_all. split.
    - intros ([k player] & -> & Hin). apply list_elem_of_filter in Hin as [Hf Hin].
      apply elem_of_map_to_list in Hin. eauto.
    - intros (k & player & Hp & <- & Hf). exists (k, player). split; [done|].
      apply list_elem_of_filter. split; [done|]. by apply elem_of_map_to_list. }
  rewrite !Hteam. tauto.
Qed.

(** The resolver of the tournament-scoped matches, called without query
    parameters by a parent with an e-mail address, returns exactly the
    stored matches in which a side is one of the parent's teams. *)
Lemma get_queryset_parent (user : User) (db : DB) (m : Tournaments.Match) :
  is_authenticated user = true → user_type user = "parent" → email user ≠ "" →
  m ∈ TournamentViews.get_queryset user TournamentViews.no_params db ↔
  (∃ k, tournament_matches db !! k = Some m) ∧
  (parent_team user db (Tournaments.home_team m)
   ∨ parent_team user db (Tournaments.away_team m)).
Proof.
  intros Hauth Hty Hemail. unfold TournamentViews.get_queryset.
  rewrite Hauth. simpl. rewrite role_filter_parent by done.
  apply and_iff_compat_r. unfold objects_all. rewrite list_elem_of_fmap. split.
  - intros ([k m'] & -> & Hin). apply elem_of_map_to_list in Hin. eauto.
  - intros (k & Hk). exists (k, m). split; [done|]. by apply elem_of_map_to_list.
Qed.

(** The resolver of the global matches returns to a parent who coaches no
    team and has an e-mail address exactly the matches in which a side is
    a team the parent follows or the team of a player whose first parent
    e-mail is the parent's. *)
Lemma get_user_allowed_matches_parent (user : User) (db : DB) (k : Z) (m : Matches.Match) :
  is_authenticated user = true → user_type user = "parent" → email user ≠ "" →
  Permissions.coached_teams user db = [] →
  (k, m) ∈ MatchViews.get_user_allowed_matches (Some user) db ↔
  matches db !! k = Some m ∧ (first_parent_team user db (Matches.home_team m)
                              ∨ first_parent_team user db (Matches.away_team m)).
Proof.
  intros Hauth Hty Hemail Hcoach. unfold MatchViews.get_user_allowed_matches.
  rewrite Hauth, Hty, Hcoach. simpl.
  rewrite bool_decide_eq_true_2 by done.
  rewrite list_elem_of_filter. unfold objects_all at 3. rewrite elem_of_map_to_list.
  assert (∀ t, t ∈ remove_dups (MatchViews.followed_teams_ids user db ++
              ((λ kv : Z * Teams.Player, Teams.team kv.2) <$>
                filter (λ kv : Z * Teams.Player, Teams.parent_email kv.2 = email user)
                  (objects_all (players db))))
            ↔ first_parent_team user db t) as Hteam.
  { intros t. rewrite elem_of_remove_dups, elem_of_app, followed_teams_ids_spec.
    unfold first_parent_team. apply or_iff_compat_l.
    rewrite list_elem_of_fmap. unfold objects_all. split.
    - intros ([k' player] & -> & Hin). apply list_elem_of_filter in Hin as [Hf Hin].
      apply elem_of_map_to_list in Hin. eauto.
    - intros (k' & player & Hp & <- & Hf). exists (k', player). split; [done|].
      apply list_elem_of_filter. split; [done|]. by apply elem_of_map_to_list. }
  simpl. rewrite !Hteam. tauto.
Qed.

(** C4: the resolver of the global matches leaves out the teams reached
    through [parent2_email], which the resolver of the tournament-scoped
    matches includes: the parent whose address is the second parent
    e-mail of player 20 of team 2 sees none of the two global matches of
    team 2, and sees the tournament match of team 2. *)
Theorem get_user_allowed_matches_misses_parent2_email :
  parent_team Examples.parent Examples.db 2 ∧
  Matches.away_team <$> matches Examples.db !! 1 = Some 2 ∧
  Matches.home_team <$> matches Examples.db !! 2 = Some 2 ∧
  MatchViews.get_user_allowed_matches (Some Examples.parent) Examples.db = [] ∧
  TournamentViews.get_queryset Examples.parent TournamentViews.no_params Examples.db
  = [Examples.tournament_match "finished"].
Proof.
  split.
  - right. exists 20, (Examples.player 2 9 false 0 "mum@example.com" "dad@example.com").
    split; [vm_compute; reflexivity|]. split; [reflexivity|]. by right.
  - repeat split; vm_compute; reflexivity.
Qed.

End Visibility.

(** ** The group membership of tournament matches *)

Section GroupMembership.
Import Tournaments TournamentViews.

Lemma create_and_populate_match (match_ : Match) (db db' : DB) (m : Match) :
  create_and_populate match_ db = (Ok m, db') → m = match_.
Proof.
  unfold create_and_populate.
  destruct (populate _ _ _ _) as [[[]|] db1]; [|done].
  destruct (populate _ _ _ _) as [[[]|] db2]; [|done].
  by intros [= <- _].
Qed.

(** The creation of a match from the view of a group verifies the
    membership: a match is created only if both teams are members of the
    group, and it is a match between two different teams of that
    group. *)
Lemma group_create_match_checks_membership (user : Users.User) (group_ : TournamentGroup)
    (data : CreateMatchData) (new_id : Z) (db db' : DB) (m : Match) :
  TournamentGroupViewSet_create_match user group_ data new_id db = (Ok m, db') →
  group m = Some (g_id group_) ∧ home_team m ≠ away_team m ∧
  in_group (home_team m) (g_id group_) db = true ∧
  in_group (away_team m) (g_id group_) db = true.
Proof.
  unfold TournamentGroupViewSet_create_match.
  destruct (negb (Permissions.has_permission _ _)); [done|].
  destruct (_ && _); [done|].
  destruct (is_valid data (Some (g_id group_)) db) as [[]|] eqn:Hv; [|done].
  destruct (get_phase _ _ _) as [phase_|]; [|done].
  intros Hc. apply create_and_populate_match in Hc as ->. simpl.
  revert Hv. unfold is_valid, validate.
  repeat (case_match; try done); intros _.
  repeat match goal with H : negb _ = false |- _ => apply negb_false_iff in H end.
  repeat match goal with H : bool_decide _ = false |- _ => apply bool_decide_eq_false in H end.
  done.
Qed.

(** C9: the creation of a match from the view of the tournament takes
    the group of the request without checking the membership of the
    teams: for group 5 of the tournament, which has no member, the match
    between teams 1 and 2 is created in that group, where the view of
    the group rejects the same request with a validation error and
    [Match.clean] would reject the stored match. *)
Theorem tournament_create_match_skips_membership :
  let data := {| c_home_team_id := 1; c_away_team_id := 2; c_match_date := 0;
                 c_venue := None; c_round_number := None; c_match_number := None;
                 c_group_id := Some 5; c_phase_id := None |} in
  let created := TournamentViewSet_create_match Examples.admin Examples.tournament
                   data 200 Examples.db in
  in_group 1 5 Examples.db = false ∧ in_group 2 5 Examples.db = false ∧
  is_Ok created.1 = true ∧
  group <$> tournament_matches created.2 !! 200 = Some (Some 5) ∧
  home_team <$> tournament_matches created.2 !! 200 = Some 1 ∧
  away_team <$> tournament_matches created.2 !! 200 = Some 2 ∧
  (∃ detail m, tournament_matches created.2 !! 200 = Some m ∧
               clean m created.2 = Raise (ValidationError detail)) ∧
  (∃ detail, (TournamentGroupViewSet_create_match Examples.admin Examples.group_A
                data 200 Examples.db).1 = Raise (ValidationError detail)).
Proof.
  repeat split; try (vm_compute; reflexivity).
  - eexists _, _. split; vm_compute; reflexivity.
  - eexists. vm_compute. reflexivity.
Qed.

End GroupMembership.

(** ** The bulk replacement of a lineup *)

Section SetLineup.
Import Matches MatchViews.

Lemma foldr_max_ge (l : list Z) (k : Z) : k ∈ l → k ≤ foldr Z.max 0 l.
Proof.
  induction l as [|x l IH]; [by rewrite elem_of_nil|].
  rewrite elem_of_cons. simpl. intros [->|Hk]; [lia|]. specialize (IH Hk). lia.
Qed.

Lemma next_pk_fresh {A} (table : gmap Z A) : table !! next_pk table = None.
Proof.
  destruct (table !! next_pk table) as [x|] eqn:Hx; [|done].
  assert (next_pk table ∈ (objects_all table).*1) as Hin.
  { apply list_elem_of_fmap. exists (next_pk table, x). split; [done|].
    by apply elem_of_map_to_list. }
  apply foldr_max_ge in Hin. unfold next_pk in Hin at 1. lia.
Qed.

Lemma append_rows_lookup_old (table : gmap Z MatchLineup) (rows : list MatchLineup)
    (k : Z) (row : MatchLineup) :
  table !! k = Some row → append_rows table rows !! k = Some row.
Proof.
  revert table. induction rows as [|r rows IH]; intros table Hk; [done|].
  simpl. apply IH. rewrite lookup_insert_ne; [done|].
  intros Heq. rewrite <- Heq, next_pk_fresh in Hk. done.
Qed.

Lemma append_rows_lookup_inv (table : gmap Z MatchLineup) (rows : list MatchLineup)
    (k : Z) (row : MatchLineup) :
  append_rows table rows !! k = Some row → table !! k = Some row ∨ row ∈ rows.
Proof.
  revert table. induction rows as [|r rows IH]; intros table Hk; [by left|].
  simpl in Hk. apply IH in Hk as [Hk|Hk].
  - destruct (decide (next_pk table = k)) as [<-|Hne].
    + rewrite lookup_insert_eq in Hk. simplify_eq. right. by left.
    + rewrite lookup_insert_ne in Hk by done. by left.
  - right. by right.
Qed.

Lemma append_rows_to_list (table : gmap Z MatchLineup) (rows : list MatchLineup) :
  (objects_all (append_rows table rows)).*2 ≡ₚ (objects_all table).*2 ++ rows.
Proof.
  revert table. induction rows as [|r rows IH]; intros table.
  - by rewrite app_nil_r.
  - simpl. rewrite IH. unfold objects_all.
    rewrite (map_to_list_insert table) by apply next_pk_fresh.
    simpl. by rewrite Permutation_middle.
Qed.

Lemma save_new (row : MatchLineup) (db : DB) :
  MatchSignals.save None row db
  = Ok (next_pk (lineups db), set_lineups db (<[next_pk (lineups db) := row]> (lineups db))).
Proof. reflexivity. Qed.

Lemma filter_none {A} (P : A → Prop) `{!∀ x, Decision (P x)} (l : list A) :
  Forall (λ x, ¬ P x) l → filter P l = [].
Proof. induction 1 as [|x l Hx _ IH]; [done|]. by rewrite filter_cons_False. Qed.

Lemma filter_all {A} (P : A → Prop) `{!∀ x, Decision (P x)} (l : list A) :
  Forall P l → filter P l = l.
Proof. induction 1 as [|x l Hx _ IH]; [done|]. rewrite filter_cons_True by done. by f_equal. Qed.

Lemma pair_rows_deleted (match_id team_id : Z) (db : DB) :
  pair_rows match_id team_id (delete_lineups match_id team_id db) = [].
Proof.
  unfold pair_rows, delete_lineups, objects_all. simpl.
  apply filter_none, Forall_forall. intros row Hrow.
  apply list_elem_of_fmap in Hrow as ([k row'] & -> & Hin).
  apply elem_of_map_to_list, map_lookup_filter_Some in Hin as [_ Hn]. exact Hn.
Qed.

(** The loop header of the bulk replacement raises for every request:
    no call of the view returns normally. *)
Lemma set_lineup_never_Ok (user : Users.User) (match_id : Z) (team : option Z) (db : DB) :
  is_Ok (SetMatchLineupView_post user match_id team db).1 = false.
Proof.
  unfold SetMatchLineupView_post.
  destruct (Users.is_authenticated user); [|done]. simpl.
  destruct (matches db !! match_id); [|done].
  destruct team as [team_id|]; [|done].
  destruct (set_lineup_permission user team_id db); done.
Qed.

(** C6: the bulk replacement of a lineup never replaces anything. For a
    caller who has passed the checks, the lineup rows of the (match,
    team) pair are deleted, the rows of the other pairs are kept, and
    then the loop header reads [starters], a name the method never
    binds: the call fails with NameError, nothing is inserted, and the
    rows the pair had are lost, whatever lists the request carried. *)
Theorem set_lineup_deletes_then_raises (user : Users.User) (match_id team_id : Z) (db : DB) :
  Users.is_authenticated user = true →
  is_Some (matches db !! match_id) →
  set_lineup_permission user team_id db = Ok tt →
  let call := SetMatchLineupView_post user match_id (Some team_id) db in
  call.1 = Raise (NameError "starters") ∧
  call.2 = delete_lineups match_id team_id db ∧
  pair_rows match_id team_id call.2 = [] ∧
  (∀ k r, lineups call.2 !! k = Some r
          ↔ lineups db !! k = Some r ∧ ¬ (lu_match r = match_id ∧ lu_team r = team_id)) ∧
  matches call.2 = matches db ∧ players call.2 = players db.
Proof.
  intros Hauth [m Hm] Hperm call. subst call.
  unfold SetMatchLineupView_post, post_scope.
  rewrite Hauth, Hm, Hperm, lookup_empty. cbn [negb fst snd].
  split_and!; try done.
  - apply pair_rows_deleted.
  - intros k r. unfold delete_lineups. cbn [lineups set_lineups].
    rewrite map_lookup_filter_Some. cbn [fst snd]. tauto.
Qed.

(** The call of an admin for team 2 in match 1: the lineup row 10 of
    that pair, stored before the call, is gone after it, and row 11 of
    another match is kept. *)
Lemma set_lineup_deletes_then_raises_witness :
  let call := SetMatchLineupView_post Examples.admin 1 (Some 2) Examples.db in
  Users.is_authenticated Examples.admin = true ∧
  is_Some (matches Examples.db !! 1) ∧
  set_lineup_permission Examples.admin 2 Examples.db = Ok tt ∧
  lineups Examples.db !! 10 = Some (Examples.lineup 1 2) ∧
  call.1 = Raise (NameError "starters") ∧
  pair_rows 1 2 call.2 = [] ∧
  lineups call.2 !! 10 = None ∧
  (lineups call.2 !! 11 = Some (Examples.lineup 2 0)
   ↔ lineups Examples.db !! 11 = Some (Examples.lineup 2 0)
     ∧ ¬ (lu_match (Examples.lineup 2 0) = 1 ∧ lu_team (Examples.lineup 2 0) = 2)).
Proof.
  intros call.
  assert (Users.is_authenticated Examples.admin = true) as Hauth by reflexivity.
  assert (is_Some (matches Examples.db !! 1)) as Hm by (vm_compute; eauto).
  assert (set_lineup_permission Examples.admin 2 Examples.db = Ok tt) as Hperm
    by reflexivity.
  assert (lineups Examples.db !! 10 = Some (Examples.lineup 1 2)) as Hold
    by (vm_compute; reflexivity).
  destruct (set_lineup_deletes_then_raises Examples.admin 1 2 Examples.db Hauth Hm Hperm)
    as (Hres & Hdb & Hrows & Hkeep & _).
  assert (lineups call.2 !! 10 = None) as Hgone by (vm_compute; reflexivity).
  exact (conj Hauth (conj Hm (conj Hperm (conj Hold (conj Hres (conj Hrows
           (conj Hgone (Hkeep 11 (Examples.lineup 2 0))))))))).
Defined.

End SetLineup.

(* ===================================================================== *)
(** * Further properties *)
(* ===================================================================== *)

(** ** Sums *)

Lemma total_app {A} (f : A → Z) (l1 l2 : list A) :
  total f (l1 ++ l2) = total f l1 + total f l2.
Proof. induction l1 as [|x l1 IH]; simpl; [done|]. unfold total in *. simpl. lia. Qed.

Lemma total_ext {A} (f g : A → Z) (l : list A) :
  (∀ x, x ∈ l → f x = g x) → total f l = total g l.
Proof.
  induction l as [|x l IH]; intros Hfg; [done|].
  unfold total in *. simpl. rewrite (Hfg x) by apply list_elem_of_here.
  rewrite IH; [done|]. intros y Hy. apply Hfg. by apply list_elem_of_further.
Qed.

Lemma total_add {A} (f g : A → Z) (l : list A) :
  total (λ x, f x + g x) l = total f l + total g l.
Proof. induction l as [|x l IH]; [done|]. unfold total in *. simpl. lia. Qed.

Lemma total_Permutation {A} (f : A → Z) (l1 l2 : list A) :
  l1 ≡ₚ l2 → total f l1 = total f l2.
Proof. unfold total. induction 1; simpl in *; lia. Qed.

Lemma total_fmap {A B} (h : A → B) (f : B → Z) (l : list A) :
  total f (h <$> l) = total (λ x, f (h x)) l.
Proof. induction l as [|x l IH]; [done|]. unfold total in *. simpl. by f_equal. Qed.

Lemma total_zero {A} (l : list A) : total (λ _, 0) l = 0.
Proof. induction l as [|x l IH]; [done|]. unfold total in *. simpl. lia. Qed.

Lemma count_filter_total {A} (P : A → Prop) `{!∀ x, Decision (P x)} (l : list A) :
  count (filter P l) = total (λ x, if decide (P x) then 1 else 0) l.
Proof.
  unfold count, total. induction l as [|x l IH]; [done|].
  rewrite filter_cons. simpl. destruct (decide (P x)); simpl; lia.
Qed.

Lemma total_filter {A} (P : A → Prop) `{!∀ x, Decision (P x)} (f : A → Z) (l : list A) :
  total f (filter P l) = total (λ x, if decide (P x) then f x else 0) l.
Proof.
  unfold total. induction l as [|x l IH]; [done|].
  rewrite filter_cons. simpl. destruct (decide (P x)); simpl; lia.
Qed.

(** ** The winner of a tournament match and of its mirror *)

Section WinnerMirror.
Import TournamentSignals.

Lemma dict_get_status_finished (s : string) :
  dict_get status_mapping s "scheduled" = "finished" ↔ s = "finished".
Proof.
  split; [|by intros ->].
  unfold dict_get. destruct (status_mapping !! s) as [v|] eqn:Hv; [|done].
  intros ->. apply elem_of_list_to_map_2 in Hv.
  repeat (apply elem_of_cons in Hv as [Heq|Hv]; [by simplify_eq|]).
  by apply elem_of_nil in Hv.
Qed.

(** X1: the global match a tournament match is synchronized into has the
    winner of the tournament match, whatever the status, provided the row
    it updates (if there is one) carries no extra-time and no penalty
    score. *)
Theorem winner_synced (instance : Tournaments.Match) (created : bool)
    (table : gmap Z Matches.Match) :
  (∀ g0, table !! Tournaments.id instance = Some g0 →
     Matches.home_score_extra_time g0 = None ∧ Matches.home_score_penalties g0 = None) →
  ∃ g, sync_match_to_global instance created table !! Tournaments.id instance = Some g ∧
       Matches.winner g = TournamentModels.winner instance.
Proof.
  intros Hold. unfold sync_match_to_global, update_or_create.
  assert (∀ obj, Matches.home_score_extra_time obj = None →
                 Matches.home_score_penalties obj = None →
                 Matches.winner (set_defaults (match_data instance) obj)
                 = TournamentModels.winner instance) as Hw.
  { intros obj Het Hpen. unfold Matches.winner, TournamentModels.winner. simpl.
    rewrite Het, Hpen.
    pose proof (dict_get_status_finished (Tournaments.status instance)) as Hfin.
    repeat case_bool_decide; try done; tauto. }
  destruct (table !! Tournaments.id instance) as [obj|] eqn:Hobj;
    rewrite lookup_insert_eq; eexists; (split; [done|]).
  - destruct (Hold obj eq_refl). by apply Hw.
  - by apply Hw.
Qed.

Lemma winner_synced_witness :
  ∃ g, sync_match_to_global (Examples.tournament_match "finished") false
         (<[100 := Examples.global_match 1 2 "live"]> (matches Examples.db)) !! 100 = Some g ∧
       Matches.winner g = Some 1.
Proof.
  refine (winner_synced (Examples.tournament_match "finished") false
            (<[100 := Examples.global_match 1 2 "live"]> (matches Examples.db)) _).
  intros g0 Hg0. rewrite lookup_insert_eq in Hg0. injection Hg0 as <-. by split.
Defined.

End WinnerMirror.

(** ** The standings: what they read, and what they conserve *)

Section StandingsFrame.
Import Tournaments.

Lemma filter_filter_impl {A} (P Q : A → Prop) `{!∀ x, Decision (P x)} `{!∀ x, Decision (Q x)}
    (l : list A) :
  (∀ x, P x → Q x) → filter P (filter Q l) = filter P l.
Proof.
  intros HPQ. induction l as [|x l IH]; [done|].
  rewrite (filter_cons Q). destruct (decide (Q x)) as [HQ|HQ].
  - rewrite !filter_cons, IH. done.
  - rewrite IH, filter_cons. destruct (decide (P x)) as [HP|HP]; [|done].
    destruct HQ. by apply HPQ.
Qed.

Lemma filter_filter_and {A} (P Q : A → Prop) `{!∀ x, Decision (P x)} `{!∀ x, Decision (Q x)}
    (l : list A) :
  filter P (filter Q l) = filter (λ x, P x ∧ Q x) l.
Proof.
  induction l as [|x l IH]; [done|].
  rewrite (filter_cons Q), (filter_cons (λ x, P x ∧ Q x)).
  destruct (decide (Q x)) as [HQ|HQ].
  - rewrite filter_cons, IH. destruct (decide (P x)), (decide (P x ∧ Q x)); tauto.
  - rewrite IH. destruct (decide (P x ∧ Q x)); tauto.
Qed.

Lemma filter_ext_in {A} (P Q : A → Prop) `{!∀ x, Decision (P x)} `{!∀ x, Decision (Q x)}
    (l : list A) :
  (∀ x, x ∈ l → P x ↔ Q x) → filter P l = filter Q l.
Proof.
  induction l as [|x l IH]; intros HPQ; [done|].
  rewrite !filter_cons, IH by (intros y Hy; apply HPQ; by apply list_elem_of_further).
  pose proof (HPQ x (list_elem_of_here _ _)).
  destruct (decide (P x)), (decide (Q x)); tauto.
Qed.

Lemma standing_of_frame (self : TournamentGroup) (matches : list Match) (tg : TeamGroup) :
  standing_of self (filter (λ m, group m = Some (g_id self) ∧ status m = "finished") matches) tg
  = standing_of self matches tg.
Proof.
  unfold standing_of, home_matches, away_matches.
  rewrite !(filter_filter_impl _ (λ m, group m = Some (g_id self) ∧ status m = "finished"))
    by tauto.
  done.
Qed.

(** X2: the standings of a group read the finished matches of the group
    and nothing else: dropping every other match from the table leaves
    them unchanged. *)
Theorem get_standings_frame (self : TournamentGroup) (team_groups : list TeamGroup)
    (matches : list Match) :
  get_standings self team_groups
    (filter (λ m, group m = Some (g_id self) ∧ status m = "finished") matches)
  = get_standings self team_groups matches.
Proof.
  unfold get_standings. cbv zeta. do 3 f_equal.
  apply list_fmap_ext. intros i tg _. apply standing_of_frame.
Qed.

Lemma total_enumerate {A} (f : A → Z) (g : Z * A → Z) (start : Z) (l : list A) :
  (∀ idx x, g (idx, x) = f x) → total g (enumerate start l) = total f l.
Proof.
  intros Hg. revert start. induction l as [|x l IH]; intros start; [done|].
  unfold total in *. simpl. by rewrite Hg, IH.
Qed.

Lemma total_get_standings (f : Standing → Z) (self : TournamentGroup)
    (team_groups : list TeamGroup) (matches : list Match) :
  (∀ idx x, f (set_position idx x) = f x) →
  total f (get_standings self team_groups matches)
  = total (λ tg, f (standing_of self matches tg)) (members self team_groups).
Proof.
  intros Hf. unfold get_standings. cbv zeta.
  rewrite total_fmap, (total_enumerate f) by (intros idx x; apply Hf).
  rewrite (total_Permutation f _ _ (list_sort_perm sort_key tuple3_le _)).
  apply total_fmap.
Qed.

Lemma total_sub {A} (f g : A → Z) (l : list A) :
  total (λ x, f x - g x) l = total f l - total g l.
Proof. induction l as [|x l IH]; [done|]. unfold total in *. simpl. lia. Qed.

Lemma total_indicator {A} (P : A → Prop) `{!∀ x, Decision (P x)} (c : Z) (l : list A) :
  total (λ x, if decide (P x) then c else 0) l = c * count (filter P l).
Proof.
  unfold total, count. induction l as [|x l IH]; [simpl; lia|].
  rewrite filter_cons. simpl. destruct (decide (P x)); simpl length; lia.
Qed.

(** Summing, over the members of a group, a figure of the matches a member
    played on one side gives the figure of all the matches, when the team
    on that side of each match is a member exactly once. *)
Lemma side_total (side : Match → Z) (P : Match → Prop) `{!∀ m, Decision (P m)}
    (f : Match → Z) (L : list TeamGroup) (matches : list Match) :
  (∀ m, m ∈ matches → P m → count (filter (λ tg, tg_team tg = side m) L) = 1) →
  total (λ tg, total f (filter (λ m, side m = tg_team tg ∧ P m) matches)) L
  = total f (filter P matches).
Proof.
  induction matches as [|m matches IH]; intros Hone.
  - simpl. apply total_zero.
  - rewrite (total_ext _ (λ tg, (if decide (tg_team tg = side m ∧ P m) then f m else 0)
        + total f (filter (λ m, side m = tg_team tg ∧ P m) matches))).
    2:{ intros tg _. rewrite filter_cons.
        destruct (decide (side m = tg_team tg ∧ P m)) as [[? ?]|Hn1],
          (decide (tg_team tg = side m ∧ P m)) as [[? ?]|Hn2];
          [done| destruct Hn2; by split | destruct Hn1; by split | done]. }
    rewrite total_add, IH by (intros m' Hm'; apply Hone; by apply list_elem_of_further).
    rewrite filter_cons. destruct (decide (P m)) as [HP|HP].
    + rewrite (total_ext _ (λ tg, if decide (tg_team tg = side m) then f m else 0)).
      2:{ intros tg _. destruct (decide (tg_team tg = side m ∧ P m)),
            (decide (tg_team tg = side m)); tauto. }
      rewrite total_indicator, (Hone m (list_elem_of_here _ _) HP).
      change (total f (m :: filter P matches)) with (f m + total f (filter P matches)). lia.
    + rewrite (total_ext _ (λ _, 0)).
      2:{ intros tg _. destruct (decide (tg_team tg = side m ∧ P m)); tauto. }
      rewrite total_zero. lia.
Qed.

Lemma aggregate_total {A} (field : A → Z) (qs : list A) :
  or_0 (aggregate_Sum field qs) = total field qs.
Proof. apply or_0_aggregate_Sum. Qed.

Lemma home_side_total (self : TournamentGroup) (Q : Match → Prop) `{!∀ m, Decision (Q m)}
    (f : Match → Z) (L : list TeamGroup) (matches : list Match) :
  (∀ m, m ∈ matches → group m = Some (g_id self) ∧ status m = "finished" →
        count (filter (λ tg, tg_team tg = home_team m) L) = 1) →
  total (λ tg, total f (filter Q (home_matches self matches (tg_team tg)))) L
  = total f (filter (λ m, Q m ∧ group m = Some (g_id self) ∧ status m = "finished") matches).
Proof.
  intros Hone.
  rewrite <- (side_total home_team
                (λ m, Q m ∧ group m = Some (g_id self) ∧ status m = "finished") f L matches).
  - apply total_ext. intros tg _. f_equal. unfold home_matches.
    rewrite filter_filter_and. apply filter_ext_in. intros m _. tauto.
  - intros m Hm [_ HP]. by apply Hone.
Qed.

Lemma away_side_total (self : TournamentGroup) (Q : Match → Prop) `{!∀ m, Decision (Q m)}
    (f : Match → Z) (L : list TeamGroup) (matches : list Match) :
  (∀ m, m ∈ matches → group m = Some (g_id self) ∧ status m = "finished" →
        count (filter (λ tg, tg_team tg = away_team m) L) = 1) →
  total (λ tg, total f (filter Q (away_matches self matches (tg_team tg)))) L
  = total f (filter (λ m, Q m ∧ group m = Some (g_id self) ∧ status m = "finished") matches).
Proof.
  intros Hone.
  rewrite <- (side_total away_team
                (λ m, Q m ∧ group m = Some (g_id self) ∧ status m = "finished") f L matches).
  - apply total_ext. intros tg _. f_equal. unfold away_matches.
    rewrite filter_filter_and. apply filter_ext_in. intros m _. tauto.
  - intros m Hm [_ HP]. by apply Hone.
Qed.

End StandingsFrame.

(** ** The standings against the specification *)

Section StandingsCorrect.
Import Tournaments.

Lemma count_filter_and {A} (P G : A → Prop) `{!∀ x, Decision (P x)} `{!∀ x, Decision (G x)}
    (l : list A) :
  count (filter (λ x, P x ∧ G x) l)
  = total (λ x, if decide (P x) then 1 else 0) (filter G l).
Proof.
  unfold count, total. induction l as [|x l IH]; [done|].
  rewrite !filter_cons.
  destruct (decide (P x ∧ G x)) as [[HP HG]|Hn], (decide (G x)) as [HG'|HG']; try tauto.
  - simpl. destruct (decide (P x)); [|tauto]. simpl in IH. lia.
  - simpl. destruct (decide (P x)); [tauto|]. simpl in IH. lia.
Qed.

Lemma count_filter_filter_and {A} (Q P G : A → Prop) `{!∀ x, Decision (Q x)}
    `{!∀ x, Decision (P x)} `{!∀ x, Decision (G x)} (l : list A) :
  count (filter Q (filter (λ x, P x ∧ G x) l))
  = total (λ x, if decide (P x ∧ Q x) then 1 else 0) (filter G l).
Proof.
  unfold count, total. induction l as [|x l IH]; [done|].
  rewrite (filter_cons (λ x, P x ∧ G x)), (filter_cons G).
  destruct (decide (P x ∧ G x)) as [[HP HG]|Hn], (decide (G x)) as [HG'|HG']; try tauto.
  - rewrite filter_cons. simpl.
    destruct (decide (Q x)), (decide (P x ∧ Q x)); try tauto; simpl in *; lia.
  - simpl. destruct (decide (P x ∧ Q x)); [tauto|]. simpl in IH. lia.
Qed.

Lemma total_filter_and {A} (P G : A → Prop) `{!∀ x, Decision (P x)} `{!∀ x, Decision (G x)}
    (f : A → Z) (l : list A) :
  total f (filter (λ x, P x ∧ G x) l)
  = total (λ x, if decide (P x) then f x else 0) (filter G l).
Proof.
  unfold total. induction l as [|x l IH]; [done|].
  rewrite !filter_cons.
  destruct (decide (P x ∧ G x)) as [[HP HG]|Hn], (decide (G x)) as [HG'|HG']; try tauto.
  - simpl. destruct (decide (P x)); [|tauto]. simpl in IH. lia.
  - simpl. destruct (decide (P x)); [tauto|]. simpl in IH. lia.
Qed.

Lemma StronglySorted_sublist {A} (R : relation A) (l1 l2 : list A) :
  sublist l1 l2 → StronglySorted R l2 → StronglySorted R l1.
Proof.
  induction 1 as [|x l1 l2 Hsub IH|x l1 l2 Hsub IH]; intros Hs; [done| |].
  - apply StronglySorted_inv in Hs as [Hs Hx]. constructor; [by apply IH|].
    rewrite Forall_forall in Hx |- *. intros y Hy. apply Hx.
    by eapply sublist_subseteq.
  - apply StronglySorted_inv in Hs as [Hs _]. by apply IH.
Qed.

(** The figures of the row the loop of [get_standings] builds for one
    member, as sums over the finished matches of the group. *)
Lemma standing_of_figures (self : TournamentGroup) (matches : list Match) (tg : TeamGroup) :
  let s := standing_of self matches tg in
  let finished := StandingsSpec.finished_matches self matches in
  team s = tg_team tg ∧
  team_group s = tg ∧
  wins s = total (StandingsSpec.won (tg_team tg)) finished ∧
  draws s = total (StandingsSpec.drawn (tg_team tg)) finished ∧
  losses s = total (StandingsSpec.lost (tg_team tg)) finished ∧
  goals_scored s = total (StandingsSpec.scored (tg_team tg)) finished ∧
  goals_conceded s = total (StandingsSpec.conceded (tg_team tg)) finished.
Proof.
  intros s finished. subst s finished.
  unfold standing_of, home_matches, away_matches, StandingsSpec.finished_matches.
  cbn [team team_group wins draws losses goals_scored goals_conceded].
  rewrite !aggregate_total.
  unfold StandingsSpec.won, StandingsSpec.drawn, StandingsSpec.lost,
    StandingsSpec.scored, StandingsSpec.conceded.
  rewrite !total_add.
  rewrite !(count_filter_filter_and _ (λ m, home_team m = tg_team tg)
              (λ m, group m = Some (g_id self) ∧ status m = "finished")).
  rewrite !(count_filter_filter_and _ (λ m, away_team m = tg_team tg)
              (λ m, group m = Some (g_id self) ∧ status m = "finished")).
  rewrite !(total_filter_and (λ m, home_team m = tg_team tg)
              (λ m, group m = Some (g_id self) ∧ status m = "finished")).
  rewrite !(total_filter_and (λ m, away_team m = tg_team tg)
              (λ m, group m = Some (g_id self) ∧ status m = "finished")).
  done.
Qed.

Lemma appearances_split (t : Z) (m : Match) :
  StandingsSpec.appearances t m
  = StandingsSpec.won t m + StandingsSpec.drawn t m + StandingsSpec.lost t m.
Proof.
  unfold StandingsSpec.appearances, StandingsSpec.won, StandingsSpec.drawn, StandingsSpec.lost.
  repeat match goal with |- context [decide ?P] => destruct (decide P) end;
    destruct_and?;
    repeat match goal with
           | H : ¬ (?Q ∧ ?R) |- _ =>
               first [ assert (¬ R) by (intros ?; apply H; tauto)
                     | assert (¬ Q) by (intros ?; apply H; tauto) ]; clear H
           end;
    first [lia | tauto].
Qed.

Context (self : TournamentGroup) (team_groups : list TeamGroup) (matches : list Match).

(** C1: the standings of a group have one row per TeamGroup row of that
    group. Scanning the finished matches of the group, each row counts
    the matches its team won, drew and lost and the goals it scored and
    conceded, at home or away; played = wins + draws + losses is the
    number of sides the team played, goal_difference = goals_scored -
    goals_conceded, and points = wins*W + draws*D + losses*L for the
    scheme of the tournament. The rows are in descending order of
    (points, goal_difference, goals_scored); rows with equal keys keep
    the order in which the queryset delivered their members, hence the
    order of [Meta.ordering] whatever relation [before] the database
    implements for it; and position is the 1-based rank. *)
Theorem get_standings_correct :
  let rows := get_standings self team_groups matches in
  let t := g_tournament self in
  let finished := StandingsSpec.finished_matches self matches in
  team_group <$> rows ≡ₚ filter (λ tg, tg_group tg = g_id self) team_groups ∧
  Forall (λ r,
    team r = tg_team (team_group r) ∧
    wins r = total (StandingsSpec.won (team r)) finished ∧
    draws r = total (StandingsSpec.drawn (team r)) finished ∧
    losses r = total (StandingsSpec.lost (team r)) finished ∧
    goals_scored r = total (StandingsSpec.scored (team r)) finished ∧
    goals_conceded r = total (StandingsSpec.conceded (team r)) finished ∧
    played r = wins r + draws r + losses r ∧
    played r = total (StandingsSpec.appearances (team r)) finished ∧
    goal_difference r = goals_scored r - goals_conceded r ∧
    points r = wins r * points_per_win t + draws r * points_per_draw t
             + losses r * points_per_loss t) rows ∧
  (∀ i j ri rj, rows !! i = Some ri → rows !! j = Some rj → (i < j)%nat →
     ranks_above ri rj) ∧
  (∀ k, sublist (team_group <$> filter (λ r, rank_key r = k) rows) team_groups) ∧
  (∀ (before : relation TeamGroup) k, StronglySorted before team_groups →
     StronglySorted before (team_group <$> filter (λ r, rank_key r = k) rows)) ∧
  (∀ i r, rows !! i = Some r → position r = Some (Z.of_nat i + 1)).
Proof.
  intros rows t finished.
  assert (∀ k, sublist (team_group <$> filter (λ r, rank_key r = k) rows) team_groups)
    as Hstable.
  { intros [[p gd] gs]. subst rows. unfold get_standings. cbv zeta.
    rewrite (ranked_filter team_group) by done.
    rewrite (list_filter_iff _ (λ r, sort_key r = (- p, - gd, - gs))).
    2:{ intros r. apply rank_key_sort_key. }
    rewrite (list_sort_stable sort_key tuple3_le tuple3_le_total).
    rewrite filter_fmap, <- list_fmap_compose.
    rewrite (list_fmap_ext (team_group ∘ standing_of self matches) Datatypes.id) by done.
    rewrite list_fmap_id. unfold members.
    etrans; apply sublist_filter. }
  subst rows finished. unfold get_standings. cbv zeta. split_and!.
  - rewrite (ranked_fmap team_group) by done.
    rewrite (list_sort_perm sort_key tuple3_le).
    rewrite <- list_fmap_compose.
    rewrite (list_fmap_ext (team_group ∘ standing_of self matches) Datatypes.id) by done.
    by rewrite list_fmap_id.
  - rewrite Forall_forall. intros r Hr.
    apply list_elem_of_lookup_1 in Hr as [i Hr].
    apply ranked_lookup in Hr as (s & Hs & ->).
    apply list_elem_of_lookup_2, sorted_elem in Hs as (tg & _ & ->).
    destruct (standing_of_figures self matches tg) as (Ht & Htg & Hw & Hd & Hl & Hgs & Hgc).
    cbv zeta in Ht, Htg, Hw, Hd, Hl, Hgs, Hgc.
    cbn [set_position team team_group wins draws losses goals_scored goals_conceded
         played goal_difference points].
    rewrite Ht, Htg. split_and!; try done.
    rewrite (total_ext _ _ _ (λ m _, appearances_split (tg_team tg) m)).
    rewrite !total_add, <- Hw, <- Hd, <- Hl. done.
  - intros i j ri rj Hi Hj Hij.
    apply ranked_lookup in Hi as (si & Hi & ->).
    apply ranked_lookup in Hj as (sj & Hj & ->).
    pose proof (list_sort_sorted sort_key tuple3_le tuple3_le_total tuple3_le_trans
                  (standing_of self matches <$> members self team_groups)) as Hs.
    pose proof (StronglySorted_lookup _ _ _ _ _ _ Hs Hi Hj Hij) as Hle.
    apply sort_key_ranks_above in Hle. exact Hle.
  - exact Hstable.
  - intros before k Hsorted. eapply StronglySorted_sublist; [apply Hstable|done].
  - intros i r Hr. apply ranked_lookup in Hr as (s & _ & ->). simpl.
    f_equal. lia.
Qed.

End StandingsCorrect.

Section StandingsConservation.
Import Tournaments.
Context (self : TournamentGroup) (team_groups : list TeamGroup) (matches : list Match).

Local Abbreviation finished m := (group m = Some (g_id self) ∧ status m = "finished").

Hypothesis sides_are_members : ∀ m, m ∈ matches → finished m →
  TournamentModels.memberships self team_groups (home_team m) = 1 ∧
  TournamentModels.memberships self team_groups (away_team m) = 1.

Lemma count_total {A} (l : list A) : count l = total (λ _, 1) l.
Proof. unfold count, total. induction l as [|x l IH]; [done|]. simpl length. simpl foldr. lia. Qed.

Lemma home_total (Q : Match → Prop) `{!∀ m, Decision (Q m)} (f : Match → Z) :
  total (λ tg, total f (filter Q (home_matches self matches (tg_team tg))))
    (members self team_groups)
  = total (λ m, if decide (Q m ∧ finished m) then f m else 0) matches.
Proof.
  rewrite home_side_total, total_filter; [done|].
  intros m Hm Hf. by destruct (sides_are_members m Hm Hf).
Qed.

Lemma away_total (Q : Match → Prop) `{!∀ m, Decision (Q m)} (f : Match → Z) :
  total (λ tg, total f (filter Q (away_matches self matches (tg_team tg))))
    (members self team_groups)
  = total (λ m, if decide (Q m ∧ finished m) then f m else 0) matches.
Proof.
  rewrite away_side_total, total_filter; [done|].
  intros m Hm Hf. by destruct (sides_are_members m Hm Hf).
Qed.

Lemma home_count (Q : Match → Prop) `{!∀ m, Decision (Q m)} :
  total (λ tg, count (filter Q (home_matches self matches (tg_team tg))))
    (members self team_groups)
  = total (λ m, if decide (Q m ∧ finished m) then 1 else 0) matches.
Proof. rewrite <- (home_total Q (λ _, 1)). apply total_ext. intros tg _. apply count_total. Qed.

Lemma away_count (Q : Match → Prop) `{!∀ m, Decision (Q m)} :
  total (λ tg, count (filter Q (away_matches self matches (tg_team tg))))
    (members self team_groups)
  = total (λ m, if decide (Q m ∧ finished m) then 1 else 0) matches.
Proof. rewrite <- (away_total Q (λ _, 1)). apply total_ext. intros tg _. apply count_total. Qed.

Lemma filter_True {A} (l : list A) : filter (λ _, True) l = l.
Proof. induction l as [|x l IH]; [done|]. by rewrite filter_cons, IH. Qed.

Lemma total_wins :
  total wins (get_standings self team_groups matches)
  = total (λ m, if decide (home_score m > away_score m ∧ finished m) then 1 else 0) matches
  + total (λ m, if decide (away_score m > home_score m ∧ finished m) then 1 else 0) matches.
Proof.
  rewrite total_get_standings by done. simpl wins.
  by rewrite total_add, home_count, away_count.
Qed.

Lemma total_draws :
  total draws (get_standings self team_groups matches)
  = total (λ m, if decide (home_score m = away_score m ∧ finished m) then 1 else 0) matches
  + total (λ m, if decide (home_score m = away_score m ∧ finished m) then 1 else 0) matches.
Proof.
  rewrite total_get_standings by done. simpl draws.
  by rewrite total_add, home_count, away_count.
Qed.

Lemma total_losses :
  total losses (get_standings self team_groups matches)
  = total (λ m, if decide (home_score m < away_score m ∧ finished m) then 1 else 0) matches
  + total (λ m, if decide (away_score m < home_score m ∧ finished m) then 1 else 0) matches.
Proof.
  rewrite total_get_standings by done. simpl losses.
  by rewrite total_add, home_count, away_count.
Qed.

Lemma total_sides (f g : Match → Z) :
  total (λ tg, or_0 (aggregate_Sum f (home_matches self matches (tg_team tg)))
             + or_0 (aggregate_Sum g (away_matches self matches (tg_team tg))))
    (members self team_groups)
  = total (λ m, if decide (finished m) then f m + g m else 0) matches.
Proof.
  rewrite total_add.
  rewrite (total_ext (λ tg, or_0 (aggregate_Sum f (home_matches self matches (tg_team tg))))
             (λ tg, total f (filter (λ _, True) (home_matches self matches (tg_team tg)))))
    by (intros; by rewrite filter_True, aggregate_total).
  rewrite (total_ext (λ tg, or_0 (aggregate_Sum g (away_matches self matches (tg_team tg))))
             (λ tg, total g (filter (λ _, True) (away_matches self matches (tg_team tg)))))
    by (intros; by rewrite filter_True, aggregate_total).
  rewrite home_total, away_total, <- total_add. apply total_ext. intros m _.
  destruct (decide (True ∧ finished m)), (decide (finished m)); try tauto; lia.
Qed.

Lemma total_goals_scored :
  total goals_scored (get_standings self team_groups matches)
  = total (λ m, if decide (finished m) then home_score m + away_score m else 0) matches.
Proof. rewrite total_get_standings by done. simpl goals_scored. apply total_sides. Qed.

Lemma total_goals_conceded :
  total goals_conceded (get_standings self team_groups matches)
  = total (λ m, if decide (finished m) then away_score m + home_score m else 0) matches.
Proof. rewrite total_get_standings by done. simpl goals_conceded. apply total_sides. Qed.

Lemma total_goal_difference :
  total goal_difference (get_standings self team_groups matches)
  = total goals_scored (get_standings self team_groups matches)
  - total goals_conceded (get_standings self team_groups matches).
Proof.
  rewrite !total_get_standings by done. simpl. by rewrite total_sub.
Qed.

Lemma total_played :
  total played (get_standings self team_groups matches)
  = total wins (get_standings self team_groups matches)
  + total draws (get_standings self team_groups matches)
  + total losses (get_standings self team_groups matches).
Proof.
  rewrite !total_get_standings by done. simpl. by rewrite !total_add.
Qed.

End StandingsConservation.

(** X3: when both teams of every finished match of a group are members of
    the group, each exactly once, the table of the group conserves the
    results: as many wins as losses, one for every decided match; two draws
    for every drawn match; as many goals scored as conceded, so the goal
    differences add up to zero; and two games played for every match. *)
Theorem standings_conservation (self : Tournaments.TournamentGroup)
    (team_groups : list Tournaments.TeamGroup) (matches : list Tournaments.Match) :
  (∀ m, m ∈ matches →
     Tournaments.group m = Some (Tournaments.g_id self) ∧ Tournaments.status m = "finished" →
     TournamentModels.memberships self team_groups (Tournaments.home_team m) = 1 ∧
     TournamentModels.memberships self team_groups (Tournaments.away_team m) = 1) →
  let table := Tournaments.get_standings self team_groups matches in
  let finished := filter (λ m, Tournaments.group m = Some (Tournaments.g_id self)
                               ∧ Tournaments.status m = "finished") matches in
  total Tournaments.wins table = total Tournaments.losses table ∧
  total Tournaments.wins table
    = count (filter (λ m, Tournaments.home_score m ≠ Tournaments.away_score m) finished) ∧
  total Tournaments.draws table
    = 2 * count (filter (λ m, Tournaments.home_score m = Tournaments.away_score m) finished) ∧
  total Tournaments.goals_scored table = total Tournaments.goals_conceded table ∧
  total Tournaments.goals_scored table
    = total (λ m, Tournaments.home_score m + Tournaments.away_score m) finished ∧
  total Tournaments.goal_difference table = 0 ∧
  total Tournaments.played table = 2 * count finished.
Proof.
  intros Hm. cbv zeta.
  rewrite (total_goal_difference self team_groups matches),
    (total_played self team_groups matches),
    (total_wins self team_groups matches Hm), (total_losses self team_groups matches Hm),
    (total_draws self team_groups matches Hm),
    (total_goals_scored self team_groups matches Hm),
    (total_goals_conceded self team_groups matches Hm).
  rewrite !filter_filter_and, !count_filter_total, total_filter.
  repeat match goal with |- context [2 * total ?f ?l] =>
    replace (2 * total f l) with (total f l + total f l) by lia end.
  rewrite <- !total_add, <- total_sub.
  repeat split;
    try match goal with |- _ = 0 => etrans; [|exact (total_zero matches)] end;
    apply total_ext; intros m _;
    repeat match goal with |- context [decide ?P] => destruct (decide P) end;
    destruct_and?;
    repeat match goal with
           | H : ¬ (?Q ∧ ?R) |- _ => assert (¬ Q) by (intros ?; apply H; tauto); clear H
           end;
    first [lia | tauto].
Qed.

Lemma standings_conservation_witness :
  let table := Tournaments.get_standings Examples.group_A Examples.scenario_members
                 Examples.scenario_matches in
  total Tournaments.wins table = 1 ∧
  total Tournaments.losses table = 1 ∧
  total Tournaments.draws table = 2 ∧
  total Tournaments.goals_conceded table = 5 ∧
  total Tournaments.goal_difference table = 0 ∧
  total Tournaments.played table = 4.
Proof.
  assert (∀ m, m ∈ Examples.scenario_matches →
            Tournaments.group m = Some (Tournaments.g_id Examples.group_A)
            ∧ Tournaments.status m = "finished" →
            TournamentModels.memberships Examples.group_A Examples.scenario_members
              (Tournaments.home_team m) = 1 ∧
            TournamentModels.memberships Examples.group_A Examples.scenario_members
              (Tournaments.away_team m) = 1) as Hmembers.
  { intros m Hm _. unfold Examples.scenario_matches in Hm.
    repeat (apply elem_of_cons in Hm as [->|Hm]; [by vm_compute|]).
    by apply elem_of_nil in Hm. }
  destruct (standings_conservation Examples.group_A Examples.scenario_members
              Examples.scenario_matches Hmembers) as (Hwl & Hw & Hd & Hg & Hgs & Hgd & Hp).
  cbv zeta.
  split; [rewrite Hw; vm_compute; reflexivity|].
  split; [rewrite <- Hwl, Hw; vm_compute; reflexivity|].
  split; [rewrite Hd; vm_compute; reflexivity|].
  split; [rewrite <- Hg, Hgs; vm_compute; reflexivity|].
  split; [exact Hgd|].
  rewrite Hp. vm_compute. reflexivity.
Defined.

(** ** The two implementations of the standings *)

Section SerializerStandings.
Import Tournaments TournamentSerializers.

Lemma insert_sorted_fmap {A B K} (key1 : A → K) (key2 : B → K) (le : K → K → bool)
    (h : A → B) (x : A) (l : list A) :
  (∀ y, key2 (h y) = key1 y) →
  insert_sorted key2 le (h x) (h <$> l) = h <$> insert_sorted key1 le x l.
Proof.
  intros Hkey. induction l as [|y l IH]; [done|].
  cbn [insert_sorted fmap list_fmap]. rewrite !Hkey.
  destruct (le (key1 x) (key1 y)); [done|].
  cbn [fmap list_fmap]. f_equal. apply IH.
Qed.

Lemma list_sort_fmap {A B K} (key1 : A → K) (key2 : B → K) (le : K → K → bool)
    (h : A → B) (l : list A) :
  (∀ y, key2 (h y) = key1 y) →
  list_sort key2 le (h <$> l) = h <$> list_sort key1 le l.
Proof.
  intros Hkey. induction l as [|x l IH]; [done|].
  cbn [list_sort fmap list_fmap foldr].
  fold (list_sort key2 le (h <$> l)). fold (list_sort key1 le l).
  rewrite IH. by apply insert_sorted_fmap.
Qed.

Lemma enumerate_fmap {A B} (h : A → B) (start : Z) (l : list A) :
  enumerate start (h <$> l) = (λ p, (p.1, h p.2)) <$> enumerate start l.
Proof.
  revert start. induction l as [|x l IH]; intros start; [done|].
  cbn [enumerate fmap list_fmap]. f_equal. apply IH.
Qed.

Lemma foldl_tally_home (acc : Tally) (l : list Match) :
  t_wins (foldl tally_home acc l)
    = t_wins acc + count (filter (λ m, home_score m > away_score m) l) ∧
  t_draws (foldl tally_home acc l)
    = t_draws acc + count (filter (λ m, home_score m = away_score m) l) ∧
  t_losses (foldl tally_home acc l)
    = t_losses acc + count (filter (λ m, home_score m < away_score m) l) ∧
  t_goals_scored (foldl tally_home acc l) = t_goals_scored acc + total home_score l ∧
  t_goals_conceded (foldl tally_home acc l) = t_goals_conceded acc + total away_score l.
Proof.
  revert acc. induction l as [|m l IH]; intros acc.
  - unfold count, total. simpl. lia.
  - cbn [foldl]. destruct (IH (tally_home acc m)) as (-> & -> & -> & -> & ->).
    rewrite !filter_cons. unfold tally_home, count, total. rewrite !py_or_0.
    repeat case_bool_decide; repeat case_decide; simpl; try lia.
Qed.

Lemma foldl_tally_away (acc : Tally) (l : list Match) :
  t_wins (foldl tally_away acc l)
    = t_wins acc + count (filter (λ m, away_score m > home_score m) l) ∧
  t_draws (foldl tally_away acc l)
    = t_draws acc + count (filter (λ m, home_score m = away_score m) l) ∧
  t_losses (foldl tally_away acc l)
    = t_losses acc + count (filter (λ m, away_score m < home_score m) l) ∧
  t_goals_scored (foldl tally_away acc l) = t_goals_scored acc + total away_score l ∧
  t_goals_conceded (foldl tally_away acc l) = t_goals_conceded acc + total home_score l.
Proof.
  revert acc. induction l as [|m l IH]; intros acc.
  - unfold count, total. simpl. lia.
  - cbn [foldl]. destruct (IH (tally_away acc m)) as (-> & -> & -> & -> & ->).
    rewrite !filter_cons. unfold tally_away, count, total. rewrite !py_or_0.
    repeat case_bool_decide; repeat case_decide; simpl; try lia.
Qed.

Lemma serializer_home_matches (self : TournamentGroup) (matches : list Match) (t : Z) :
  filter (λ m, home_team m = t ∧ status m = "finished")
    (filter (λ m, group m = Some (g_id self)) matches)
  = home_matches self matches t.
Proof.
  unfold home_matches. rewrite filter_filter_and. apply filter_ext_in. intros m _. tauto.
Qed.

Lemma serializer_away_matches (self : TournamentGroup) (matches : list Match) (t : Z) :
  filter (λ m, away_team m = t ∧ status m = "finished")
    (filter (λ m, group m = Some (g_id self)) matches)
  = away_matches self matches t.
Proof.
  unfold away_matches. rewrite filter_filter_and. apply filter_ext_in. intros m _. tauto.
Qed.

Lemma count_results (l : list Match) :
  count (filter (λ m, home_score m > away_score m) l)
  + count (filter (λ m, home_score m = away_score m) l)
  + count (filter (λ m, home_score m < away_score m) l) = count l.
Proof. apply count_partition3. intros m. lia. Qed.

Lemma count_results_away (l : list Match) :
  count (filter (λ m, away_score m > home_score m) l)
  + count (filter (λ m, home_score m = away_score m) l)
  + count (filter (λ m, away_score m < home_score m) l) = count l.
Proof. apply count_partition3. intros m. lia. Qed.

Lemma row_of_standing_of (self : TournamentGroup) (matches : list Match) (tg : TeamGroup) :
  row_of self matches tg = as_row (standing_of self matches tg).
Proof.
  unfold row_of. cbv zeta. rewrite serializer_home_matches, serializer_away_matches.
  set (acc0 := {| t_wins := 0; t_draws := 0; t_losses := 0;
                  t_goals_scored := 0; t_goals_conceded := 0 |}).
  destruct (foldl_tally_away (foldl tally_home acc0 (home_matches self matches (tg_team tg)))
              (away_matches self matches (tg_team tg))) as (-> & -> & -> & -> & ->).
  destruct (foldl_tally_home acc0 (home_matches self matches (tg_team tg)))
    as (-> & -> & -> & -> & ->).
  unfold as_row, standing_of. cbn -[count total filter home_matches away_matches or_0].
  rewrite !aggregate_total.
  pose proof (count_results (home_matches self matches (tg_team tg))).
  pose proof (count_results_away (away_matches self matches (tg_team tg))).
  f_equal; lia.
Qed.

(** X4: the standings the comprehensive serializer computes with its own
    loops are the standings of [TournamentGroup.get_standings]: the same
    teams in the same order with the same figures and positions. *)
Theorem serializer_standings_agree (self : TournamentGroup) (team_groups : list TeamGroup)
    (matches : list Match) :
  _get_group_standings self team_groups matches
  = as_row <$> get_standings self team_groups matches.
Proof.
  unfold _get_group_standings, get_standings. cbv zeta.
  rewrite (list_fmap_ext (row_of self matches) (as_row ∘ standing_of self matches))
    by (intros; apply row_of_standing_of).
  rewrite list_fmap_compose, (list_sort_fmap sort_key row_key) by done.
  rewrite enumerate_fmap, <- !list_fmap_compose.
  apply list_fmap_ext. by intros i [idx x] _.
Qed.

End SerializerStandings.

(** ** The cap of eleven main players *)

Section PlayerCap.
Import Teams.

Lemma objects_all_delete {A} (table : gmap Z A) (k : Z) :
  objects_all (delete k table) ≡ₚ filter (λ kv, kv.1 ≠ k) (objects_all table).
Proof.
  unfold objects_all. apply NoDup_Permutation.
  - apply NoDup_map_to_list.
  - apply NoDup_filter, NoDup_map_to_list.
  - intros [i x]. rewrite list_elem_of_filter, !elem_of_map_to_list, lookup_delete_Some.
    simpl. intuition congruence.
Qed.

Lemma objects_all_insert {A} (table : gmap Z A) (k : Z) (v : A) :
  objects_all (<[k := v]> table) ≡ₚ (k, v) :: filter (λ kv, kv.1 ≠ k) (objects_all table).
Proof.
  rewrite <- objects_all_delete, <- insert_delete_eq. unfold objects_all.
  apply map_to_list_insert, lookup_delete_eq.
Qed.

Lemma count_Permutation {A} (l1 l2 : list A) : l1 ≡ₚ l2 → count l1 = count l2.
Proof. intros Hp. unfold count. by rewrite Hp. Qed.

Lemma count_filter_mono {A} (P Q : A → Prop) `{!∀ x, Decision (P x)} `{!∀ x, Decision (Q x)}
    (l : list A) :
  (∀ x, x ∈ l → P x → Q x) → count (filter P l) ≤ count (filter Q l).
Proof.
  unfold count. induction l as [|x l IH]; intros HPQ; [done|].
  rewrite !filter_cons.
  assert (length (filter P l) ≤ length (filter Q l))%nat as Hle.
  { apply Nat2Z.inj_le, IH. intros y Hy. apply HPQ. by apply list_elem_of_further. }
  pose proof (HPQ x (list_elem_of_here _ _)).
  destruct (decide (P x)), (decide (Q x)); simpl length; try tauto; lia.
Qed.

Lemma active_main_players_insert (t k : Z) (v : Player) (players : gmap Z Player) :
  active_main_players t (<[k := v]> players)
  = (if decide (team v = t ∧ is_main_player v = true ∧ is_active v = true) then 1 else 0)
    + count (filter (λ kv, team kv.2 = t ∧ is_main_player kv.2 = true ∧ is_active kv.2 = true)
               (filter (λ kv : Z * Player, kv.1 ≠ k) (objects_all players))).
Proof.
  unfold active_main_players.
  rewrite (count_Permutation _ _ (filter_Permutation _ _ _ (objects_all_insert players k v))).
  rewrite filter_cons. cbn [snd]. unfold count.
  destruct (decide (team v = t ∧ is_main_player v = true ∧ is_active v = true));
    simpl length; lia.
Qed.

Lemma active_main_players_rest (t k : Z) (players : gmap Z Player) :
  count (filter (λ kv, team kv.2 = t ∧ is_main_player kv.2 = true ∧ is_active kv.2 = true)
           (filter (λ kv : Z * Player, kv.1 ≠ k) (objects_all players)))
  ≤ active_main_players t players.
Proof.
  unfold active_main_players. rewrite filter_filter_and.
  apply count_filter_mono. tauto.
Qed.

(** The rows the cap check counts are at least the rows left beside the
    row being written. *)
Lemma other_main_players_rest (pk : option Z) (self : Player) (players : gmap Z Player)
    (k : Z) :
  k = match pk with Some k => k | None => next_pk players end →
  count (filter (λ kv, team kv.2 = team self ∧ is_main_player kv.2 = true
                       ∧ is_active kv.2 = true)
           (filter (λ kv : Z * Player, kv.1 ≠ k) (objects_all players)))
  ≤ count (other_main_players pk self players).
Proof.
  intros Hk. unfold other_main_players. rewrite !filter_filter_and.
  apply count_filter_mono. intros kv _ [Hq Hne]. split; [|done].
  destruct pk as [k'|]; [|done]. intros [= Heq]. congruence.
Qed.

Lemma clean_Ok_main (pk : option Z) (self : Player) (players : gmap Z Player) :
  clean pk self players = Ok tt →
  is_main_player self = true →
  count (other_main_players pk self players) < 11.
Proof.
  unfold clean. intros Hc Hmain. rewrite Hmain in Hc.
  destruct (decide (count (other_main_players pk self players) < 11)) as [|Hge]; [done|].
  rewrite bool_decide_eq_true_2, resolve_ValidationError in Hc by lia. done.
Qed.

Lemma clean_below_cap (pk : option Z) (self : Player) (players : gmap Z Player) :
  count (other_main_players pk self players) < 11 → clean pk self players = Ok tt.
Proof.
  intros Hlt. unfold clean. destruct (is_main_player self); [|done].
  by rewrite bool_decide_eq_false_2 by lia.
Qed.

Lemma save_Ok (pk : option Z) (self : Player) (players : gmap Z Player)
    (k : Z) (table : gmap Z Player) :
  save pk self players = Ok (k, table) →
  clean pk self players = Ok tt ∧
  k = match pk with Some k => k | None => next_pk players end ∧
  table = <[k := self]> players.
Proof.
  unfold save, full_clean.
  destruct (clean pk self players) as [[]|e]; [|done].
  destruct (clean_fields self && validate_unique pk self players); [|done].
  intros [= <- <-]. done.
Qed.

Lemma insert_keeps_cap (pk : option Z) (self : Player) (players : gmap Z Player) (k t : Z) :
  clean pk self players = Ok tt →
  k = match pk with Some k => k | None => next_pk players end →
  active_main_players t players ≤ 11 →
  active_main_players t (<[k := self]> players) ≤ 11.
Proof.
  intros Hclean Hk Hcap. rewrite active_main_players_insert.
  destruct (decide _) as [(Ht & Hmain & _)|_].
  - pose proof (clean_Ok_main _ _ _ Hclean Hmain).
    pose proof (other_main_players_rest pk self players k Hk). rewrite Ht in *. lia.
  - pose proof (active_main_players_rest t k players). lia.
Qed.

(** X5: a save of a player that succeeds keeps the cap: a team with at
    most eleven active main players before it has at most eleven after
    it, whether the row is new or replaces an old one. *)
Theorem save_keeps_cap (pk : option Z) (self : Player) (players : gmap Z Player)
    (k : Z) (table : gmap Z Player) (t : Z) :
  save pk self players = Ok (k, table) →
  active_main_players t players ≤ 11 →
  active_main_players t table ≤ 11.
Proof.
  intros (Hclean & Hk & ->)%save_Ok Hcap. by eapply insert_keeps_cap.
Qed.

Lemma save_keeps_cap_witness :
  save None (Examples.player 2 12 true 0 "" "") Examples.roster
    = Ok (21, <[21 := Examples.player 2 12 true 0 "" ""]> Examples.roster) ∧
  active_main_players 2 Examples.roster ≤ 11 ∧
  active_main_players 2 (<[21 := Examples.player 2 12 true 0 "" ""]> Examples.roster) ≤ 11.
Proof.
  assert (save None (Examples.player 2 12 true 0 "" "") Examples.roster
          = Ok (21, <[21 := Examples.player 2 12 true 0 "" ""]> Examples.roster)) as Hsave
    by (vm_compute; reflexivity).
  assert (active_main_players 2 Examples.roster ≤ 11) as Hcap by (vm_compute; discriminate).
  exact (conj Hsave (conj Hcap (save_keeps_cap _ _ _ _ _ 2 Hsave Hcap))).
Defined.

End PlayerCap.

(** ** The main-player actions *)

Section MainPlayerActions.
Import Users Teams TeamViews.

Lemma get_queryset_elem (team_id : option Z) (is_main : option bool) (db : DB)
    (kv : Z * Player) :
  kv ∈ get_queryset team_id is_main db → players db !! kv.1 = Some kv.2.
Proof.
  unfold get_queryset. intros Hin.
  assert (kv ∈ objects_all (players db)) as Hall.
  { destruct is_main; [apply list_elem_of_filter in Hin as [_ Hin]|];
      (destruct team_id; [by apply list_elem_of_filter in Hin as [_ Hin]|done]). }
  destruct kv as [k p]. by apply elem_of_map_to_list in Hall.
Qed.

Lemma get_object_Ok (team_id : option Z) (is_main : option bool) (pk : Z) (db : DB)
    (player : Player) :
  get_object team_id is_main pk db = Ok player → players db !! pk = Some player.
Proof.
  unfold get_object.
  destruct (list_find _ _) as [[i kv]|] eqn:Hfind; [|done]. intros [= <-].
  apply list_find_Some in Hfind as (Hi & <- & _).
  apply (get_queryset_elem team_id is_main). by eapply list_elem_of_lookup_2.
Qed.

Lemma other_main_players_with_main (pk : option Z) (player : Player) (value : bool)
    (players : gmap Z Player) :
  other_main_players pk (with_main player value) players = other_main_players pk player players.
Proof. done. Qed.

(** X6: [set_as_main] never fails with the [NameError] of [Player.clean]:
    its own count of the other main players returns the 400 response
    before the model is asked, and below the cap the model's check
    passes. *)
Theorem set_as_main_no_NameError (user : User) (team_id : option Z) (is_main : option bool)
    (pk : Z) (db : DB) (name : string) :
  (set_as_main user team_id is_main pk db).1 ≠ Raise (NameError name).
Proof.
  unfold set_as_main, write_permissions, get_object, check_owner_or_coach.
  destruct (negb (is_authenticated user)); [done|].
  destruct (negb (Permissions.has_permission is_staff_member user)); [done|].
  destruct (list_find _ _) as [[i kv]|]; [|done].
  destruct (teams db !! team kv.2) as [t|]; [|done].
  destruct (negb (Permissions.club_owner_is user t db) && bool_decide (coach t ≠ Some (id user)));
    [done|].
  cbv zeta. case_bool_decide as Hge; [done|].
  unfold save, full_clean.
  rewrite clean_below_cap by (rewrite other_main_players_with_main; lia).
  by destruct (clean_fields _ && validate_unique _ _ _).
Qed.

(** X7: when [set_as_main] succeeds, the player it returns is the stored
    row with the flag set, it is written under the same key and nothing
    else changes, and every team within the cap stays within it. *)
Theorem set_as_main_effect (user : User) (team_id : option Z) (is_main : option bool)
    (pk : Z) (db db' : DB) (player' : Player) :
  set_as_main user team_id is_main pk db = (Ok player', db') →
  (∃ player, players db !! pk = Some player ∧ player' = with_main player true) ∧
  is_main_player player' = true ∧
  db' = set_players db (<[pk := player']> (players db)) ∧
  (∀ t, active_main_players t (players db) ≤ 11 → active_main_players t (players db') ≤ 11).
Proof.
  unfold set_as_main.
  destruct (write_permissions user); [|by intros [=]].
  destruct (get_object team_id is_main pk db) as [player|] eqn:Hobj; [|by intros [=]].
  destruct (check_owner_or_coach user player db); [|by intros [=]].
  cbv zeta. case_bool_decide; [by intros [=]|].
  destruct (save (Some pk) (with_main player true) (players db)) as [[k table]|] eqn:Hsave;
    [|by intros [=]].
  intros [= <- <-]. apply save_Ok in Hsave as (Hclean & -> & ->).
  split; [exists player; split; [by eapply get_object_Ok|done]|].
  split; [done|]. split; [done|].
  intros t Hcap. simpl. by eapply insert_keeps_cap.
Qed.

Lemma set_as_main_effect_witness :
  let player' := with_main (Examples.player 2 9 false 0 "mum@example.com" "dad@example.com")
                   true in
  let db' := set_players Examples.db (<[20 := player']> (players Examples.db)) in
  set_as_main Examples.staff None None 20 Examples.db = (Ok player', db') ∧
  is_main_player player' = true ∧
  active_main_players 2 (players db') = 1.
Proof.
  cbv zeta.
  assert (set_as_main Examples.staff None None 20 Examples.db
          = (Ok (with_main (Examples.player 2 9 false 0 "mum@example.com" "dad@example.com")
                   true),
             set_players Examples.db
               (<[20 := with_main (Examples.player 2 9 false 0 "mum@example.com"
                                     "dad@example.com") true]> (players Examples.db))))
    as Hpost by (vm_compute; reflexivity).
  split; [exact Hpost|].
  split; [exact (proj1 (proj2 (set_as_main_effect _ _ _ _ _ _ _ Hpost)))|].
  vm_compute. reflexivity.
Defined.

(** X8: [remove_as_main] never raises the [NameError] of [Player.clean],
    and whatever its outcome it adds no active main player to any team. *)
Theorem remove_as_main_never_adds (user : User) (team_id : option Z) (is_main : option bool)
    (pk : Z) (db : DB) :
  (∀ name, (remove_as_main user team_id is_main pk db).1 ≠ Raise (NameError name)) ∧
  (∀ t, active_main_players t (players (remove_as_main user team_id is_main pk db).2)
        ≤ active_main_players t (players db)).
Proof.
  unfold remove_as_main.
  destruct (write_permissions user) as [[]|e] eqn:Hperm.
  2:{ split; [|intros; simpl; lia]. intros name. simpl. revert Hperm.
      unfold write_permissions. repeat case_match; congruence. }
  destruct (get_object team_id is_main pk db) as [player|e] eqn:Hobj.
  2:{ split; [|intros; simpl; lia]. intros name. simpl. revert Hobj.
      unfold get_object. repeat case_match; congruence. }
  destruct (check_owner_or_coach user player db) as [[]|e] eqn:Hchk.
  2:{ split; [|intros; simpl; lia]. intros name. simpl. revert Hchk.
      unfold check_owner_or_coach. repeat case_match; congruence. }
  cbv zeta. unfold save, full_clean, clean. cbn [with_main is_main_player].
  destruct (clean_fields _ && validate_unique _ _ _).
  - split; [done|]. intros t. cbn [snd players set_players].
    rewrite active_main_players_insert.
    pose proof (active_main_players_rest t pk (players db)).
    destruct (decide _) as [(_ & Hmain & _)|_]; [done|lia].
  - split; [done|]. intros t. simpl. lia.
Qed.

End MainPlayerActions.

(** ** The mirror of a tournament match *)

Section Mirror.
Import TournamentSignals.

Lemma sync_lookup (instance : Tournaments.Match) (created : bool)
    (table : gmap Z Matches.Match) :
  sync_match_to_global instance created table !! Tournaments.id instance
  = Some (set_defaults (match_data instance)
            (default blank (table !! Tournaments.id instance))).
Proof.
  unfold sync_match_to_global, update_or_create.
  destruct (table !! Tournaments.id instance); by rewrite lookup_insert_eq.
Qed.

Lemma sync_insert (instance : Tournaments.Match) (created : bool)
    (table : gmap Z Matches.Match) :
  sync_match_to_global instance created table
  = <[Tournaments.id instance := set_defaults (match_data instance)
        (default blank (table !! Tournaments.id instance))]> table.
Proof.
  unfold sync_match_to_global, update_or_create.
  by destruct (table !! Tournaments.id instance).
Qed.

Lemma dict_get_elem (d : list (string * string)) (key default : string) :
  dict_get (list_to_map d) key default = default ∨
  (key, dict_get (list_to_map d) key default) ∈ d.
Proof.
  unfold dict_get. destruct (list_to_map d !! key) as [v|] eqn:Hv; [|by left].
  right. by apply elem_of_list_to_map_2.
Qed.

Lemma dict_get_status (s : string) :
  dict_get status_mapping s "scheduled"
  = if bool_decide (s ∈ STATUS_CHOICES) then s else "scheduled".
Proof.
  case_bool_decide as Hs.
  - by apply status_mapping_choice.
  - unfold dict_get, status_mapping.
    rewrite (not_elem_of_list_to_map_1 _ s); [done|]. exact Hs.
Qed.

Local Ltac solve_elem := apply (bool_decide_unpack _); vm_compute; exact I.

(** X9: a status outside the choices of the tournament match is
    mirrored as [scheduled] and a phase type outside the table as
    [group_stage], so the status and the type of the mirror are always
    choices of the global match; the mirror is never at half time and
    never a friendly. *)
Theorem mirror_fields_valid (instance : Tournaments.Match) (created : bool)
    (table : gmap Z Matches.Match) :
  ∃ g, sync_match_to_global instance created table !! Tournaments.id instance = Some g ∧
       Matches.status g ∈ MatchModels.STATUS_CHOICES ∧
       Matches.match_type g ∈ MatchModels.MATCH_TYPE_CHOICES ∧
       Matches.status g ≠ "half_time" ∧
       Matches.match_type g ≠ "friendly" ∧
       (Tournaments.status instance ∉ STATUS_CHOICES → Matches.status g = "scheduled").
Proof.
  eexists. split; [apply sync_lookup|]. cbn [set_defaults Matches.status Matches.match_type
    match_data md_status md_match_type].
  rewrite dict_get_status.
  assert (∀ s, s ∈ STATUS_CHOICES → s ∈ MatchModels.STATUS_CHOICES ∧ s ≠ "half_time") as Hst.
  { intros s Hs. unfold STATUS_CHOICES in Hs.
    repeat (apply elem_of_cons in Hs as [->|Hs]); try (split; [solve_elem|done]).
    by apply elem_of_nil in Hs. }
  assert (∀ key, let v := dict_get phase_type_mapping key "group_stage" in
                 v ∈ MatchModels.MATCH_TYPE_CHOICES ∧ v ≠ "friendly") as Hty.
  { intros key. cbv zeta.
    pose proof (dict_get_elem
      [("group_stage", "group_stage"); ("round_16", "knockout");
       ("quarter_final", "quarter_final"); ("semi_final", "semi_final");
       ("final", "final"); ("third_place", "third_place")] key "group_stage") as Hin.
    fold phase_type_mapping in Hin. revert Hin.
    generalize (dict_get phase_type_mapping key "group_stage") as v. intros v [->|Hin].
    - split; [solve_elem|done].
    - repeat (apply elem_of_cons in Hin as [Heq|Hin];
              [injection Heq as _ Hv; rewrite Hv; split; [solve_elem|done]|]).
      by apply elem_of_nil in Hin. }
  assert ("scheduled" ∈ STATUS_CHOICES) as Hsch by solve_elem.
  case_bool_decide as Hs.
  - destruct (Hst _ Hs) as [? ?]. repeat split; try done.
    all: destruct (Tournaments.phase instance) as [phase|];
      [apply (Hty (Tournaments.phase_type phase))| first [solve_elem | done]].
  - destruct (Hst _ Hsch) as [? ?]. repeat split; try done.
    all: destruct (Tournaments.phase instance) as [phase|];
      [apply (Hty (Tournaments.phase_type phase))| first [solve_elem | done]].
Qed.

(** X10: deleting a tournament match after it was saved removes its
    mirror: the table of the global matches is back to what it was
    without the row of that key, and to what it was altogether when the
    save had created the mirror. *)
Theorem sync_then_delete (instance : Tournaments.Match) (created : bool)
    (table : gmap Z Matches.Match) :
  delete_global_match instance (sync_match_to_global instance created table)
  = delete (Tournaments.id instance) table ∧
  (table !! Tournaments.id instance = None →
   delete_global_match instance (sync_match_to_global instance created table) = table).
Proof.
  assert (delete_global_match instance (sync_match_to_global instance created table)
          = delete (Tournaments.id instance) table) as Heq.
  { unfold delete_global_match. rewrite sync_lookup, sync_insert. apply delete_insert_eq. }
  split; [exact Heq|]. intros Hnone. rewrite Heq. by apply delete_id.
Qed.

End Mirror.

(** ** Who sees a match and its mirror *)

Section Resolvers.
Import Users.

Lemma save_tournament_matches (instance : Tournaments.Match) (created : bool) (db : DB) :
  tournament_matches (TournamentSignals.save instance created db)
  = <[Tournaments.id instance := instance]> (tournament_matches db).
Proof. done. Qed.

Lemma save_matches (instance : Tournaments.Match) (created : bool) (db : DB) :
  matches (TournamentSignals.save instance created db)
  = TournamentSignals.sync_match_to_global instance created (matches db).
Proof. done. Qed.

Lemma saved_in_table (instance : Tournaments.Match) (created : bool) (db : DB) :
  instance ∈ (objects_all (tournament_matches (TournamentSignals.save instance created db))).*2.
Proof.
  rewrite save_tournament_matches. apply list_elem_of_fmap.
  exists (Tournaments.id instance, instance). split; [done|].
  apply elem_of_map_to_list, lookup_insert_eq.
Qed.

Lemma get_queryset_no_params (user : User) (db : DB) :
  is_authenticated user = true →
  TournamentViews.get_queryset user TournamentViews.no_params db
  = TournamentViews.role_filter user db (objects_all (tournament_matches db)).*2.
Proof. intros Hauth. unfold TournamentViews.get_queryset. by rewrite Hauth. Qed.

(** X11: the organizer of a tournament sees a saved match of the
    tournament in the list of the tournament matches, but not its mirror
    in the list of the global matches, unless the mirror was already there
    and created by the organizer: the synchronizer leaves [created_by]
    alone, and the global resolver shows an admin the matches they
    created. *)
Theorem organizer_misses_mirror (user : User) (instance : Tournaments.Match)
    (created : bool) (db : DB) :
  is_authenticated user = true →
  user_type user = "admin" →
  Tournaments.organizer (Tournaments.tournament instance) = id user →
  (∀ g0, matches db !! Tournaments.id instance = Some g0 →
         Matches.created_by g0 ≠ Some (id user)) →
  let db' := TournamentSignals.save instance created db in
  instance ∈ TournamentViews.get_queryset user TournamentViews.no_params db' ∧
  ∀ g, (Tournaments.id instance, g) ∉ MatchViews.get_user_allowed_matches (Some user) db'.
Proof.
  intros Hauth Hadmin Horg Hold db'. split.
  - rewrite get_queryset_no_params by done. unfold TournamentViews.role_filter.
    rewrite Hadmin. cbn [bool_decide_eq_true]. rewrite bool_decide_eq_false_2 by done.
    rewrite bool_decide_eq_true_2 by done.
    apply list_elem_of_filter. split; [done|]. apply saved_in_table.
  - intros g. unfold MatchViews.get_user_allowed_matches. rewrite Hauth, Hadmin.
    cbn [negb]. rewrite bool_decide_eq_true_2 by done.
    rewrite list_elem_of_filter. intros [Hby Hin]. cbn [snd] in Hby.
    apply elem_of_map_to_list in Hin. subst db'. rewrite save_matches, sync_lookup in Hin.
    injection Hin as <-. cbn in Hby.
    destruct (matches db !! Tournaments.id instance) as [g0|] eqn:Hg0; [|done].
    by apply (Hold g0).
Qed.

Lemma organizer_misses_mirror_witness :
  let db' := TournamentSignals.save (Examples.tournament_match "scheduled") true Examples.db in
  Examples.tournament_match "scheduled"
    ∈ TournamentViews.get_queryset Examples.admin TournamentViews.no_params db' ∧
  ∀ g, (100, g) ∉ MatchViews.get_user_allowed_matches (Some Examples.admin) db'.
Proof.
  refine (organizer_misses_mirror Examples.admin (Examples.tournament_match "scheduled")
            true Examples.db eq_refl eq_refl eq_refl _).
  intros g0 Hg0. vm_compute in Hg0. discriminate Hg0.
Defined.

(** X12: for a staff user the two resolvers agree on a saved tournament
    match: it is in the list of the tournament matches exactly when its
    mirror is in the list of the global matches. *)
Theorem staff_sees_mirror_alike (user : User) (instance : Tournaments.Match)
    (created : bool) (db : DB) :
  is_authenticated user = true →
  user_type user = "staff" →
  let db' := TournamentSignals.save instance created db in
  instance ∈ TournamentViews.get_queryset user TournamentViews.no_params db' ↔
  ∃ g, (Tournaments.id instance, g) ∈ MatchViews.get_user_allowed_matches (Some user) db'.
Proof.
  intros Hauth Hstaff db'.
  rewrite get_queryset_no_params by done.
  unfold TournamentViews.role_filter, MatchViews.get_user_allowed_matches.
  rewrite Hauth, Hstaff. cbn [negb].
  do 2 rewrite (bool_decide_eq_false_2 ("staff" = _)) by done.
  rewrite !(bool_decide_eq_true_2 ("staff" = "staff")) by done. cbv zeta.
  rewrite list_elem_of_filter. split.
  - intros [Hcond _]. eexists. apply list_elem_of_filter. split.
    2:{ apply elem_of_map_to_list. subst db'. rewrite save_matches. apply sync_lookup. }
    exact Hcond.
  - intros [g [Hcond Hin]%list_elem_of_filter]. split; [|apply saved_in_table].
    apply elem_of_map_to_list in Hin. subst db'. rewrite save_matches, sync_lookup in Hin.
    injection Hin as <-. exact Hcond.
Qed.

Lemma staff_sees_mirror_alike_witness :
  let db' := TournamentSignals.save (Examples.tournament_match "scheduled") true Examples.db in
  Examples.tournament_match "scheduled"
    ∈ TournamentViews.get_queryset Examples.staff TournamentViews.no_params db' ∧
  ∃ g, (100, g) ∈ MatchViews.get_user_allowed_matches (Some Examples.staff) db'.
Proof.
  cbv zeta.
  pose proof (staff_sees_mirror_alike Examples.staff (Examples.tournament_match "scheduled")
                true Examples.db eq_refl eq_refl) as Hiff.
  cbv zeta in Hiff.
  assert (Examples.tournament_match "scheduled"
            ∈ TournamentViews.get_queryset Examples.staff TournamentViews.no_params
                (TournamentSignals.save (Examples.tournament_match "scheduled") true
                   Examples.db)) as Hin.
  { apply list_elem_of_lookup. exists 0%nat. vm_compute. reflexivity. }
  exact (conj Hin (proj1 Hiff Hin)).
Defined.

(** X13: whatever the role, the global resolver returns rows of the table
    of the matches, and only to an authenticated user who is an admin, a
    staff member or a parent, or who coaches a team. *)
Theorem get_user_allowed_matches_sound (user : option User) (db : DB) (k : Z)
    (m : Matches.Match) :
  (k, m) ∈ MatchViews.get_user_allowed_matches user db →
  matches db !! k = Some m ∧
  ∃ u, user = Some u ∧ is_authenticated u = true ∧
       (user_type u ∈ ["admin"; "staff"; "parent"] ∨ Permissions.coached_teams u db ≠ []).
Proof.
  unfold MatchViews.get_user_allowed_matches.
  destruct user as [u|]; [|by intros ?%elem_of_nil].
  destruct (is_authenticated u) eqn:Hauth; cbn [negb]; [|by intros ?%elem_of_nil].
  cbv zeta.
  destruct (Permissions.coached_teams u db) as [|t ts] eqn:Hteams; cbn [exists_];
    rewrite ?orb_false_r, ?orb_true_r;
    repeat case_bool_decide;
    try (by intros ?%elem_of_nil);
    (intros [_ Hin%elem_of_map_to_list]%list_elem_of_filter; split; [done|];
     exists u; split; [done|]; split; [done|];
     first [ right; by rewrite Hteams
           | left; match goal with Hx : user_type u = _ |- _ => rewrite Hx end;
             apply (bool_decide_unpack _); vm_compute; exact I ]).
Qed.

Lemma get_user_allowed_matches_sound_witness :
  matches Examples.db !! 1 = Some (Examples.global_match 1 2 "finished") ∧
  ∃ u, Some Examples.staff = Some u ∧ is_authenticated u = true ∧
       (user_type u ∈ ["admin"; "staff"; "parent"]
        ∨ Permissions.coached_teams u Examples.db ≠ []).
Proof.
  refine (get_user_allowed_matches_sound (Some Examples.staff) Examples.db 1
            (Examples.global_match 1 2 "finished") _).
  apply list_elem_of_lookup. exists 1%nat. vm_compute. reflexivity.
Defined.

End Resolvers.

(** ** Events, lineup rows and career totals *)

Section EventCareer.
Import Users Matches MatchViews.

Lemma check_team_permission_frame (user : User) (team_id : Z) (team : Teams.Team)
    (db1 db2 : DB) :
  clubs db1 = clubs db2 → teams db1 = teams db2 →
  check_team_permission user team_id team db1 = check_team_permission user team_id team db2.
Proof.
  intros Hc Ht. unfold check_team_permission, Permissions.club_owner_is,
    Permissions.coached_teams. by rewrite Hc, Ht.
Qed.

Lemma lineups_of_elem (m p t : Z) (db : DB) (lk : Z) (lineup : MatchLineup) :
  (lk, lineup) ∈ lineups_of m p t db →
  lineups db !! lk = Some lineup ∧ lu_match lineup = m ∧ lu_player lineup = p
  ∧ lu_team lineup = t.
Proof.
  unfold lineups_of. intros [Hf Hin%elem_of_map_to_list]%list_elem_of_filter. done.
Qed.

Lemma count_event_frame (event : MatchEvent) (lineup : MatchLineup) :
  lu_match (count_event event lineup) = lu_match lineup ∧
  lu_team (count_event event lineup) = lu_team lineup ∧
  lu_player (count_event event lineup) = lu_player lineup ∧
  minutes_played (count_event event lineup) = minutes_played lineup ∧
  assists (count_event event lineup) = assists lineup.
Proof. unfold count_event. by repeat case_bool_decide. Qed.

Lemma count_event_diff (event : MatchEvent) (lineup : MatchLineup) :
  goals_scored (count_event event lineup) - goals_scored lineup
    = (if bool_decide (event_type event ∈ ["goal"; "penalty_goal"]) then 1 else 0) ∧
  yellow_cards (count_event event lineup) - yellow_cards lineup
    = (if bool_decide (event_type event = "yellow_card") then 1 else 0) ∧
  red_cards (count_event event lineup) - red_cards lineup
    = (if bool_decide (event_type event = "red_card") then 1 else 0).
Proof.
  unfold count_event.
  destruct (decide (event_type event ∈ ["goal"; "penalty_goal"])) as [Hg|Hg].
  - rewrite !(bool_decide_eq_true_2 _ Hg). cbn.
    assert (event_type event ≠ "yellow_card" ∧ event_type event ≠ "red_card") as [Hy Hr].
    { split; intros Heq; rewrite Heq in Hg;
        repeat (apply elem_of_cons in Hg as [Hg|Hg]; [done|]); by apply elem_of_nil in Hg. }
    rewrite !bool_decide_eq_false_2 by done. lia.
  - rewrite !(bool_decide_eq_false_2 _ Hg).
    destruct (decide (event_type event = "yellow_card")) as [Hy|Hy].
    + rewrite !(bool_decide_eq_true_2 _ Hy). cbn.
      rewrite bool_decide_eq_false_2 by (rewrite Hy; done). lia.
    + rewrite !(bool_decide_eq_false_2 _ Hy).
      case_bool_decide; cbn; lia.
Qed.

(** What [perform_create] leaves behind when it returns: the event under
    the next key of the event table, and the clubs, the teams and the
    matches as they were. *)
Lemma perform_create_frame (user : User) (event : MatchEvent) (db db' : DB) (k : Z) :
  perform_create user event db = (Ok k, db') →
  k = next_pk (events db) ∧
  (∃ event', events db' = <[k := event']> (events db) ∧ ev_team event' = ev_team event) ∧
  clubs db' = clubs db ∧ teams db' = teams db ∧ matches db' = matches db ∧
  (∃ team, teams db !! ev_team event = Some team ∧
           check_team_permission user (ev_team event) team db = Ok tt).
Proof.
  unfold perform_create.
  destruct (teams db !! ev_team event) as [team|] eqn:Hteam; [|done].
  destruct (check_team_permission _ _ _ _) as [[]|] eqn:Hperm; [|done].
  unfold save_event. cbn beta iota zeta. cbn [ev_match ev_player ev_team event_type].
  set (ev := {| ev_match := ev_match event; ev_team := _ |}).
  set (db1 := set_events db _).
  change (lineups_of (ev_match event) (ev_player event) (ev_team event) db1)
    with (lineups_of (ev_match event) (ev_player event) (ev_team event) db).
  destruct (lineups_of _ _ _ db) as [|[lk lineup] [|? ?]] eqn:Hl.
  - intros [= <- <-]. repeat split; try done; by eexists.
  - unfold MatchSignals.save.
    destruct (MatchSignals.update_player_stats_on_lineup_change _ _ _) as [db2|] eqn:Hsig;
      [|done].
    intros [= <- <-].
    assert (events db2 = events db1 ∧ clubs db2 = clubs db ∧ teams db2 = teams db
            ∧ matches db2 = matches db) as (He & Hc & Ht & Hm).
    { revert Hsig. unfold MatchSignals.update_player_stats_on_lineup_change.
      repeat (case_match; try done); intros [= <-]; done. }
    repeat split; try done.
    + exists ev. simpl. by rewrite He.
    + by eexists.
  - done.
Qed.

(** X14: an event created through the viewset reaches the career totals
    of the player: with one lineup row for (match, player, team), a goal
    or a penalty goal adds one goal, a yellow or a red card one card, and
    every other type, the own goal among them, adds nothing; each total is
    floored at zero on the way. *)
Theorem event_reaches_career (user : User) (event : MatchEvent) (db db' : DB)
    (k lk : Z) (lineup : MatchLineup) :
  perform_create user event db = (Ok k, db') →
  lineups_of (ev_match event) (ev_player event) (ev_team event) db = [(lk, lineup)] →
  lk ≠ 0 →
  ∃ p p', players db !! ev_player event = Some p ∧
          players db' !! ev_player event = Some p' ∧
    Teams.goals_scored p'
      = py_max0 (Teams.goals_scored p
                 + (if bool_decide (event_type event ∈ ["goal"; "penalty_goal"])
                    then 1 else 0)) ∧
    Teams.yellow_cards p'
      = py_max0 (Teams.yellow_cards p
                 + (if bool_decide (event_type event = "yellow_card") then 1 else 0)) ∧
    Teams.red_cards p'
      = py_max0 (Teams.red_cards p
                 + (if bool_decide (event_type event = "red_card") then 1 else 0)) ∧
    Teams.assists p' = py_max0 (Teams.assists p) ∧
    Teams.minutes_played p' = py_max0 (Teams.minutes_played p).
Proof.
  intros Hcreate Hl Hlk.
  assert ((lk, lineup) ∈ lineups_of (ev_match event) (ev_player event) (ev_team event) db)
    as (Hrow & _ & Hplayer & _)%lineups_of_elem by (rewrite Hl; apply list_elem_of_here).
  revert Hcreate. unfold perform_create.
  destruct (teams db !! ev_team event) as [team|]; [|done].
  destruct (check_team_permission _ _ _ _) as [[]|]; [|done].
  unfold save_event. cbn beta iota zeta. cbn [ev_match ev_player ev_team event_type].
  set (ev := {| ev_match := ev_match event; ev_team := _ |}).
  set (db1 := set_events db _).
  change (lineups_of (ev_match event) (ev_player event) (ev_team event) db1)
    with (lineups_of (ev_match event) (ev_player event) (ev_team event) db).
  rewrite Hl. unfold MatchSignals.save, MatchSignals.update_player_stats_on_lineup_change.
  rewrite bool_decide_eq_false_2 by done.
  change (lineups db1) with (lineups db). rewrite Hrow.
  change (players db1) with (players db).
  destruct (count_event_frame ev lineup) as (_ & _ & -> & -> & ->).
  destruct (count_event_diff ev lineup) as (-> & -> & ->).
  rewrite Hplayer, !Z.sub_diag. cbv zeta.
  destruct (players db !! ev_player event) as [p|]; [|done].
  rewrite !py_or_0, !Z.add_0_r.
  destruct (Teams.save _ _ _) as [[k' players']|] eqn:Hsave; [|done].
  apply save_Ok in Hsave as (_ & -> & ->).
  intros [= _ <-]. eexists p, _. split; [done|].
  split; [cbn; apply lookup_insert_eq|]. done.
Qed.

Lemma event_reaches_career_witness :
  ∃ p p', players Examples.db !! 20 = Some p ∧
          players (perform_create Examples.staff Examples2.goal_event Examples.db).2 !! 20
            = Some p' ∧
          Teams.goals_scored p' = py_max0 (Teams.goals_scored p + 1).
Proof.
  assert (perform_create Examples.staff Examples2.goal_event Examples.db
          = (Ok 1, (perform_create Examples.staff Examples2.goal_event Examples.db).2))
    as Hcreate by (vm_compute; reflexivity).
  assert (lineups_of 1 20 2 Examples.db = [(10, Examples.lineup 1 2)]) as Hl
    by (vm_compute; reflexivity).
  destruct (event_reaches_career Examples.staff Examples2.goal_event Examples.db _ 1 10
              (Examples.lineup 1 2) Hcreate Hl ltac:(done))
    as (p & p' & Hp & Hp' & Hg & _).
  exists p, p'. split; [exact Hp|]. split; [exact Hp'|]. exact Hg.
Defined.

(** X15: deleting an event does not take back what its creation counted:
    after the viewset creates an event and [perform_destroy] deletes it
    again, the table of the events is as before, but the lineup rows and
    the career totals stay as the creation left them. *)
Theorem event_destroy_keeps_count (user : User) (event : MatchEvent) (db db' : DB) (k : Z) :
  perform_create user event db = (Ok k, db') →
  ∃ event', events db' !! k = Some event' ∧
    let r := MatchEventViewSet.perform_destroy user k event' db' in
    r.1 = Ok tt ∧ events r.2 = events db ∧
    lineups r.2 = lineups db' ∧ players r.2 = players db'.
Proof.
  intros (-> & (event' & Hev & Hteam) & Hc & Ht & _ & team & Hlook & Hperm)%perform_create_frame.
  exists event'. split; [rewrite Hev; apply lookup_insert_eq|].
  cbv zeta. unfold MatchEventViewSet.perform_destroy.
  rewrite Hteam, Ht, Hlook.
  rewrite (check_team_permission_frame user (ev_team event) team db' db Hc Ht), Hperm.
  cbn. rewrite Hev. split; [done|]. split; [|done].
  apply delete_insert_id, next_pk_fresh.
Qed.

Lemma event_destroy_keeps_count_witness :
  let db' := (perform_create Examples.staff Examples2.goal_event Examples.db).2 in
  ∃ event', events db' !! 1 = Some event' ∧
    let r := MatchEventViewSet.perform_destroy Examples.staff 1 event' db' in
    r.1 = Ok tt ∧ events r.2 = events Examples.db ∧
    lineups r.2 = lineups db' ∧ players r.2 = players db'.
Proof.
  refine (event_destroy_keeps_count Examples.staff Examples2.goal_event Examples.db _ 1 _).
  vm_compute. reflexivity.
Defined.

End EventCareer.

(** ** The actions on a tournament match *)

Section TournamentMatchActions.
Import Users Tournaments Permissions TournamentViews TournamentActions.

Lemma action_permissions_Ok (user : User) :
  action_permissions user = Ok tt →
  is_authenticated user = true ∧ is_admin_user user = true ∧ is_active user = true.
Proof.
  unfold action_permissions, IsAdminActiveUserType_passes.
  destruct (is_authenticated user); [|done].
  destruct (is_admin_user user); [|done]. by destruct (is_active user).
Qed.

Lemma may_manage_admin (user : User) (match_ : Match) (db : DB) :
  action_permissions user = Ok tt → may_manage user match_ db = true.
Proof.
  intros (Hauth & Hadmin & _)%action_permissions_Ok.
  unfold may_manage, IsMatchCoachOrAdmin_has_object_permission.
  rewrite Hauth, Hadmin. cbn. apply orb_true_r.
Qed.

Lemma match_queryset_elem (user : User) (params : QueryParams) (db : DB) (m : Match) :
  m ∈ get_queryset user params db →
  is_authenticated user = true ∧
  m ∈ role_filter user db (objects_all (tournament_matches db)).*2.
Proof.
  unfold get_queryset. cbv zeta.
  destruct (is_authenticated user); cbn [negb]; [|by rewrite elem_of_nil].
  intros Hm. split; [done|].
  destruct (q_team params); [apply list_elem_of_filter in Hm as [_ Hm]|].
  all: destruct (q_status params); [apply list_elem_of_filter in Hm as [_ Hm]|].
  all: destruct (q_phase params); [apply list_elem_of_filter in Hm as [_ Hm]|].
  all: destruct (q_group params); [apply list_elem_of_filter in Hm as [_ Hm]|].
  all: destruct (q_tournament params); [apply list_elem_of_filter in Hm as [_ Hm]|].
  all: exact Hm.
Qed.

Lemma role_filter_admin (user : User) (db : DB) (queryset : list Match) (m : Match) :
  is_admin_user user = true →
  m ∈ role_filter user db queryset →
  organizer (tournament m) = Users.id user ∧ m ∈ queryset.
Proof.
  unfold is_admin_user, role_filter. intros Hadmin%bool_decide_eq_true.
  rewrite Hadmin.
  rewrite (bool_decide_eq_false_2 ("admin" = "viewer")) by done.
  rewrite (bool_decide_eq_true_2 ("admin" = "admin")) by done.
  by intros Hm%list_elem_of_filter.
Qed.

(** What [self.get_object()] hands to a detail action: a match of the
    table with the key of the request, of a tournament the caller
    organizes. *)
Lemma match_get_object_Ok (user : User) (params : QueryParams) (pk : Z) (db : DB)
    (m : Match) :
  action_permissions user = Ok tt →
  TournamentMatchViewSet.get_object user params pk db = Ok m →
  id m = pk ∧ organizer (tournament m) = Users.id user ∧
  m ∈ (objects_all (tournament_matches db)).*2.
Proof.
  intros (_ & Hadmin & _)%action_permissions_Ok.
  unfold TournamentMatchViewSet.get_object.
  destruct (list_find _ _) as [[i m']|] eqn:Hfind; [|done].
  intros [= ->]. apply list_find_Some in Hfind as (Hi & Hid & _).
  apply list_elem_of_lookup_2, match_queryset_elem in Hi as [_ Hi].
  apply (role_filter_admin _ _ _ _ Hadmin) in Hi as [Horg Hi]. done.
Qed.

Lemma match_get_object_Raise (user : User) (params : QueryParams) (pk : Z) (db : DB)
    (e : exn) :
  TournamentMatchViewSet.get_object user params pk db = Raise e → e = Http404.
Proof.
  unfold TournamentMatchViewSet.get_object.
  destruct (list_find _ _) as [[i m']|]; [done|]. by intros [= <-].
Qed.

Lemma action_permissions_Raise (user : User) (e : exn) :
  action_permissions user = Raise e →
  e = NotAuthenticated ∨ e = PermissionDenied "permission classes".
Proof.
  unfold action_permissions.
  destruct (negb (is_authenticated user)); [intros [= <-]; by left|].
  destruct (negb (IsAdminActiveUserType_passes user)); [intros [= <-]; by right|done].
Qed.

(** What the rest of a detail action returns to a caller who passed the
    permission classes: the match written, or a validation error and the
    database as it was. *)
Lemma detail_rest_cases (user : User) (match_ : Match) (data : ScoreData) (db : DB)
    (r : outcome Match * DB) :
  action_permissions user = Ok tt →
  r = TournamentViews.start_match user match_ db
  ∨ r = TournamentViews.finish_match user match_ db
  ∨ r = TournamentActions.update_score user match_ data db →
  (∃ m', r = (Ok m', TournamentSignals.save m' false db) ∧ id m' = id match_ ∧
         tournament m' = tournament match_)
  ∨ (∃ detail, r = (Raise (ValidationError detail), db)).
Proof.
  intros Hperm Hr. pose proof (may_manage_admin user match_ db Hperm) as Hmay.
  destruct Hr as [-> | [-> | ->]].
  - unfold TournamentViews.start_match. rewrite Hperm, Hmay. cbn [negb].
    case_bool_decide; [right; eauto|left; eexists; split_and!; reflexivity].
  - unfold TournamentViews.finish_match. rewrite Hperm, Hmay. cbn [negb].
    destruct (negb _); [right; eauto|left; eexists; split_and!; reflexivity].
  - unfold TournamentActions.update_score. rewrite Hperm, Hmay. cbn [negb].
    destruct (validate_score data) as [[[h a] s]|e] eqn:Hv;
      [left; eexists; split_and!; reflexivity|right].
    revert Hv. unfold validate_score.
    repeat (case_match; try done); intros [= <-]; eauto.
Qed.

(** X16: the detail actions of [MatchViewSet] are open to the organizer
    alone. When start, finish or update-score returns a match, the caller
    is an active admin, the match has the key of the request and its
    tournament is organized by the caller. The organizer-or-coach check
    in the body of the methods never denies: a permission error comes
    from the permission classes only. An active admin who asks for a
    match of which no row of that key belongs to a tournament they
    organize gets 404, and nothing is written. *)
Theorem only_organizer_manages (user : User) (params : QueryParams) (pk : Z)
    (data : ScoreData) (db : DB) (r : outcome Match * DB) :
  r = TournamentMatchViewSet.start_match user params pk db
  ∨ r = TournamentMatchViewSet.finish_match user params pk db
  ∨ r = TournamentMatchViewSet.update_score user params pk data db →
  (∀ m', r.1 = Ok m' →
     is_admin_user user = true ∧ is_active user = true ∧
     id m' = pk ∧ organizer (tournament m') = Users.id user) ∧
  (∀ detail, r.1 = Raise (PermissionDenied detail) →
     detail = "permission classes" ∧ r.2 = db) ∧
  (action_permissions user = Ok tt →
   (∀ m, m ∈ (objects_all (tournament_matches db)).*2 → id m = pk →
         organizer (tournament m) ≠ Users.id user) →
   r = (Raise Http404, db)).
Proof.
  intros Hr.
  assert (r = TournamentMatchViewSet.detail_action TournamentViews.start_match
                user params pk db
          ∨ r = TournamentMatchViewSet.detail_action TournamentViews.finish_match
                  user params pk db
          ∨ r = TournamentMatchViewSet.detail_action
                  (λ user match_, TournamentActions.update_score user match_ data)
                  user params pk db) as Hr' by exact Hr.
  clear Hr. unfold TournamentMatchViewSet.detail_action in Hr'.
  destruct (action_permissions user) as [[]|e] eqn:Hperm.
  2:{ assert (r = (Raise e, db)) as -> by (by destruct Hr' as [-> | [-> | ->]]).
      apply action_permissions_Raise in Hperm. cbn [fst snd].
      split_and!; [done| |done].
      intros detail [= ->]. destruct Hperm as [?|[= <-]]; done. }
  destruct (TournamentMatchViewSet.get_object user params pk db) as [m|e] eqn:Hobj.
  2:{ assert (r = (Raise e, db)) as -> by (by destruct Hr' as [-> | [-> | ->]]).
      apply match_get_object_Raise in Hobj as ->. cbn [fst snd].
      split_and!; done. }
  pose proof (match_get_object_Ok _ _ _ _ _ Hperm Hobj) as (Hid & Horg & Hin).
  pose proof (action_permissions_Ok user Hperm) as (_ & Hadmin & Hactive).
  destruct (detail_rest_cases user m data db r Hperm Hr')
    as [(m' & -> & Hid' & Ht')|(detail & ->)]; cbn [fst snd].
  - split_and!.
    + intros ? [= <-]. rewrite Ht', Hid'. done.
    + done.
    + intros _ Hnone. destruct (Hnone m Hin Hid Horg).
  - split_and!.
    + done.
    + done.
    + intros _ Hnone. destruct (Hnone m Hin Hid Horg).
Qed.

(** An active admin who does not organize the tournament of match 100
    asks to start it: 404. *)
Lemma only_organizer_manages_witness :
  action_permissions Examples2.other_admin = Ok tt ∧
  TournamentMatchViewSet.start_match Examples2.other_admin no_params 100 Examples.db
  = (Raise Http404, Examples.db).
Proof.
  assert (action_permissions Examples2.other_admin = Ok tt) as Hperm by reflexivity.
  split; [exact Hperm|].
  refine (proj2 (proj2 (only_organizer_manages Examples2.other_admin no_params 100
                          {| s_home_score := None; s_away_score := None; s_status := None |}
                          Examples.db _ (or_introl eq_refl))) Hperm _).
  intros m Hm Hid.
  assert ((objects_all (tournament_matches Examples.db)).*2
          = [Examples.tournament_match "finished"]) as Heq by (vm_compute; reflexivity).
  rewrite Heq in Hm. apply list_elem_of_singleton in Hm. subst m.
  vm_compute. discriminate.
Defined.

Lemma validate_score_Ok (data : ScoreData) (h a : Z) (s : option string) :
  validate_score data = Ok (h, a, s) →
  0 ≤ h ∧ 0 ≤ a ∧ ∀ s', s = Some s' → s' ∈ TournamentSignals.STATUS_CHOICES.
Proof.
  unfold validate_score.
  destruct (s_home_score data) as [h'|]; [|done].
  destruct (s_away_score data) as [a'|]; [|done].
  do 2 case_bool_decide; cbn; try done.
  destruct (s_status data) as [s0|].
  - case_bool_decide as Hs; [|done]. intros [= <- <- <-].
    repeat split; try lia. by intros s' [= <-].
  - intros [= <- <- <-]. repeat split; try lia. done.
Qed.

(** X17: what the three actions write is valid and mirrored: when
    [start_match], [finish_match] or [update_score] returns a match, it is
    the match of the request with a status among the choices and scores
    that are not negative, it is stored under its key, and the global
    match of the same key mirrors it. *)
Theorem tournament_actions_keep_valid (user : User) (match_ : Match) (data : ScoreData)
    (db : DB) (r : outcome Match * DB) (m' : Match) (db' : DB) :
  r = start_match user match_ db ∨ r = finish_match user match_ db
  ∨ r = update_score user match_ data db →
  r = (Ok m', db') →
  status match_ ∈ TournamentSignals.STATUS_CHOICES →
  0 ≤ home_score match_ → 0 ≤ away_score match_ →
  id m' = id match_ ∧ home_team m' = home_team match_ ∧ away_team m' = away_team match_ ∧
  status m' ∈ TournamentSignals.STATUS_CHOICES ∧ 0 ≤ home_score m' ∧ 0 ≤ away_score m' ∧
  tournament_matches db' !! id match_ = Some m' ∧
  ∃ g, matches db' !! id match_ = Some g ∧ TournamentSignals.mirrors g m'.
Proof.
  intros Hr -> Hs Hh Ha.
  assert (∀ m', id m' = id match_ → home_team m' = home_team match_ →
                away_team m' = away_team match_ →
                status m' ∈ TournamentSignals.STATUS_CHOICES →
                0 ≤ home_score m' → 0 ≤ away_score m' →
                ∀ db', db' = TournamentSignals.save m' false db →
    id m' = id match_ ∧ home_team m' = home_team match_ ∧ away_team m' = away_team match_ ∧
    status m' ∈ TournamentSignals.STATUS_CHOICES ∧ 0 ≤ home_score m' ∧ 0 ≤ away_score m' ∧
    tournament_matches db' !! id match_ = Some m' ∧
    ∃ g, matches db' !! id match_ = Some g ∧ TournamentSignals.mirrors g m') as Hsave.
  { intros m Hid Hht Hat Hst Hhs Has db1 ->. repeat split; try done.
    - rewrite save_tournament_matches, Hid. apply lookup_insert_eq.
    - eexists. split; [rewrite save_matches, <- Hid; apply sync_lookup|].
      by apply set_defaults_mirrors. }
  destruct Hr as [Hr|[Hr|Hr]]; symmetry in Hr; revert Hr.
  - unfold start_match. repeat (case_match; try done). intros [= <- <-].
    apply Hsave; try done. apply (bool_decide_unpack _). by vm_compute.
  - unfold finish_match. repeat (case_match; try done). intros [= <- <-].
    apply Hsave; try done. apply (bool_decide_unpack _). by vm_compute.
  - unfold update_score. destruct (action_permissions user); [|done].
    destruct (negb _); [done|].
    destruct (validate_score data) as [[[h1 a1] s1]|] eqn:Hv; [|done].
    intros [= <- <-]. apply validate_score_Ok in Hv as (Hh' & Ha' & Hs').
    apply Hsave; try done. cbn. destruct s1 as [s'|]; [by apply Hs'|done].
Qed.

Lemma tournament_actions_keep_valid_witness :
  let r := finish_match Examples.admin (Examples.tournament_match "live") Examples.db in
  ∃ m' g, r.1 = Ok m' ∧ status m' = "finished" ∧
          matches r.2 !! 100 = Some g ∧ TournamentSignals.mirrors g m'.
Proof.
  cbv zeta.
  destruct (tournament_actions_keep_valid Examples.admin (Examples.tournament_match "live")
              {| s_home_score := None; s_away_score := None; s_status := None |}
              Examples.db _
              (with_status (Examples.tournament_match "live") "finished")
              (TournamentSignals.save
                 (with_status (Examples.tournament_match "live") "finished") false Examples.db)
              (or_intror (or_introl eq_refl)))
    as (_ & _ & _ & _ & _ & _ & _ & g & Hg & Hmirror).
  - vm_compute. reflexivity.
  - apply (bool_decide_unpack _). vm_compute. exact I.
  - vm_compute. discriminate.
  - vm_compute. discriminate.
  - exists (with_status (Examples.tournament_match "live") "finished"), g.
    split; [vm_compute; reflexivity|]. split; [reflexivity|]. split; [exact Hg|exact Hmirror].
Defined.

End TournamentMatchActions.

(** ** The lifecycle guards *)

Section LifecycleGuards.
Import Users.




End LifecycleGuards.

(** ** The general lifecycle views and the tournament match *)

Section LifecycleMirror.
Import Users.

Lemma lifecycle_view_Ok (change : Matches.Match → outcome Matches.Match)
    (user : User) (match_id : Z) (db db' : DB) (m' : Matches.Match) :
  MatchViews.lifecycle_view change user match_id db = (Ok m', db') →
  ∃ m, matches db !! match_id = Some m ∧ change m = Ok m' ∧
       db' = set_matches db (<[match_id := m']> (matches db)).
Proof.
  unfold MatchViews.lifecycle_view.
  destruct (negb (is_authenticated user)); [done|].
  destruct (matches db !! match_id) as [m|]; [|done].
  destruct (MatchViews.check_manage_permission user m db); [|done].
  destruct (change m) as [m1|] eqn:Hch; [|done].
  intros [= <- <-]. by exists m.
Qed.

(** X18: the general start view writes the global match only: the
    tournament match of the same key is not touched, so it keeps its
    status, and the next save of the tournament match puts that status back
    on the global match, keeping the start time and the author the view
    had set. *)
Theorem start_not_synced_back (user : User) (match_id now : Z) (db db' : DB)
    (m' : Matches.Match) (instance : Tournaments.Match) :
  MatchViews.StartMatchView_post user match_id now db = (Ok m', db') →
  Tournaments.id instance = match_id →
  Matches.status m' = "live" ∧
  tournament_matches db' = tournament_matches db ∧
  lineups db' = lineups db ∧ players db' = players db ∧
  ∃ g, matches (TournamentSignals.save instance false db') !! match_id = Some g ∧
       Matches.status g
       = TournamentSignals.dict_get TournamentSignals.status_mapping
           (Tournaments.status instance) "scheduled" ∧
       Matches.actual_start_time g = Some now ∧
       Matches.last_updated_by g = Some (id user).
Proof.
  unfold MatchViews.StartMatchView_post.
  intros (m & Hm & [= <-] & ->)%lifecycle_view_Ok <-.
  repeat split; try done.
  eexists. split; [rewrite save_matches; apply sync_lookup|].
  cbn [matches set_matches]. rewrite lookup_insert_eq. done.
Qed.

Lemma start_not_synced_back_witness :
  let r := MatchViews.StartMatchView_post Examples.admin 100 7
             (TournamentSignals.save (Examples.tournament_match "scheduled") true
                Examples.db) in
  ∃ m', r.1 = Ok m' ∧ Matches.status m' = "live" ∧
    ∃ g, matches (TournamentSignals.save (Examples.tournament_match "scheduled") false r.2)
           !! 100 = Some g ∧
         Matches.status g = "scheduled" ∧ Matches.actual_start_time g = Some 7.
Proof.
  cbv zeta.
  assert (∃ m', MatchViews.StartMatchView_post Examples.admin 100 7
                  (TournamentSignals.save (Examples.tournament_match "scheduled") true
                     Examples.db)
                = (Ok m', (MatchViews.StartMatchView_post Examples.admin 100 7
                             (TournamentSignals.save (Examples.tournament_match "scheduled")
                                true Examples.db)).2)) as [m' Hpost].
  { eexists. vm_compute. reflexivity. }
  destruct (start_not_synced_back Examples.admin 100 7 _ _ m'
              (Examples.tournament_match "scheduled") Hpost eq_refl)
    as (Hlive & _ & _ & _ & g & Hg & Hst & Hat & _).
  exists m'. split; [by rewrite Hpost|]. split; [exact Hlive|].
  exists g. split; [exact Hg|]. split; [exact Hst|exact Hat].
Defined.

End LifecycleMirror.

(** ** The members of a group *)

Section GroupMembers.
Import Users Tournaments Permissions TournamentViews TournamentActions.

Lemma exists_false {A} (l : list A) : exists_ l = false ↔ l = [].
Proof. by destruct l. Qed.

Lemma memberships_app (self : TournamentGroup) (l1 l2 : list TeamGroup) (t : Z) :
  TournamentModels.memberships self (l1 ++ l2) t
  = TournamentModels.memberships self l1 t + TournamentModels.memberships self l2 t.
Proof.
  unfold TournamentModels.memberships, members, count.
  rewrite !filter_app, length_app. lia.
Qed.

Lemma memberships_singleton (self : TournamentGroup) (tg : TeamGroup) (t : Z) :
  TournamentModels.memberships self [tg] t
  = if bool_decide (tg_group tg = g_id self ∧ tg_team tg = t) then 1 else 0.
Proof.
  unfold TournamentModels.memberships, members.
  rewrite filter_filter_and, filter_cons, filter_nil.
  destruct (decide (tg_team tg = t ∧ tg_group tg = g_id self)); case_bool_decide;
    try done; tauto.
Qed.

Lemma in_group_memberships (self : TournamentGroup) (t : Z) (db : DB) :
  in_group t (g_id self) db = false ↔ TournamentModels.memberships self (team_groups db) t = 0.
Proof.
  unfold in_group, TournamentModels.memberships, members.
  rewrite exists_false, filter_filter_and. unfold count.
  destruct (filter _ (team_groups db)); simpl; split; (done || lia).
Qed.

Lemma add_team_Ok (user : User) (group_ : TournamentGroup) (data : AddTeamData)
    (db db' : DB) (tg : TeamGroup) :
  add_team user group_ data db = (Ok tg, db') →
  has_permission IsAdminActiveUserType_passes user = true ∧
  (bool_decide (organizer (g_tournament group_) ≠ Users.id user) && negb (is_superuser user))
    = false ∧
  a_team_id data = Some (tg_team tg) ∧
  is_Some (teams db !! tg_team tg) ∧
  in_group (tg_team tg) (g_id group_) db = false ∧
  tg_group tg = g_id group_ ∧
  tg_id tg = next_team_group_id (team_groups db) ∧
  db' = set_team_groups db (team_groups db ++ [tg]).
Proof.
  unfold add_team.
  destruct (has_permission _ user); [|done]. cbn [negb].
  destruct (_ && _); [done|].
  destruct (a_team_id data) as [team_id|]; [|done].
  case_bool_decide as Hteam; [|done]. cbn [negb].
  destruct (in_group team_id (g_id group_) db) eqn:Hin; [done|].
  intros [= <- <-]. done.
Qed.

(** X19: [add_team] puts a team into a group once: when it succeeds the
    team exists, was no member of the group and is a member exactly once
    afterwards; no other membership changes, so a table in which no team
    is twice in a group stays so; and the same request again is rejected
    with a validation error. *)
Theorem add_team_once (user : User) (group_ : TournamentGroup) (data : AddTeamData)
    (db db' : DB) (tg : TeamGroup) :
  add_team user group_ data db = (Ok tg, db') →
  is_Some (teams db !! tg_team tg) ∧
  TournamentModels.memberships group_ (team_groups db) (tg_team tg) = 0 ∧
  TournamentModels.memberships group_ (team_groups db') (tg_team tg) = 1 ∧
  (∀ g t, g_id g ≠ g_id group_ ∨ t ≠ tg_team tg →
     TournamentModels.memberships g (team_groups db') t
     = TournamentModels.memberships g (team_groups db) t) ∧
  ((∀ g t, TournamentModels.memberships g (team_groups db) t ≤ 1) →
   (∀ g t, TournamentModels.memberships g (team_groups db') t ≤ 1)) ∧
  add_team user group_ data db'
  = (Raise (ValidationError "Cette équipe est déjà dans ce groupe"), db').
Proof.
  intros (Hperm & Horg & Hdata & Hteam & Hin & Hg & _ & ->)%add_team_Ok.
  pose proof (proj1 (in_group_memberships group_ (tg_team tg) db) Hin) as Hzero.
  assert (∀ g t, TournamentModels.memberships g (team_groups db ++ [tg]) t
                 = TournamentModels.memberships g (team_groups db) t
                   + (if bool_decide (g_id g = g_id group_ ∧ t = tg_team tg) then 1 else 0))
    as Hadd.
  { intros g t. rewrite memberships_app, memberships_singleton, Hg.
    repeat case_bool_decide; try done; destruct_and?; exfalso;
      match goal with Hn : ¬ _ |- _ => apply Hn; split; congruence end. }
  cbn [team_groups set_team_groups].
  split; [done|]. split; [done|]. split; [|split; [|split]].
  - rewrite Hadd, Hzero, bool_decide_eq_true_2 by done. done.
  - intros g t Hne. rewrite Hadd, bool_decide_eq_false_2 by tauto. apply Z.add_0_r.
  - intros Hcap g t. rewrite Hadd.
    destruct (decide (g_id g = g_id group_ ∧ t = tg_team tg)) as [Hgt|Hgt].
    2:{ rewrite bool_decide_eq_false_2 by done. specialize (Hcap g t). lia. }
    rewrite bool_decide_eq_true_2 by done. destruct Hgt as [Hgid ->].
    assert (TournamentModels.memberships g (team_groups db) (tg_team tg)
            = TournamentModels.memberships group_ (team_groups db) (tg_team tg)) as ->.
    { unfold TournamentModels.memberships, members. by rewrite Hgid. }
    lia.
  - unfold add_team. rewrite Hperm, Horg, Hdata. cbn [negb teams set_team_groups].
    rewrite bool_decide_eq_true_2 by done. cbn [negb].
    assert (in_group (tg_team tg) (g_id group_)
              (set_team_groups db (team_groups db ++ [tg])) = true) as ->; [|done].
    destruct (in_group (tg_team tg) (g_id group_)
                (set_team_groups db (team_groups db ++ [tg]))) eqn:Hin'; [done|].
    apply in_group_memberships in Hin'.
    change (team_groups (set_team_groups db (team_groups db ++ [tg])))
      with (team_groups db ++ [tg]) in Hin'.
    rewrite Hadd, Hzero, bool_decide_eq_true_2 in Hin' by done. done.
Qed.

Lemma add_team_once_witness :
  let r := add_team Examples.admin Examples.group_A
             {| a_team_id := Some 1; a_position := None |} Examples.db in
  is_Ok r.1 = true ∧
  TournamentModels.memberships Examples.group_A (team_groups r.2) 1 = 1 ∧
  add_team Examples.admin Examples.group_A {| a_team_id := Some 1; a_position := None |} r.2
  = (Raise (ValidationError "Cette équipe est déjà dans ce groupe"), r.2).
Proof.
  cbv zeta.
  assert (∃ tg, add_team Examples.admin Examples.group_A
                  {| a_team_id := Some 1; a_position := None |} Examples.db
                = (Ok tg, (add_team Examples.admin Examples.group_A
                             {| a_team_id := Some 1; a_position := None |} Examples.db).2))
    as [tg Hadd] by (eexists; vm_compute; reflexivity).
  destruct (add_team_once _ _ _ _ _ _ Hadd) as (_ & _ & Hone & _ & _ & Hagain).
  split; [by rewrite Hadd|].
  assert (tg_team tg = 1) as Hteam.
  { revert Hadd. vm_compute. by intros [= <-]. }
  rewrite Hteam in Hone. split; [exact Hone|exact Hagain].
Defined.

Lemma next_team_group_id_fresh (table : list TeamGroup) (tg : TeamGroup) :
  tg ∈ table → tg_id tg ≠ next_team_group_id table.
Proof.
  intros Hin. unfold next_team_group_id.
  assert (tg_id tg ∈ tg_id <$> table) as Hid by (apply list_elem_of_fmap; by exists tg).
  apply foldr_max_ge in Hid. lia.
Qed.

Lemma set_team_groups_id (db : DB) : set_team_groups db (team_groups db) = db.
Proof. by destruct db. Qed.

(** X20: [remove_team] undoes [add_team]: removing the team that was
    just added succeeds and gives back the database as it was before the
    team was added. *)
Theorem add_then_remove_team (user : User) (group_ : TournamentGroup) (data : AddTeamData)
    (db db' : DB) (tg : TeamGroup) :
  add_team user group_ data db = (Ok tg, db') →
  remove_team user group_ (tg_team tg) db' = (Ok tt, db).
Proof.
  intros (Hperm & Horg & _ & _ & Hin & Hg & Hid & ->)%add_team_Ok.
  unfold remove_team. rewrite Hperm, Horg. cbn [negb team_groups set_team_groups].
  rewrite filter_app, filter_cons, filter_nil.
  rewrite (filter_none _ (team_groups db)).
  2:{ apply Forall_forall. intros x Hx [Hxg Hxt].
      unfold in_group in Hin. apply exists_false in Hin.
      assert (x ∈ filter (λ tg0, tg_team tg0 = tg_team tg ∧ tg_group tg0 = g_id group_)
                    (team_groups db)) as Hmem by (by apply list_elem_of_filter).
      rewrite Hin in Hmem. by apply elem_of_nil in Hmem. }
  rewrite decide_True by done. cbn [app].
  rewrite filter_app, filter_cons, filter_nil, decide_False by (intros Hne; by apply Hne).
  rewrite filter_all, app_nil_r.
  2:{ apply Forall_forall. intros x Hx. rewrite Hid. by apply next_team_group_id_fresh. }
  f_equal. destruct db; reflexivity.
Qed.

Lemma add_then_remove_team_witness :
  let r := add_team Examples.admin Examples.group_A
             {| a_team_id := Some 1; a_position := None |} Examples.db in
  is_Ok r.1 = true ∧
  remove_team Examples.admin Examples.group_A 1 r.2 = (Ok tt, Examples.db).
Proof.
  cbv zeta.
  assert (∃ tg, add_team Examples.admin Examples.group_A
                  {| a_team_id := Some 1; a_position := None |} Examples.db
                = (Ok tg, (add_team Examples.admin Examples.group_A
                             {| a_team_id := Some 1; a_position := None |} Examples.db).2))
    as [tg Hadd] by (eexists; vm_compute; reflexivity).
  pose proof (add_then_remove_team _ _ _ _ _ _ Hadd) as Hremove.
  assert (tg_team tg = 1) as Hteam.
  { revert Hadd. vm_compute. by intros [= <-]. }
  rewrite Hteam in Hremove. split; [by rewrite Hadd|exact Hremove].
Defined.

End GroupMembers.

(** ** The global match viewset *)

Section GlobalMatches.
Import Users Matches Permissions GlobalMatchViewSet.

Lemma populate_spec (match_id team_id : Z) (main_players : list (Z * Teams.Player)) (db : DB) :
  TournamentViews.populate match_id team_id main_players db
  = (Ok tt, set_lineups db
              (MatchViews.append_rows (lineups db)
                 (LineupRows.starter_row match_id team_id <$> main_players))).
Proof.
  revert db. induction main_players as [|[pk player] rest IH]; intros db.
  - by destruct db.
  - cbn [TournamentViews.populate]. rewrite save_new, IH. done.
Qed.

Lemma allowed_in_table (user : option User) (db : DB) (k : Z) (m : Match) :
  (k, m) ∈ MatchViews.get_user_allowed_matches user db → matches db !! k = Some m.
Proof.
  unfold MatchViews.get_user_allowed_matches.
  destruct user as [u|]; [|by intros ?%elem_of_nil].
  destruct (negb (is_authenticated u)); [by intros ?%elem_of_nil|].
  cbv zeta.
  destruct (Permissions.coached_teams u db) as [|t ts]; cbn [exists_];
    rewrite ?orb_false_r, ?orb_true_r;
    repeat case_bool_decide;
    try (by intros ?%elem_of_nil);
    by intros [_ Hin%elem_of_map_to_list]%list_elem_of_filter.
Qed.

Lemma get_object_Some (user : User) (pk : Z) (db : DB) (m : Match) :
  get_object user pk db = Ok m ↔ (pk, m) ∈ MatchViews.get_user_allowed_matches (Some user) db.
Proof.
  unfold get_object. split.
  - destruct (list_find _ _) as [[i [k m']]|] eqn:Hfind; [|done]. intros [= <-].
    apply list_find_Some in Hfind as (Hi & Hk & _). cbn in Hk. subst k.
    by eapply list_elem_of_lookup_2.
  - intros Hin.
    destruct (list_find (λ kv : Z * Match, kv.1 = pk)
                (MatchViews.get_user_allowed_matches (Some user) db))
      as [[i [k m']]|] eqn:Hfind.
    + apply list_find_Some in Hfind as (Hi & Hk & _). cbn in Hk. subst k.
      apply list_elem_of_lookup_2, allowed_in_table in Hi.
      apply allowed_in_table in Hin. cbn. congruence.
    + apply list_find_None in Hfind. rewrite Forall_forall in Hfind.
      by destruct (Hfind _ Hin).
Qed.

Lemma club_owner_is_owned (user : User) (team_id : Z) (team : Teams.Team) (db : DB) :
  teams db !! team_id = Some team →
  club_owner_is user team db = true →
  MatchViews.team_club_in team_id (MatchViews.clubs_owned_by user db) db = true.
Proof.
  unfold club_owner_is, MatchViews.team_club_in, MatchViews.clubs_owned_by.
  intros -> Howner. destruct (clubs db !! Teams.club team) as [club|] eqn:Hclub; [|done].
  apply bool_decide_eq_true. apply list_elem_of_fmap. exists (Teams.club team, club).
  split; [done|]. apply list_elem_of_filter. split.
  - by apply bool_decide_eq_true in Howner.
  - by apply elem_of_map_to_list.
Qed.

(** X21: only a staff member creates a global match through the
    viewset, and only for a home team of a club they own: the permission
    classes admit admins and staff, and [perform_create] turns every admin
    away, so its branch for coaches is never reached. The match is stored
    under a fresh key with the caller as its author, every active main
    player of the two teams gets a starter row, no career total changes,
    and the creator sees the match. *)
Theorem create_only_staff (user : User) (m : Match) (db db' : DB) (k : Z) :
  create user m db = (Ok k, db') →
  user_type user = "staff" ∧
  (∃ home, teams db !! home_team m = Some home ∧ club_owner_is user home db = true) ∧
  matches db !! k = None ∧
  matches db' = <[k := with_authors m (Some (id user)) (Some (id user))]> (matches db) ∧
  lineups db'
  = MatchViews.append_rows (lineups db)
      ((LineupRows.starter_row k (home_team m)
          <$> TournamentViews.main_players (home_team m) db)
       ++ (LineupRows.starter_row k (away_team m)
             <$> TournamentViews.main_players (away_team m) db)) ∧
  players db' = players db ∧
  (k, with_authors m (Some (id user)) (Some (id user)))
    ∈ MatchViews.get_user_allowed_matches (Some user) db'.
Proof.
  unfold create, write_permissions, has_permission, IsAdminOrStaffUserType_passes,
    is_admin_user, is_staff_member.
  destruct (is_authenticated user) eqn:Hauth; [|done].
  unfold perform_create.
  destruct (teams db !! home_team m) as [home|] eqn:Hhome; [|by case_match].
  destruct (teams db !! away_team m) as [away|] eqn:Haway; [|by case_match].
  destruct (decide (user_type user = "admin")) as [Hadmin|Hadmin].
  { rewrite !(bool_decide_eq_true_2 _ Hadmin). done. }
  rewrite !(bool_decide_eq_false_2 _ Hadmin).
  destruct (decide (user_type user = "staff")) as [Hstaff|Hstaff].
  2:{ rewrite !(bool_decide_eq_false_2 _ Hstaff). done. }
  rewrite !(bool_decide_eq_true_2 _ Hstaff). cbn [andb orb negb].
  destruct (club_owner_is user home db) eqn:Howner; [|done]. cbn [negb].
  cbv zeta. rewrite !populate_spec. intros [= <- <-].
  split; [done|]. split; [by exists home|]. split; [apply next_pk_fresh|].
  split; [done|]. split.
  { cbn. unfold MatchViews.append_rows. by rewrite foldl_app. }
  split; [done|].
  unfold MatchViews.get_user_allowed_matches. rewrite Hauth, Hstaff. cbn [negb].
  rewrite bool_decide_eq_false_2 by done. rewrite bool_decide_eq_true_2 by done.
  cbv zeta. apply list_elem_of_filter. split.
  - left. cbn [snd with_authors home_team]. by eapply club_owner_is_owned.
  - apply elem_of_map_to_list. cbn. apply lookup_insert_eq.
Qed.

Lemma create_only_staff_witness :
  let r := create Examples.staff (Examples.global_match 1 2 "scheduled") Examples.db in
  r.1 = Ok 3 ∧ Users.user_type Examples.staff = "staff" ∧
  created_by <$> matches r.2 !! 3 = Some (Some 2) ∧
  count (filter (λ kv, lu_match kv.2 = 3) (objects_all (lineups r.2))) = 11.
Proof.
  cbv zeta.
  assert (create Examples.staff (Examples.global_match 1 2 "scheduled") Examples.db
          = (Ok 3, (create Examples.staff (Examples.global_match 1 2 "scheduled")
                      Examples.db).2)) as Hcreate by (vm_compute; reflexivity).
  destruct (create_only_staff _ _ _ _ _ Hcreate) as (Hstaff & _ & _ & Hm & _).
  split; [by rewrite Hcreate|]. split; [exact Hstaff|].
  split; [rewrite Hm; by rewrite lookup_insert_eq|].
  vm_compute. reflexivity.
Defined.

(** X22: the viewset updates and deletes a match only for its creator,
    or for a staff member or coach who sees a match without a creator;
    the exemption of [perform_update] and [perform_destroy] for admins
    never applies, since an admin is shown the matches they created and no
    others. *)
Theorem only_creator_changes (user : User) (pk : Z) (validated : Match) (db : DB) :
  let allowed :=
    ∃ m, matches db !! pk = Some m ∧
         (created_by m = Some (id user)
          ∨ (created_by m = None ∧ user_type user ≠ "admin")) in
  (∀ m' db', update user pk validated db = (Ok m', db') →
     allowed ∧ created_by <$> matches db' !! pk = created_by <$> matches db !! pk) ∧
  (∀ db', destroy user pk db = (Ok tt, db') → allowed ∧ matches db' !! pk = None).
Proof.
  cbv zeta.
  assert (∀ m, get_object user pk db = Ok m → not_the_creator user m = false →
    matches db !! pk = Some m ∧
    (created_by m = Some (id user) ∨ (created_by m = None ∧ user_type user ≠ "admin")))
    as Hallowed.
  { intros m Hobj Hnot. apply get_object_Some in Hobj.
    split; [by eapply allowed_in_table|].
    destruct (decide (user_type user = "admin")) as [Hadmin|Hadmin].
    - left. revert Hobj. unfold MatchViews.get_user_allowed_matches.
      destruct (negb (is_authenticated user)); [by intros ?%elem_of_nil|].
      rewrite (bool_decide_eq_true_2 _ Hadmin).
      by intros [Hby _]%list_elem_of_filter.
    - unfold not_the_creator in Hnot.
      rewrite (bool_decide_eq_true_2 _ Hadmin), andb_true_r in Hnot.
      destruct (created_by m) as [c|]; [|by right]. left.
      apply andb_false_iff in Hnot as [Hnot|Hnot].
      + apply bool_decide_eq_false in Hnot. by destruct Hnot.
      + apply bool_decide_eq_false in Hnot.
        destruct (decide (Some c = Some (id user))); [done|]. by destruct Hnot. }
  split.
  - intros m' db'. unfold update.
    destruct (write_permissions user); [|done].
    destruct (get_object user pk db) as [m|] eqn:Hobj; [|done].
    destruct (not_the_creator user m) eqn:Hnot; [done|].
    intros [= <- <-]. destruct (Hallowed m eq_refl Hnot) as [Hm Hby].
    split; [by exists m|]. cbn. by rewrite lookup_insert_eq, Hm.
  - intros db'. unfold destroy.
    destruct (write_permissions user); [|done].
    destruct (get_object user pk db) as [m|] eqn:Hobj; [|done].
    destruct (not_the_creator user m) eqn:Hnot; [done|].
    intros [= <-]. destruct (Hallowed m eq_refl Hnot) as [Hm Hby].
    split; [by exists m|]. cbn. apply lookup_delete_eq.
Qed.

(** X23: a staff member whose club plays at home deletes the mirror of a
    tournament match through the global viewset: the synchronizer leaves
    the mirror without a creator, so the creator rule lets the request
    through; the tournament match stays, without a global match of its
    key. *)
Theorem staff_deletes_mirror (user : User) (instance : Tournaments.Match)
    (created : bool) (home : Teams.Team) (db : DB) :
  is_authenticated user = true →
  user_type user = "staff" →
  teams db !! Tournaments.home_team instance = Some home →
  club_owner_is user home db = true →
  (∀ g0, matches db !! Tournaments.id instance = Some g0 → created_by g0 = None) →
  let db1 := TournamentSignals.save instance created db in
  let r := destroy user (Tournaments.id instance) db1 in
  r.1 = Ok tt ∧
  matches r.2 !! Tournaments.id instance = None ∧
  tournament_matches r.2 !! Tournaments.id instance = Some instance.
Proof.
  intros Hauth Hstaff Hhome Howner Hold. cbv zeta.
  unfold destroy, write_permissions, has_permission, IsAdminOrStaffUserType_passes,
    is_admin_user, is_staff_member.
  rewrite Hauth, Hstaff. cbn [andb orb negb].
  rewrite bool_decide_eq_false_2 by done. rewrite bool_decide_eq_true_2 by done.
  cbn [andb orb negb].
  set (g := TournamentSignals.set_defaults (TournamentSignals.match_data instance)
              (default TournamentSignals.blank (matches db !! Tournaments.id instance))).
  assert (get_object user (Tournaments.id instance)
            (TournamentSignals.save instance created db) = Ok g) as ->.
  { apply get_object_Some. unfold MatchViews.get_user_allowed_matches.
    rewrite Hauth, Hstaff. cbn [negb].
    rewrite bool_decide_eq_false_2 by done. rewrite bool_decide_eq_true_2 by done.
    cbv zeta. apply list_elem_of_filter. split.
    - left. cbn [snd]. subst g. cbn [TournamentSignals.set_defaults home_team
        TournamentSignals.match_data TournamentSignals.md_home_team].
      by apply (club_owner_is_owned user _ home).
    - apply elem_of_map_to_list. rewrite save_matches. apply sync_lookup. }
  assert (not_the_creator user g = false) as ->.
  { unfold not_the_creator. subst g. cbn [TournamentSignals.set_defaults created_by].
    destruct (matches db !! Tournaments.id instance) as [g0|] eqn:Hg0; simpl.
    - by rewrite (Hold g0 eq_refl).
    - done. }
  split; [done|]. split.
  - cbn. apply lookup_delete_eq.
  - cbn. apply lookup_insert_eq.
Qed.

Lemma staff_deletes_mirror_witness :
  let db1 := TournamentSignals.save (Examples.tournament_match "scheduled") true
               Examples.db in
  let r := destroy Examples.staff 100 db1 in
  is_Some (matches db1 !! 100) ∧
  r.1 = Ok tt ∧ matches r.2 !! 100 = None ∧
  tournament_matches r.2 !! 100 = Some (Examples.tournament_match "scheduled").
Proof.
  cbv zeta. split; [eexists; vm_compute; reflexivity|].
  refine (staff_deletes_mirror Examples.staff (Examples.tournament_match "scheduled") true
            (Examples.team 1) Examples.db eq_refl eq_refl _ _ _).
  - vm_compute. reflexivity.
  - vm_compute. reflexivity.
  - intros g0 Hg0. vm_compute in Hg0. discriminate Hg0.
Defined.

End GlobalMatches.

(** ** The statistics of a player *)

Section PlayerStatistics.
Import Users Matches Permissions PlayerStatsView.

(** X24: a parent who is the second parent of a player, and not the
    first, finds the player in [MyPlayersView] but is refused the
    statistics of that player: the list reads both parent emails, the
    statistics view the first only. *)
Theorem second_parent_refused_stats (user : User) (player_id : Z) (player : Teams.Player)
    (db : DB) :
  is_authenticated user = true →
  user_type user = "parent" →
  coached_teams user db = [] →
  players db !! player_id = Some player →
  Teams.parent2_email player = email user →
  Teams.parent_email player ≠ email user →
  (player_id, player) ∈ TeamViews.MyPlayersView_get_queryset user db ∧
  get user player_id db
  = Raise (PermissionDenied "You do not have permission to view this player's stats").
Proof.
  intros Hauth Hparent Hteams Hplayer Hsecond Hfirst. split.
  - unfold TeamViews.MyPlayersView_get_queryset. apply list_elem_of_filter.
    split; [by right; right|]. by apply elem_of_map_to_list.
  - unfold get, has_access. rewrite Hauth, Hparent, Hteams, Hplayer. cbn [negb exists_].
    rewrite (bool_decide_eq_false_2 ("parent" = "admin")),
      (bool_decide_eq_false_2 ("parent" = "staff")),
      (bool_decide_eq_false_2 ("parent" = "coach")) by done. cbn [orb].
    rewrite bool_decide_eq_true_2 by done.
    by rewrite bool_decide_eq_false_2 by done.
Qed.

Lemma second_parent_refused_stats_witness :
  (20, Examples.player 2 9 false 0 "mum@example.com" "dad@example.com")
    ∈ TeamViews.MyPlayersView_get_queryset Examples.parent Examples.db ∧
  get Examples.parent 20 Examples.db
  = Raise (PermissionDenied "You do not have permission to view this player's stats").
Proof.
  refine (second_parent_refused_stats Examples.parent 20
            (Examples.player 2 9 false 0 "mum@example.com" "dad@example.com") Examples.db
            eq_refl eq_refl _ _ eq_refl _).
  - vm_compute. reflexivity.
  - vm_compute. reflexivity.
  - done.
Defined.

Lemma objects_all_lookup {A} (table : gmap Z A) (k : Z) (v : A) :
  table !! k = Some v →
  objects_all table ≡ₚ (k, v) :: filter (λ kv, kv.1 ≠ k) (objects_all table).
Proof.
  intros Hk. rewrite <- (objects_all_insert table k v). by rewrite insert_id.
Qed.

(** The sum over the rows of a player moves by the difference of the row
    that is replaced. *)
Lemma total_replace_row (f : MatchLineup → Z) (table : gmap Z MatchLineup) (lk : Z)
    (old new : MatchLineup) (p : Z) :
  table !! lk = Some old → lu_player old = p → lu_player new = p →
  total (λ kv, f kv.2) (filter (λ kv, lu_player kv.2 = p) (objects_all (<[lk := new]> table)))
  = total (λ kv, f kv.2) (filter (λ kv, lu_player kv.2 = p) (objects_all table))
    + (f new - f old).
Proof.
  intros Hold Hpo Hpn.
  rewrite (total_Permutation _ _ _
             (filter_Permutation _ _ _ (objects_all_insert table lk new))).
  rewrite (total_Permutation _ (filter _ (objects_all table)) _
             (filter_Permutation _ _ _ (objects_all_lookup table lk old Hold))).
  rewrite !filter_cons, !decide_True by done.
  unfold total. simpl. lia.
Qed.

(** X25: the statistics view counts an event of the viewset exactly:
    with one lineup row for (match, player, team), the goals of the player
    in the view go up by one for a goal or a penalty goal and stay for
    every other type, with no floor, and the minutes and the assists
    stay. *)
Theorem event_counted_in_stats (user : User) (event : MatchEvent) (db db' : DB)
    (k lk : Z) (lineup : MatchLineup) :
  MatchViews.perform_create user event db = (Ok k, db') →
  MatchViews.lineups_of (ev_match event) (ev_player event) (ev_team event) db
  = [(lk, lineup)] →
  let before := lineups_of_player (ev_player event) db in
  let after := lineups_of_player (ev_player event) db' in
  total (λ kv, goals_scored kv.2) after
  = total (λ kv, goals_scored kv.2) before
    + (if bool_decide (event_type event ∈ ["goal"; "penalty_goal"]) then 1 else 0) ∧
  total (λ kv, yellow_cards kv.2) after
  = total (λ kv, yellow_cards kv.2) before
    + (if bool_decide (event_type event = "yellow_card") then 1 else 0) ∧
  total (λ kv, red_cards kv.2) after
  = total (λ kv, red_cards kv.2) before
    + (if bool_decide (event_type event = "red_card") then 1 else 0) ∧
  total (λ kv, minutes_played kv.2) after = total (λ kv, minutes_played kv.2) before ∧
  total (λ kv, assists kv.2) after = total (λ kv, assists kv.2) before.
Proof.
  intros Hcreate Hl. cbv zeta.
  assert ((lk, lineup) ∈ MatchViews.lineups_of (ev_match event) (ev_player event)
                            (ev_team event) db)
    as (Hrow & _ & Hplayer & _)%lineups_of_elem by (rewrite Hl; apply list_elem_of_here).
  destruct (perform_create_counts user event db db' k Hcreate) as (_ & _ & Hone).
  unfold lineups_of_player. rewrite (Hone lk lineup Hl).
  destruct (count_event_frame event lineup) as (_ & _ & Hp & Hmin & Hass).
  destruct (count_event_diff event lineup) as (Hg & Hy & Hr).
  rewrite !(total_replace_row _ (lineups db) lk lineup (MatchViews.count_event event lineup)
              (ev_player event) Hrow Hplayer) by (by rewrite Hp).
  rewrite Hg, Hy, Hr, Hmin, Hass. repeat split; lia.
Qed.

Lemma event_counted_in_stats_witness :
  let db' := (MatchViews.perform_create Examples.staff Examples2.goal_event Examples.db).2 in
  total (λ kv : Z * MatchLineup, goals_scored kv.2) (lineups_of_player 20 db')
  = total (λ kv : Z * MatchLineup, goals_scored kv.2) (lineups_of_player 20 Examples.db) + 1.
Proof.
  cbv zeta.
  assert (MatchViews.perform_create Examples.staff Examples2.goal_event Examples.db
          = (Ok 1, (MatchViews.perform_create Examples.staff Examples2.goal_event
                      Examples.db).2))
    as Hcreate by (vm_compute; reflexivity).
  assert (MatchViews.lineups_of 1 20 2 Examples.db = [(10, Examples.lineup 1 2)]) as Hl
    by (vm_compute; reflexivity).
  exact (proj1 (event_counted_in_stats Examples.staff Examples2.goal_event Examples.db _ 1 10
                  (Examples.lineup 1 2) Hcreate Hl)).
Defined.

(** X26: the event viewset creates an event only for a staff member who
    owns the club of the team of the event: [IsStaffOrCoachUserType]
    admits staff only, since a user has no [is_coach], so the exemption
    for admins and the branch for coaches of [perform_create] are never
    taken. *)
Theorem event_create_only_staff (user : User) (data : MatchViews.EventData) (db db' : DB)
    (k : Z) :
  MatchViews.MatchEventViewSet_create user data db = (Ok k, db') →
  user_type user = "staff" ∧
  ∃ team_id team, MatchViews.d_team data = Some team_id ∧ teams db !! team_id = Some team ∧
                  club_owner_is user team db = true.
Proof.
  unfold MatchViews.MatchEventViewSet_create, IsStaffOrCoachUserType_passes, is_staff_member.
  destruct (negb (is_authenticated user)); [done|].
  rewrite orb_false_r.
  destruct (decide (user_type user = "staff")) as [Hstaff|Hstaff].
  2:{ by rewrite (bool_decide_eq_false_2 _ Hstaff). }
  rewrite (bool_decide_eq_true_2 _ Hstaff). cbn [negb].
  destruct (MatchViews.validate_event data db) as [event|] eqn:Hv; [|done].
  intros (_ & _ & _ & _ & _ & team & Hteam & Hperm)%perform_create_frame.
  split; [done|].
  assert (MatchViews.d_team data = Some (ev_team event)) as Hd.
  { revert Hv. unfold MatchViews.validate_event.
    destruct (MatchViews.d_team data) as [t|]; [|done].
    case_match; [|done]. by intros [= <-]. }
  exists (ev_team event), team. split; [done|]. split; [done|].
  revert Hperm. unfold MatchViews.check_team_permission. rewrite Hstaff.
  rewrite bool_decide_eq_true_2 by done. rewrite bool_decide_eq_true_2 by done.
  by destruct (club_owner_is user team db).
Qed.

Lemma event_create_only_staff_witness :
  let data := {| MatchViews.d_match := 1; MatchViews.d_team := Some 2;
                 MatchViews.d_player := 20; MatchViews.d_event_type := "goal";
                 MatchViews.d_minute := 10; MatchViews.d_additional_time := 0;
                 MatchViews.d_substituted_player := None;
                 MatchViews.d_assist_player := None |} in
  (MatchViews.MatchEventViewSet_create Examples.staff data Examples.db).1 = Ok 1 ∧
  user_type Examples.staff = "staff".
Proof.
  cbv zeta.
  assert (MatchViews.MatchEventViewSet_create Examples.staff
            {| MatchViews.d_match := 1; MatchViews.d_team := Some 2;
               MatchViews.d_player := 20; MatchViews.d_event_type := "goal";
               MatchViews.d_minute := 10; MatchViews.d_additional_time := 0;
               MatchViews.d_substituted_player := None;
               MatchViews.d_assist_player := None |} Examples.db
          = (Ok 1, (MatchViews.MatchEventViewSet_create Examples.staff
            {| MatchViews.d_match := 1; MatchViews.d_team := Some 2;
               MatchViews.d_player := 20; MatchViews.d_event_type := "goal";
               MatchViews.d_minute := 10; MatchViews.d_additional_time := 0;
               MatchViews.d_substituted_player := None;
               MatchViews.d_assist_player := None |} Examples.db).2)) as Hcreate
    by (vm_compute; reflexivity).
  split; [by rewrite Hcreate|].
  exact (proj1 (event_create_only_staff _ _ _ _ _ Hcreate)).
Defined.

End PlayerStatistics.

(** ** Repeating a PATCH of a lineup row *)

Section PatchTwice.
Import Users Matches MatchViews.

Lemma patched_idemp (lineup : MatchLineup) (data : LineupPatch) :
  patched (patched lineup data) data = patched lineup data.
Proof.
  unfold patched, set_stats. cbn.
  by destruct (p_minutes_played data), (p_goals_scored data), (p_assists data),
    (p_yellow_cards data), (p_red_cards data).
Qed.

Lemma exists_Permutation {A} (l1 l2 : list A) : l1 ≡ₚ l2 → exists_ l1 = exists_ l2.
Proof.
  intros Hp. destruct l1, l2; try done.
  - by apply Permutation_nil_cons in Hp.
  - symmetry in Hp. by apply Permutation_nil_cons in Hp.
Qed.

(** A query that excludes the row of key [k] does not see what is stored
    under [k]. *)
Lemma filter_insert_excluded {A} (P : Z * A → Prop) `{!∀ kv, Decision (P kv)}
    (table : gmap Z A) (k : Z) (w : A) :
  (∀ kv, P kv → kv.1 ≠ k) →
  filter P (objects_all (<[k := w]> table)) ≡ₚ filter P (objects_all table).
Proof.
  intros Hex. rewrite (filter_Permutation _ _ _ (objects_all_insert table k w)).
  rewrite filter_cons, decide_False by (intros HP; by apply (Hex _ HP)).
  by rewrite filter_filter_impl.
Qed.

Lemma full_clean_insert_self (k : Z) (self w : Teams.Player) (players : gmap Z Teams.Player) :
  Teams.full_clean (Some k) self (<[k := w]> players) = Teams.full_clean (Some k) self players.
Proof.
  unfold Teams.full_clean, Teams.clean, Teams.validate_unique, Teams.other_main_players.
  rewrite !filter_filter_and.
  rewrite (count_Permutation _ _
             (filter_insert_excluded
                (λ kv, Some kv.1 ≠ Some k
                       ∧ Teams.team kv.2 = Teams.team self
                         ∧ Teams.is_main_player kv.2 = true ∧ Teams.is_active kv.2 = true)
                players k w ltac:(intros kv [Hne _]; congruence))).
  rewrite (exists_Permutation _ _
             (filter_insert_excluded
                (λ kv, Some kv.1 ≠ Some k ∧ Teams.team kv.2 = Teams.team self
                       ∧ Teams.jersey_number kv.2 = Teams.jersey_number self)
                players k w ltac:(intros kv [Hne _]; congruence))).
  done.
Qed.

Lemma py_max0_idemp (x : Z) : py_max0 (py_max0 x) = py_max0 x.
Proof. unfold py_max0. lia. Qed.

(** Saving a stored lineup row a second time with the same content
    changes nothing more. *)
Lemma lineup_save_twice (lk : Z) (instance : MatchLineup) (db db1 : DB) (k : Z) :
  is_Some (lineups db !! lk) →
  MatchSignals.save (Some lk) instance db = Ok (k, db1) →
  clubs db1 = clubs db ∧ teams db1 = teams db ∧
  lineups db1 !! lk = Some instance ∧
  MatchSignals.save (Some lk) instance db1 = Ok (lk, db1).
Proof.
  intros [old Hold]. unfold MatchSignals.save, MatchSignals.update_player_stats_on_lineup_change.
  destruct (decide (lk = 0)) as [Hz|Hz].
  { rewrite !(bool_decide_eq_true_2 _ Hz). intros [= <- <-].
    repeat split; try done; [cbn; apply lookup_insert_eq|].
    cbn. by rewrite insert_insert_eq. }
  rewrite !(bool_decide_eq_false_2 _ Hz), Hold. cbv zeta.
  destruct (players db !! lu_player instance) as [pr|] eqn:Hpr; [|done].
  unfold Teams.save.
  match goal with |- context [Teams.full_clean ?a ?b (players db)] =>
    destruct (Teams.full_clean a b (players db)) as [[]|] eqn:Hclean; [|done] end.
  intros [= <- <-]. cbn [clubs teams lineups players set_lineups set_players].
  rewrite !lookup_insert_eq. repeat split; try done.
  rewrite !Z.sub_diag. cbn.
  rewrite !py_or_0, !Z.add_0_r, !py_max0_idemp. rewrite !py_or_0 in Hclean.
  rewrite full_clean_insert_self, Hclean. cbn.
  by rewrite !insert_insert_eq.
Qed.

Lemma patch_Ok (user : User) (match_id lineup_id : Z) (data : LineupPatch) (db db1 : DB) :
  MatchLineupDetailView_patch user match_id lineup_id data db = (Ok tt, db1) →
  ∃ old k, lineups db !! lineup_id = Some old ∧
    MatchSignals.save (Some lineup_id) (patched old data) db = Ok (k, db1).
Proof.
  unfold MatchLineupDetailView_patch.
  destruct (negb (is_authenticated user)); [done|].
  destruct (lineups db !! lineup_id) as [old|]; [|done].
  case_bool_decide; [done|]. cbv zeta.
  match goal with |- context [match ?p with Ok _ => _ | Raise _ => _ end] =>
    destruct p as [[]|]; [|done] end.
  destruct (negb (stats_valid _)); [done|].
  destruct (MatchSignals.save _ _ _) as [[k db']|] eqn:Hsave; [|done].
  intros [= <-]. by exists old, k.
Qed.

(** X27: a PATCH that carries statistics only (minutes_played,
    goals_scored, assists, yellow_cards, red_cards) is idempotent: when it
    succeeds, the same request again succeeds and leaves the database, the
    career totals of the player among it, as the first one left it. A
    PATCH that also moves the row to another match, team or player is
    outside [LineupPatch] and outside this statement. *)
Theorem stats_patch_idempotent (user : User) (match_id lineup_id : Z) (data : LineupPatch)
    (db db1 : DB) :
  MatchLineupDetailView_patch user match_id lineup_id data db = (Ok tt, db1) →
  MatchLineupDetailView_patch user match_id lineup_id data db1 = (Ok tt, db1).
Proof.
  intros Hfirst. pose proof Hfirst as (old & k & Hold & Hsave)%patch_Ok.
  apply lineup_save_twice in Hsave as (Hc & Ht & Hnew & Hsave); [|by exists old].
  revert Hfirst. unfold MatchLineupDetailView_patch.
  destruct (negb (is_authenticated user)); [done|].
  rewrite Hold, Hnew. cbn [patched set_stats lu_match lu_team].
  case_bool_decide; [done|]. cbv zeta. rewrite Ht.
  destruct (teams db !! lu_team old) as [team|].
  - rewrite (check_team_permission_frame user (lu_team old) team db1 db Hc Ht).
    match goal with |- context [match ?p with Ok _ => _ | Raise _ => _ end] =>
      destruct p as [[]|]; [|done] end.
    fold (set_stats old). fold (patched old data). rewrite patched_idemp.
    destruct (negb (stats_valid _)); [done|]. by rewrite Hsave.
  - match goal with |- context [match ?p with Ok _ => _ | Raise _ => _ end] =>
      destruct p as [[]|]; [|done] end.
    fold (patched old data). rewrite patched_idemp.
    destruct (negb (stats_valid _)); [done|]. by rewrite Hsave.
Qed.

Lemma stats_patch_idempotent_witness :
  let db1 := (MatchLineupDetailView_patch Examples.admin 1 10 (Examples.goals_patch 5)
                Examples.db).2 in
  StatPropagation.career StatPropagation.Goals 20 db1 = 3 ∧
  MatchLineupDetailView_patch Examples.admin 1 10 (Examples.goals_patch 5) db1 = (Ok tt, db1).
Proof.
  cbv zeta. split; [vm_compute; reflexivity|].
  apply (stats_patch_idempotent Examples.admin 1 10 (Examples.goals_patch 5) Examples.db).
  vm_compute. reflexivity.
Defined.

End PatchTwice.

(** ** Creating a match from the view of a group *)

Section GroupCreateMatch.
Import Users Tournaments TournamentViews.

Lemma create_and_populate_spec (match_ : Match) (db : DB) :
  create_and_populate match_ db
  = (Ok match_,
     let db1 := TournamentSignals.save match_ true db in
     set_lineups db1
       (MatchViews.append_rows (lineups db)
          ((LineupRows.starter_row (id match_) (home_team match_)
              <$> main_players (home_team match_) db)
           ++ (LineupRows.starter_row (id match_) (away_team match_)
                 <$> main_players (away_team match_) db)))).
Proof.
  unfold create_and_populate. rewrite !populate_spec. cbv zeta. f_equal.
  unfold MatchViews.append_rows. by rewrite foldl_app.
Qed.

(** X28: a match created from the view of a group is one [Match.clean]
    accepts: two different teams, both members of the group. It is stored
    as a scheduled match without goals, the global match of its key
    mirrors it, every active main player of the two teams gets a starter
    row, and no career total changes. *)
Theorem group_match_is_clean (user : User) (group_ : TournamentGroup)
    (data : CreateMatchData) (new_id : Z) (db db' : DB) (m : Match) :
  TournamentGroupViewSet_create_match user group_ data new_id db = (Ok m, db') →
  clean m db' = Ok tt ∧
  status m = "scheduled" ∧ home_score m = 0 ∧ away_score m = 0 ∧
  tournament_matches db' !! new_id = Some m ∧
  (∃ g, matches db' !! new_id = Some g ∧ TournamentSignals.mirrors g m) ∧
  lineups db'
  = MatchViews.append_rows (lineups db)
      ((LineupRows.starter_row new_id (home_team m) <$> main_players (home_team m) db)
       ++ (LineupRows.starter_row new_id (away_team m) <$> main_players (away_team m) db)) ∧
  players db' = players db.
Proof.
  intros Hcreate.
  destruct (group_create_match_checks_membership _ _ _ _ _ _ _ Hcreate)
    as (Hgroup & Hne & Hhome & Haway).
  revert Hcreate. unfold TournamentGroupViewSet_create_match.
  destruct (negb (Permissions.has_permission _ _)); [done|].
  destruct (_ && _); [done|].
  destruct (is_valid data (Some (g_id group_)) db) as [[]|]; [|done].
  destruct (get_phase _ _ _) as [phase_|]; [|done].
  rewrite create_and_populate_spec. cbv zeta. intros [= <- <-].
  split.
  { unfold clean. cbn [home_team away_team group new_match] in *.
    rewrite bool_decide_eq_false_2 by done.
    change (in_group ?t ?g (set_lineups (TournamentSignals.save ?x ?c db) ?l))
      with (in_group t g db).
    by rewrite Hhome, Haway. }
  repeat split; try done.
  - cbn. apply lookup_insert_eq.
  - eexists. split.
    + cbn [matches set_lineups]. rewrite save_matches. apply sync_lookup.
    + apply set_defaults_mirrors. apply (bool_decide_unpack _). by vm_compute.
Qed.

Lemma group_match_is_clean_witness :
  let data := {| c_home_team_id := 1; c_away_team_id := 2; c_match_date := 0;
                 c_venue := None; c_round_number := None; c_match_number := None;
                 c_group_id := None; c_phase_id := None |} in
  let r := TournamentGroupViewSet_create_match Examples.admin Examples.group_A data 200
             Examples2.db_group in
  ∃ m, r.1 = Ok m ∧ clean m r.2 = Ok tt ∧ tournament_matches r.2 !! 200 = Some m.
Proof.
  cbv zeta.
  assert (∃ m, TournamentGroupViewSet_create_match Examples.admin Examples.group_A
                 {| c_home_team_id := 1; c_away_team_id := 2; c_match_date := 0;
                    c_venue := None; c_round_number := None; c_match_number := None;
                    c_group_id := None; c_phase_id := None |} 200 Examples2.db_group
               = (Ok m, (TournamentGroupViewSet_create_match Examples.admin Examples.group_A
                 {| c_home_team_id := 1; c_away_team_id := 2; c_match_date := 0;
                    c_venue := None; c_round_number := None; c_match_number := None;
                    c_group_id := None; c_phase_id := None |} 200 Examples2.db_group).2))
    as [m Hcreate] by (eexists; vm_compute; reflexivity).
  destruct (group_match_is_clean _ _ _ _ _ _ _ Hcreate) as (Hclean & _ & _ & _ & Hm & _).
  exists m. split; [by rewrite Hcreate|]. split; [exact Hclean|exact Hm].
Defined.

(** X29: the query parameters of the list of the tournament matches only
    narrow it: a match is listed under parameters exactly when it is
    listed without them and meets each parameter that is given. *)
Theorem get_queryset_params_narrow (user : User) (params : QueryParams) (db : DB)
    (m : Match) :
  m ∈ get_queryset user params db ↔
  m ∈ get_queryset user no_params db ∧
  (∀ a, q_tournament params = Some a → t_id (tournament m) = a) ∧
  (∀ a, q_group params = Some a → group m = Some a) ∧
  (∀ a, q_phase params = Some a → ph_id <$> phase m = Some a) ∧
  (∀ a, q_status params = Some a → status m = a) ∧
  (∀ a, q_team params = Some a → home_team m = a ∨ away_team m = a).
Proof.
  unfold get_queryset. destruct (negb (is_authenticated user)).
  { split; [by intros ?%elem_of_nil|by intros [?%elem_of_nil _]]. }
  cbn [no_params q_tournament q_group q_phase q_status q_team]. cbv zeta.
  generalize (role_filter user db (objects_all (tournament_matches db)).*2) as l. intros l.
  destruct (q_tournament params) as [a1|], (q_group params) as [a2|],
    (q_phase params) as [a3|], (q_status params) as [a4|], (q_team params) as [a5|];
    rewrite ?list_elem_of_filter;
    (split; [intros H; destruct_and?; repeat split; try done; by intros ? [= <-]
            |intros (Hin & H1 & H2 & H3 & H4 & H5); repeat split; try done;
             first [by apply H1|by apply H2|by apply H3|by apply H4|by apply H5]]).
Qed.

End GroupCreateMatch.

(** ** The lifecycle of a tournament *)

Section TournamentLifecycleFacts.
Import Users Tournaments Permissions TournamentLifecycle.

Lemma organizer_only_Ok (user : User) (tournament_id : Z) (table : gmap Z Tournament)
    (detail : string) (t : Tournament) :
  organizer_only user tournament_id table detail = Ok t →
  table !! tournament_id = Some t ∧
  is_admin_user user = true ∧ is_active user = true ∧ is_verified user = true ∧
  (organizer t = Users.id user ∨ is_superuser user = true).
Proof.
  unfold organizer_only, has_permission, IsAdminUserType_passes.
  destruct (is_authenticated user); [|done].
  destruct (is_admin_user user); [|done].
  destruct (is_active user); [|done].
  destruct (is_verified user); [|done]. cbn [andb negb].
  destruct (table !! tournament_id) as [t0|]; [|done].
  destruct (decide (organizer t0 = Users.id user)) as [Horg|Horg].
  - rewrite bool_decide_eq_false_2 by (intros Hne; by apply Hne). cbn.
    intros [= <-]. repeat split; try done. by left.
  - rewrite bool_decide_eq_true_2 by done. cbn [andb].
    destruct (is_superuser user); [|done]. cbn. intros [= <-].
    repeat split; try done. by right.
Qed.

(** One request: the row stays, with its organizer; [upcoming] is never
    written, and [active] only over [upcoming]. *)
Lemma post_step (r : Request) (table : gmap Z Tournament) (k : Z) (t : Tournament) :
  table !! k = Some t →
  ∃ t', (post r table).2 !! k = Some t' ∧ organizer t' = organizer t ∧
        t_id t' = t_id t ∧
        (t_status t' = "upcoming" → t_status t = "upcoming") ∧
        (t_status t' = "active" → t_status t = "upcoming" ∨ t_status t = "active").
Proof.
  intros Hk.
  assert (∀ (s : string) (t0 : Tournament),
            table !! r_tournament r = Some t0 → s ≠ "upcoming" →
            (s = "active" → t_status t0 = "upcoming") →
            ∃ t', <[r_tournament r := with_t_status t0 s]> table !! k = Some t' ∧
                  organizer t' = organizer t ∧ t_id t' = t_id t ∧
                  (t_status t' = "upcoming" → t_status t = "upcoming") ∧
                  (t_status t' = "active" → t_status t = "upcoming" ∨ t_status t = "active"))
    as Hwrite.
  { intros s t0 Ht0 Hs Hact. destruct (decide (r_tournament r = k)) as [Heq|Hne].
    - rewrite Heq in Ht0 |- *. rewrite lookup_insert_eq.
      rewrite Hk in Ht0. injection Ht0 as <-.
      eexists. split; [done|]. cbn. repeat split; try done. intros Hs'. left. by apply Hact.
    - rewrite lookup_insert_ne by done. exists t. repeat split; try done. by right. }
  assert (∃ t', table !! k = Some t' ∧ organizer t' = organizer t ∧ t_id t' = t_id t ∧
                (t_status t' = "upcoming" → t_status t = "upcoming") ∧
                (t_status t' = "active" → t_status t = "upcoming" ∨ t_status t = "active"))
    as Hsame by (exists t; repeat split; try done; by right).
  unfold post, StartTournamentView_post, FinishTournamentView_post,
    CancelTournamentView_post.
  destruct (r_view r).
  - destruct (organizer_only _ _ _ _) as [t0|] eqn:Hhead; [|done].
    apply organizer_only_Ok in Hhead as [Ht0 _].
    destruct (decide (t_status t0 = "upcoming")) as [Hup|Hup].
    + rewrite bool_decide_eq_false_2 by (intros Hne; by apply Hne). cbn [snd].
      by apply Hwrite.
    + by rewrite bool_decide_eq_true_2 by done.
  - destruct (organizer_only _ _ _ _) as [t0|] eqn:Hhead; [|done].
    apply organizer_only_Ok in Hhead as [Ht0 _]. cbn [snd]. by apply Hwrite.
  - destruct (organizer_only _ _ _ _) as [t0|] eqn:Hhead; [|done].
    apply organizer_only_Ok in Hhead as [Ht0 _]. cbn [snd]. by apply Hwrite.
Qed.

(** X30: a tournament is started at most once: whatever requests the
    three lifecycle views serve, in whatever order and for whatever user,
    a tournament that is no longer upcoming never becomes upcoming again,
    and one that is neither upcoming nor active never becomes active; its
    row and its organizer stay. *)
Theorem tournament_started_once (requests : list Request) (table : gmap Z Tournament)
    (k : Z) (t : Tournament) :
  table !! k = Some t →
  t_status t ≠ "upcoming" →
  ∃ t', run requests table !! k = Some t' ∧ organizer t' = organizer t ∧
        t_status t' ≠ "upcoming" ∧
        (t_status t ≠ "active" → t_status t' ≠ "active").
Proof.
  revert table t. induction requests as [|r requests IH]; intros table t Hk Hup.
  - exists t. by repeat split.
  - destruct (post_step r table k t Hk) as (t1 & Hk1 & Horg1 & _ & Hup1 & Hact1).
    destruct (IH (post r table).2 t1 Hk1 ltac:(tauto)) as (t' & Hk' & Horg' & Hup' & Hact').
    exists t'. split; [exact Hk'|]. split; [by rewrite Horg', Horg1|]. split; [done|].
    intros Hact. apply Hact'. intros H1. destruct (Hact1 H1); tauto.
Qed.

Lemma tournament_started_once_witness :
  let table : gmap Z Tournament :=
    {[7 := with_t_status Examples.tournament "finished"]} in
  let requests := [ {| r_view := Cancel; r_user := Examples.admin; r_tournament := 7 |};
                    {| r_view := Start; r_user := Examples.admin; r_tournament := 7 |} ] in
  t_status <$> run requests table !! 7 = Some "cancelled" ∧
  ∃ t', run requests table !! 7 = Some t' ∧ t_status t' ≠ "active".
Proof.
  cbv zeta. split; [vm_compute; reflexivity|].
  destruct (tournament_started_once
              [ {| r_view := Cancel; r_user := Examples.admin; r_tournament := 7 |};
                {| r_view := Start; r_user := Examples.admin; r_tournament := 7 |} ]
              ({[7 := with_t_status Examples.tournament "finished"]} : gmap Z Tournament)
              7 (with_t_status Examples.tournament "finished")
              ltac:(apply lookup_singleton_eq) ltac:(done))
    as (t' & Hk & _ & _ & Hact).
  exists t'. split; [exact Hk|]. by apply Hact.
Defined.

End TournamentLifecycleFacts.
